(** * Quiz page extraction (main.py): a shallow embedding and its properties

    The extraction engine of [main.py] turns the parsed markup of a quiz
    page and the configuration payloads embedded in it into [Question]
    records.  This file embeds [_extract_quiz_options] and
    [_parse_quiz_from_html] together with the parts of the Python runtime
    they rest on (string methods, truthiness, [str], dictionaries, the
    element tree and the selectors handed to [select]/[select_one], and
    [urllib.parse.urljoin]), and proves the properties stated about them.

    Strings are sequences of code points below 256 ([string] of the
    standard library); exceptions are values of [pyres]. *)

From Stdlib Require Import String Ascii List ZArith Bool Lia.
From stdpp Require Import base option list gmap strings pretty.

Import ListNotations.
Set Warnings "-register-all".
Local Open Scope string_scope.
Local Open Scope list_scope.

(* ===================================================================== *)
(** ** Exceptions *)
(* ===================================================================== *)

(** Exceptions the modelled code can raise.  [OutsideModel] is not a Python
    exception: a computation returns it where the embedding does not
    follow the library any further (see [Css.label_selector] and
    [Urllib.check_netloc]); nothing is stated about such runs. *)
Inductive exn : Type :=
| AttributeError
| TypeError
| ValueError
| OutsideModel.

Inductive pyres (A : Type) : Type :=
| Ok (a : A)
| Raise (e : exn).

Arguments Ok {A} a.
Arguments Raise {A} e.

#[export] Instance pyres_ret : MRet pyres := fun _ a => Ok a.
#[export] Instance pyres_bind : MBind pyres := fun _ _ f m =>
  match m with
  | Ok a => f a
  | Raise e => Raise e
  end.

(* ===================================================================== *)
(** ** Python strings *)
(* ===================================================================== *)

Module PyStr.

Definition code (c : ascii) : nat := nat_of_ascii c.

Definition chr (n : nat) : ascii := ascii_of_nat n.

(** The double quote character. *)
Definition dquote : ascii := chr 34.

(** [str.isspace] on one code point below 256. *)
Definition isspace (c : ascii) : bool :=
  let n := code c in
  (((9 <=? n) && (n <=? 13)) || ((28 <=? n) && (n <=? 32))
   || (n =? 133) || (n =? 160))%nat.

(** [str.lower] on one code point below 256. *)
Definition lower_char (c : ascii) : ascii :=
  let n := code c in
  if (((65 <=? n) && (n <=? 90))
      || ((192 <=? n) && (n <=? 222) && negb (n =? 215)))%nat
  then chr (n + 32) else c.

(** [s.lower()] *)
Fixpoint lower (s : string) : string :=
  match s with
  | EmptyString => EmptyString
  | String c r => String (lower_char c) (lower r)
  end.

(** [s.lstrip(chars)] for the set of characters accepted by [p]. *)
Fixpoint lstrip_by (p : ascii -> bool) (s : string) : string :=
  match s with
  | EmptyString => EmptyString
  | String c r => if p c then lstrip_by p r else s
  end.

(** [s.rstrip(chars)] for the set of characters accepted by [p]. *)
Fixpoint rstrip_by (p : ascii -> bool) (s : string) : string :=
  match s with
  | EmptyString => EmptyString
  | String c r =>
      match rstrip_by p r with
      | EmptyString => if p c then EmptyString else String c EmptyString
      | r' => String c r'
      end
  end.

(** [s.strip()] *)
Definition strip (s : string) : string := rstrip_by isspace (lstrip_by isspace s).

(** [sep.join(parts)] *)
Fixpoint join (sep : string) (parts : list string) : string :=
  match parts with
  | [] => EmptyString
  | [p] => p
  | p :: rest => p +:+ sep +:+ join sep rest
  end.

(** [c in s] for a single character [c]. *)
Fixpoint contains (c : ascii) (s : string) : bool :=
  match s with
  | EmptyString => false
  | String d r => Ascii.eqb c d || contains c r
  end.

(** [all(p(c) for c in s)] *)
Fixpoint all_chars (p : ascii -> bool) (s : string) : bool :=
  match s with
  | EmptyString => true
  | String c r => p c && all_chars p r
  end.

(** [s.startswith(p)] *)
Fixpoint startswith (p s : string) : bool :=
  match p, s with
  | EmptyString, _ => true
  | String a p', String b s' => Ascii.eqb a b && startswith p' s'
  | String _ _, EmptyString => false
  end.

(** [s[n:]] *)
Fixpoint drop (n : nat) (s : string) : string :=
  match n, s with
  | O, _ => s
  | S n', String _ r => drop n' r
  | S _, EmptyString => EmptyString
  end.

(** [s.replace(c, "")] for a set of single characters. *)
Fixpoint remove_chars (p : ascii -> bool) (s : string) : string :=
  match s with
  | EmptyString => EmptyString
  | String c r => if p c then remove_chars p r else String c (remove_chars p r)
  end.

(** [s.partition(c)] without the separator: the text before the first
    [c] and, when [c] occurs, the text after it. *)
Fixpoint partition (c : ascii) (s : string) : string * option string :=
  match s with
  | EmptyString => (EmptyString, None)
  | String d r =>
      if Ascii.eqb c d then (EmptyString, Some r)
      else let '(a, b) := partition c r in (String d a, b)
  end.

(** [s.split(c)] *)
Fixpoint split (c : ascii) (s : string) : list string :=
  match s with
  | EmptyString => [EmptyString]
  | String d r =>
      if Ascii.eqb c d then EmptyString :: split c r
      else match split c r with
           | [] => [String d EmptyString]
           | w :: ws => String d w :: ws
           end
  end.

(** The maximal runs of characters that are not white space
    ([re.findall(r"\S+", s)]). *)
Fixpoint words_aux (cur : string) (s : string) : list string :=
  match s with
  | EmptyString => match cur with EmptyString => [] | _ => [String.rev cur] end
  | String c r =>
      if isspace c
      then match cur with
           | EmptyString => words_aux EmptyString r
           | _ => String.rev cur :: words_aux EmptyString r
           end
      else words_aux (String c cur) r
  end.

Definition words (s : string) : list string := words_aux EmptyString s.

(** [bool(s)]: the string is not empty. *)
Definition nonempty (s : string) : bool := negb (String.eqb s "").

(** Membership of a string in a tuple or list of strings. *)
Definition mem (s : string) (l : list string) : bool :=
  existsb (String.eqb s) l.

End PyStr.

(* ===================================================================== *)
(** ** Python values decoded from JSON *)
(* ===================================================================== *)

Module Py.

(** What [json.loads] returns: [None], booleans, integers, strings, lists
    and dictionaries with string keys (in insertion order).  JSON numbers
    with a fraction or an exponent (Python floats) are not modelled. *)
Inductive value : Type :=
| PNone
| PBool (b : bool)
| PInt (z : Z)
| PStr (s : string)
| PList (l : list value)
| PDict (d : list (string * value)).

Definition dict : Type := list (string * value).

(** [bool(v)] *)
Definition truthy (v : value) : bool :=
  match v with
  | PNone => false
  | PBool b => b
  | PInt z => negb (Z.eqb z 0)
  | PStr s => negb (String.eqb s "")
  | PList l => match l with [] => false | _ => true end
  | PDict d => match d with [] => false | _ => true end
  end.

Definition hexdigit (n : nat) : ascii :=
  if (n <? 10)%nat then PyStr.chr (48 + n) else PyStr.chr (87 + n).

(** One character of [repr(s)] for a string quoted with [q]. *)
Definition repr_char (q c : ascii) : string :=
  let n := PyStr.code c in
  if Ascii.eqb c q || Ascii.eqb c "\"%char then String "\"%char (String c EmptyString)
  else if (n =? 9)%nat then "\t"
  else if (n =? 10)%nat then "\n"
  else if (n =? 13)%nat then "\r"
  else if ((n <? 32) || ((127 <=? n) && (n <=? 160)) || (n =? 173))%nat
  then "\x" +:+ String (hexdigit (n / 16)) (String (hexdigit (n mod 16)) EmptyString)
  else String c EmptyString.

Fixpoint repr_chars (q : ascii) (s : string) : string :=
  match s with
  | EmptyString => EmptyString
  | String c r => repr_char q c +:+ repr_chars q r
  end.

(** [repr(s)] for a string [s]. *)
Definition repr_str (s : string) : string :=
  let q := if PyStr.contains "'"%char s && negb (PyStr.contains PyStr.dquote s)
           then PyStr.dquote else "'"%char in
  String q (repr_chars q s +:+ String q EmptyString).

(** [repr(v)] *)
Fixpoint repr (v : value) : string :=
  match v with
  | PNone => "None"
  | PBool true => "True"
  | PBool false => "False"
  | PInt z => pretty z
  | PStr s => repr_str s
  | PList l => "[" +:+ PyStr.join ", " (map repr l) +:+ "]"
  | PDict d =>
      "{" +:+ PyStr.join ", "
                (map (fun kv => repr_str (fst kv) +:+ ": " +:+ repr (snd kv)) d)
          +:+ "}"
  end.

(** [str(v)] *)
Definition str (v : value) : string :=
  match v with
  | PStr s => s
  | _ => repr v
  end.

(** [v == s] for a string [s]. *)
Definition eq_str (v : value) (s : string) : bool :=
  match v with
  | PStr t => String.eqb t s
  | _ => false
  end.

(** [d.get(k)] on a dictionary; [None] of Python is [None] here. *)
Definition dict_get (k : string) (d : dict) : option value :=
  snd <$> List.find (fun kv => String.eqb (fst kv) k) d.

(** The dictionary behind [v.get] and [v.items]: only a [dict] has these
    methods. *)
Definition as_dict (v : value) : pyres dict :=
  match v with
  | PDict d => Ok d
  | _ => Raise AttributeError
  end.

(** [a or b] *)
Definition or_else (a : option value) (b : value) : value :=
  match a with
  | Some v => if truthy v then v else b
  | None => b
  end.

(** Equality of two hashable values used as dictionary keys. *)
Definition key_eqb (a b : value) : bool :=
  match a, b with
  | PNone, PNone => true
  | PStr s, PStr t => String.eqb s t
  | PBool x, PBool y => Bool.eqb x y
  | PInt x, PInt y => Z.eqb x y
  | PBool x, PInt y => Z.eqb (if x then 1 else 0) y
  | PInt x, PBool y => Z.eqb x (if y then 1 else 0)
  | _, _ => false
  end.

Definition hashable (v : value) : bool :=
  match v with
  | PList _ | PDict _ => false
  | _ => true
  end.

(** A dictionary with keys of any hashable type, in insertion order. *)
Definition kdict : Type := list (value * string).

(** [d[k] = x]: an equal key keeps its place and takes the new value. *)
Fixpoint kdict_set (k : value) (x : string) (d : kdict) : kdict :=
  match d with
  | [] => [(k, x)]
  | (k', x') :: r =>
      if key_eqb k' k then (k', x) :: r else (k', x') :: kdict_set k x r
  end.

(** [d.get(k)] *)
Definition kdict_get (k : value) (d : kdict) : option string :=
  snd <$> List.find (fun kv => key_eqb (fst kv) k) d.

End Py.

(* ===================================================================== *)
(** ** The element tree built by BeautifulSoup *)
(* ===================================================================== *)

Module Dom.

(** A node of the parsed document: a text string, a string that is not
    text (a comment, the content of a script), or a tag with its
    attributes (name and raw value; the parser keeps the last of
    duplicate names) and children. *)
Inductive node : Type :=
| Text (s : string)
| Comment (s : string)
| Elem (tag : string) (attrs : list (string * string)) (children : list node).

Definition is_elem (n : node) : bool :=
  match n with Elem _ _ _ => true | _ => false end.

Definition tag_of (n : node) : option string :=
  match n with Elem t _ _ => Some t | _ => None end.

Definition attrs_of (n : node) : list (string * string) :=
  match n with Elem _ a _ => a | _ => [] end.

Definition children_of (n : node) : list node :=
  match n with Elem _ _ c => c | _ => [] end.

(** [el.get(name)] *)
Definition get (name : string) (n : node) : option string :=
  snd <$> List.find (fun kv => String.eqb (fst kv) name) (attrs_of n).

(** The value of [class] as the list of its tokens. *)
Definition classes (n : node) : list string :=
  match get "class" n with
  | Some v => PyStr.words v
  | None => []
  end.

(** A node together with its ancestors, nearest first. *)
Record loc : Type := Loc { anc : list node; self : node }.

(** [n] and everything below it, in document order. *)
Fixpoint walk (up : list node) (n : node) : list loc :=
  Loc up n ::
  match n with
  | Elem _ _ cs =>
      (fix go (l : list node) : list loc :=
         match l with
         | [] => []
         | c :: l' => walk (n :: up) c ++ go l'
         end) cs
  | _ => []
  end.

(** [el.descendants] *)
Definition descendants (e : loc) : list loc :=
  flat_map (walk (self e :: anc e)) (children_of (self e)).

(** The text strings below a node, in document order. *)
Fixpoint strings (n : node) : list string :=
  match n with
  | Text s => [s]
  | Comment _ => []
  | Elem _ _ cs => flat_map strings cs
  end.

(** [el.get_text(sep, strip=True)] *)
Definition get_text_strip (sep : string) (n : node) : string :=
  PyStr.join sep
    (List.filter (fun s => negb (String.eqb s "")) (map PyStr.strip (strings n))).

(** The document object: a tag without attributes above the top-level
    nodes. *)
Definition document (top : list node) : loc :=
  Loc [] (Elem "[document]" [] top).

(** [soup.find(name)] *)
Definition find_tag (name : string) (e : loc) : option loc :=
  List.find (fun d => match tag_of (self d) with
                      | Some t => String.eqb t name
                      | None => false
                      end) (descendants e).

End Dom.

(* ===================================================================== *)
(** ** Selectors *)
(* ===================================================================== *)

Module Css.

(** The simple selectors the program uses. *)
Inductive simple : Type :=
| Tag (name : string)                (* div *)
| Class (name : string)              (* .step *)
| HasAttr (name : string)            (* [data-question-id] *)
| AttrEq (name value : string)       (* [for='v'] *)
| AttrPrefix (name value : string).  (* [id^='v'] *)

(** A compound selector is a conjunction of simple ones; a selector is a
    chain of compounds under the descendant combinator, outermost first. *)
Definition compound : Type := list simple.
Definition selector : Type := list compound.

(** [[name='v']] is matched with the pattern [^v$], which also accepts
    [v] followed by one final line feed. *)
Definition attr_equal (v w : string) : bool :=
  String.eqb w v || String.eqb w (v +:+ String (PyStr.chr 10) EmptyString).

Definition matches_simple (n : Dom.node) (s : simple) : bool :=
  match s with
  | Tag t => match Dom.tag_of n with Some u => String.eqb u t | None => false end
  | Class c => PyStr.mem c (Dom.classes n)
  | HasAttr a => match Dom.get a n with Some _ => true | None => false end
  | AttrEq a v => match Dom.get a n with Some w => attr_equal v w | None => false end
  | AttrPrefix a v =>
      match Dom.get a n with Some w => PyStr.startswith v w | None => false end
  end.

Definition matches_compound (n : Dom.node) (c : compound) : bool :=
  Dom.is_elem n && forallb (matches_simple n) c.

(** The remaining compounds, innermost first, against the ancestors,
    nearest first. *)
Fixpoint match_ancestors (cs : list compound) (up : list Dom.node) : bool :=
  match cs with
  | [] => true
  | c :: cs' =>
      (fix search (l : list Dom.node) : bool :=
         match l with
         | [] => false
         | a :: l' =>
             if matches_compound a c then match_ancestors cs' l' else search l'
         end) up
  end.

Definition matches (sel : selector) (e : Dom.loc) : bool :=
  match rev sel with
  | [] => false
  | c :: cs => matches_compound (Dom.self e) c && match_ancestors cs (Dom.anc e)
  end.

(** [el.select(sel)] *)
Definition select (sel : selector) (e : Dom.loc) : list Dom.loc :=
  List.filter (matches sel) (Dom.descendants e).

(** [el.select_one(sel)] *)
Definition select_one (sel : selector) (e : Dom.loc) : option Dom.loc :=
  head (select sel e).

(** Characters that end or escape a quoted string in a selector. *)
Definition special (c : ascii) : bool :=
  let n := PyStr.code c in
  ((n =? 0) || (n =? 10) || (n =? 12) || (n =? 13) || (n =? 39) || (n =? 92))%nat.

Definition plain (s : string) : bool := PyStr.all_chars (fun c => negb (special c)) s.

(** The selector written [f"label[for='{input_id}']"].  The text is
    parsed as a selector: an identifier without quote, backslash, line
    break or NUL characters stands for itself; with one of them the text
    is another selector or none at all, which is not followed here. *)
Definition label_selector (input_id : string) : pyres selector :=
  if plain input_id then Ok [[Tag "label"; AttrEq "for" input_id]]
  else Raise OutsideModel.

End Css.

(* ===================================================================== *)
(** ** urllib.parse (CPython 3.11): urlsplit, urlparse, urlunparse, urljoin *)
(* ===================================================================== *)

Module Urllib.

Definition uses_relative : list string :=
  [""; "ftp"; "http"; "gopher"; "nntp"; "imap"; "wais"; "file"; "https";
   "shttp"; "mms"; "prospero"; "rtsp"; "rtspu"; "sftp"; "svn"; "svn+ssh";
   "ws"; "wss"].

Definition uses_netloc : list string :=
  [""; "ftp"; "http"; "gopher"; "nntp"; "telnet"; "imap"; "wais"; "file";
   "mms"; "https"; "shttp"; "snews"; "prospero"; "rtsp"; "rtspu"; "rsync";
   "svn"; "svn+ssh"; "sftp"; "nfs"; "git"; "git+ssh"; "ws"; "wss"].

Definition uses_params : list string :=
  [""; "ftp"; "hdl"; "prospero"; "http"; "imap"; "https"; "shttp"; "rtsp";
   "rtspu"; "sip"; "sips"; "mms"; "sftp"; "tel"].

Definition is_ascii_alpha (c : ascii) : bool :=
  let n := PyStr.code c in
  (((65 <=? n) && (n <=? 90)) || ((97 <=? n) && (n <=? 122)))%nat.

Definition is_ascii_digit (c : ascii) : bool :=
  let n := PyStr.code c in ((48 <=? n) && (n <=? 57))%nat.

(** [c in scheme_chars] *)
Definition scheme_char (c : ascii) : bool :=
  is_ascii_alpha c || is_ascii_digit c
  || Ascii.eqb c "+"%char || Ascii.eqb c "-"%char || Ascii.eqb c "."%char.

(** [c in _WHATWG_C0_CONTROL_OR_SPACE] *)
Definition c0_or_space (c : ascii) : bool := (PyStr.code c <=? 32)%nat.

(** [c in _UNSAFE_URL_BYTES_TO_REMOVE] *)
Definition unsafe_byte (c : ascii) : bool :=
  let n := PyStr.code c in ((n =? 9) || (n =? 13) || (n =? 10))%nat.

Definition is_ascii (c : ascii) : bool := (PyStr.code c <? 128)%nat.

Record SplitResult : Type := mkSplit {
  s_scheme : string;
  s_netloc : string;
  s_path : string;
  s_query : string;
  s_fragment : string
}.

Record ParseResult : Type := mkParse {
  scheme : string;
  netloc : string;
  path : string;
  params : string;
  query : string;
  fragment : string
}.

(** The longest prefix of [s] without a character accepted by [p], and
    the rest. *)
Fixpoint span_until (p : ascii -> bool) (s : string) : string * string :=
  match s with
  | EmptyString => (EmptyString, EmptyString)
  | String c r =>
      if p c then (EmptyString, s)
      else let '(a, b) := span_until p r in (String c a, b)
  end.

Definition netloc_delim (c : ascii) : bool :=
  Ascii.eqb c "/"%char || Ascii.eqb c "?"%char || Ascii.eqb c "#"%char.

(** [_splitnetloc(url, start)]: the text from [start] up to the first of
    the characters /, ? and #, and the rest. *)
Definition _splitnetloc (url : string) (start : nat) : string * string :=
  span_until netloc_delim (PyStr.drop start url).

(** The checks [urlsplit] makes on the network location.  Unbalanced
    brackets raise [ValueError]; a bracketed host is handed to the
    [ipaddress] module and a location with a character above 127 to
    Unicode normalisation, which are not followed here. *)
Definition check_netloc (n : string) : pyres unit :=
  let lb := PyStr.contains "["%char n in
  let rb := PyStr.contains "]"%char n in
  if (lb && negb rb) || (rb && negb lb) then Raise ValueError
  else if lb && rb then Raise OutsideModel
  else if PyStr.all_chars is_ascii n then Ok tt
  else Raise OutsideModel.

(** [s.partition(c)] with the whole of [s] first when [c] does not occur. *)
Definition cut (c : ascii) (s : string) : string * string :=
  match PyStr.partition c s with
  | (a, Some b) => (a, b)
  | (a, None) => (a, EmptyString)
  end.

(** [urlsplit] once the scheme has been taken off the URL: the network
    location, the fragment and the query. *)
Definition split_after_scheme (scheme url : string) : pyres SplitResult :=
  '(netloc, url) ←
    (if PyStr.startswith "//" url
     then let '(n, r) := _splitnetloc url 2 in _ ← check_netloc n; Ok (n, r)
     else Ok (EmptyString, url));
  let '(url, fragment) := cut "#"%char url in
  let '(url, query) := cut "?"%char url in
  Ok (mkSplit scheme netloc url query fragment).

(** [urlsplit(url, scheme)] *)
Definition urlsplit (url scheme : string) : pyres SplitResult :=
  let url := PyStr.lstrip_by c0_or_space url in
  let scheme := PyStr.rstrip_by c0_or_space (PyStr.lstrip_by c0_or_space scheme) in
  let url := PyStr.remove_chars unsafe_byte url in
  let scheme := PyStr.remove_chars unsafe_byte scheme in
  let '(scheme, url) :=
    match PyStr.partition ":"%char url with
    | (String c0 pre, Some post) =>
        if is_ascii_alpha c0 && PyStr.all_chars scheme_char (String c0 pre)
        then (PyStr.lower (String c0 pre), post)
        else (scheme, url)
    | _ => (scheme, url)
    end in
  split_after_scheme scheme url.

(** [s.rpartition(c)] without the separator, when [c] occurs. *)
Fixpoint rpartition (c : ascii) (s : string) : option (string * string) :=
  match s with
  | EmptyString => None
  | String d r =>
      match rpartition c r with
      | Some (a, b) => Some (String d a, b)
      | None => if Ascii.eqb c d then Some (EmptyString, r) else None
      end
  end.

(** [_splitparams(url)] *)
Definition _splitparams (url : string) : string * string :=
  match rpartition "/"%char url with
  | Some (dir, leaf) =>
      match PyStr.partition ";"%char leaf with
      | (a, Some b) => (dir +:+ "/" +:+ a, b)
      | (_, None) => (url, EmptyString)
      end
  | None => cut ";"%char url
  end.

(** [urlparse(url, scheme)] *)
Definition urlparse (url scheme : string) : pyres ParseResult :=
  r ← urlsplit url scheme;
  let '(p, ps) :=
    if PyStr.mem (s_scheme r) uses_params && PyStr.contains ";"%char (s_path r)
    then _splitparams (s_path r)
    else (s_path r, EmptyString) in
  Ok (mkParse (s_scheme r) (s_netloc r) p ps (s_query r) (s_fragment r)).

(** [urlunsplit((scheme, netloc, url, query, fragment))] *)
Definition urlunsplit (scheme netloc url query fragment : string) : string :=
  let url :=
    if PyStr.nonempty netloc
       || (PyStr.nonempty scheme && PyStr.mem scheme uses_netloc
           && negb (PyStr.startswith "//" url))
    then
      let url := if PyStr.nonempty url && negb (PyStr.startswith "/" url)
                 then "/" +:+ url else url in
      "//" +:+ netloc +:+ url
    else url in
  let url := if PyStr.nonempty scheme then scheme +:+ ":" +:+ url else url in
  let url := if PyStr.nonempty query then url +:+ "?" +:+ query else url in
  if PyStr.nonempty fragment then url +:+ "#" +:+ fragment else url.

(** [urlunparse(components)] *)
Definition urlunparse (c : ParseResult) : string :=
  let url := if PyStr.nonempty (params c) then path c +:+ ";" +:+ params c else path c in
  urlunsplit (scheme c) (netloc c) url (query c) (fragment c).

(** [segments[1:-1] = filter(None, segments[1:-1])] *)
Definition filter_inner (segments : list string) : list string :=
  match segments with
  | [] => []
  | [x] => [x]
  | x :: r => x :: List.filter PyStr.nonempty (removelast r) ++ [List.last r EmptyString]
  end.

(** The loop over [segments]; [resolved] is [resolved_path] reversed. *)
Fixpoint resolve_segments (segments resolved : list string) : list string :=
  match segments with
  | [] => rev resolved
  | seg :: rest =>
      if String.eqb seg ".." then resolve_segments rest (tail resolved)
      else if String.eqb seg "." then resolve_segments rest resolved
      else resolve_segments rest (seg :: resolved)
  end.

(** [urljoin(base, url)] *)
Definition urljoin (base url : string) : pyres string :=
  if negb (PyStr.nonempty base) then Ok url
  else if negb (PyStr.nonempty url) then Ok base
  else
    b ← urlparse base "";
    u ← urlparse url (scheme b);
    if negb (String.eqb (scheme u) (scheme b))
       || negb (PyStr.mem (scheme u) uses_relative)
    then Ok url
    else if PyStr.mem (scheme u) uses_netloc && PyStr.nonempty (netloc u)
    then Ok (urlunparse u)
    else
      let nl := if PyStr.mem (scheme u) uses_netloc then netloc b else netloc u in
      if negb (PyStr.nonempty (path u)) && negb (PyStr.nonempty (params u))
      then
        let q := if negb (PyStr.nonempty (query u)) then query b else query u in
        Ok (urlunparse (mkParse (scheme u) nl (path b) (params b) q (fragment u)))
      else
        let base_parts := PyStr.split "/"%char (path b) in
        let base_parts :=
          if PyStr.nonempty (List.last base_parts EmptyString)
          then removelast base_parts else base_parts in
        let segments :=
          if PyStr.startswith "/" (path u)
          then PyStr.split "/"%char (path u)
          else filter_inner (base_parts ++ PyStr.split "/"%char (path u)) in
        let resolved := resolve_segments segments [] in
        let resolved :=
          if PyStr.mem (List.last segments EmptyString) ["."; ".."]
          then resolved ++ [EmptyString] else resolved in
        let joined := PyStr.join "/" resolved in
        let p := if PyStr.nonempty joined then joined else "/" in
        Ok (urlunparse (mkParse (scheme u) nl p (params u) (query u) (fragment u))).

End Urllib.

(* ===================================================================== *)
(** ** The data model of main.py *)
(* ===================================================================== *)

Module AnswerOption.
Record t : Type := mk {
  text : string;
  is_correct : bool;
  images : list string
}.
End AnswerOption.

Module Question.
Record t : Type := mk {
  text : string;
  options : list AnswerOption.t;
  variants : list string;
  correct_answer : list nat;
  images : list string
}.
End Question.

Module Test.
Record t : Type := mk {
  title : string;
  url : string;
  questions : list Question.t
}.
End Test.

(* ===================================================================== *)
(** ** Library calls of main.py *)
(* ===================================================================== *)

(** The calls into libraries that the program makes on the page text and on
    URLs.  [b64decode], [decode_utf8] and [json_loads] return [None] where
    the library raises an exception (the caller catches them all). *)
Class Library : Type := {
  (** [urljoin(base, url)] *)
  urljoin : string -> string -> pyres string;
  (** [BeautifulSoup(html, "html.parser")]: the top-level nodes *)
  BeautifulSoup : string -> list Dom.node;
  (** [QUIZ_OPTIONS_RE.findall(html)]: the two groups of every match *)
  findall : string -> list (string * string);
  (** [base64.b64decode(b64)] *)
  b64decode : string -> option (list Byte.byte);
  (** [bytes.decode("utf-8")] *)
  decode_utf8 : list Byte.byte -> option string;
  (** [json.loads(decoded)] *)
  json_loads : string -> option Py.value
}.

(* ===================================================================== *)
(** ** _extract_quiz_options and _parse_quiz_from_html *)
(* ===================================================================== *)

Section Program.

Context {lib : Library}.

(** The body of the [try] statement of [_extract_quiz_options]. *)
Definition decode_payload (b64 : string) : option Py.value :=
  bytes ← b64decode b64;
  decoded ← decode_utf8 bytes;
  json_loads decoded.

(** One turn of the loop of [_extract_quiz_options]. *)
Definition store_payload (result : gmap string Py.value) (m : string * string)
  : gmap string Py.value :=
  match decode_payload (snd m) with
  | Some data => <[fst m := data]> result
  | None => result
  end.

Definition _extract_quiz_options (html : string) : gmap string Py.value :=
  fold_left store_payload (findall html) ∅.

(** [el.get(name) or ""] *)
Definition get_or_empty (name : string) (n : Dom.node) : string :=
  default "" (Dom.get name n).

(** The loops [for img_el in el.select("img")]: the sources that are
    present and not empty, resolved against the page URL. *)
Fixpoint image_loop (url : string) (imgs : list Dom.loc) : pyres (list string) :=
  match imgs with
  | [] => Ok []
  | img_el :: rest =>
      match Dom.get "src" (Dom.self img_el) with
      | Some src =>
          if PyStr.nonempty src
          then u ← urljoin url src; us ← image_loop url rest; Ok (u :: us)
          else image_loop url rest
      | None => image_loop url rest
      end
  end.

Definition collect_images (url : string) (el : Dom.loc) : pyres (list string) :=
  image_loop url (Css.select [[Css.Tag "img"]] el).

(** [input[id^='ays-answer-']] *)
Definition input_selector : Css.selector :=
  [[Css.Tag "input"; Css.AttrPrefix "id" "ays-answer-"]].

(** [val = str(correct_map.get(answer_id, "0")).lower()] and
    [val in ("1", "true")] *)
Definition flagged (correct_map : Py.dict) (answer_id : string) : bool :=
  let val := PyStr.lower (Py.str (default (Py.PStr "0") (Py.dict_get answer_id correct_map))) in
  PyStr.mem val ["1"; "true"].

(** The correctness flag of one option (lines 199-202). *)
Definition correctness (correct_map : Py.value) (answer_id : string) : pyres bool :=
  if Py.truthy correct_map
  then d ← Py.as_dict correct_map; Ok (flagged d answer_id)
  else Ok false.

(** One turn of the loop over the answer fields of a radio or checkbox
    block: [None] where the loop continues without an option. *)
Definition choice_field (url : string) (correct_map : Py.value) (field : Dom.loc)
  : pyres (option AnswerOption.t) :=
  match Css.select_one input_selector field with
  | None => Ok None
  | Some input_el =>
      let answer_id := get_or_empty "value" (Dom.self input_el) in
      let input_id := get_or_empty "id" (Dom.self input_el) in
      sel ← Css.label_selector input_id;
      '(text, img_urls) ←
        match Css.select_one sel field with
        | Some label_el =>
            imgs ← collect_images url label_el;
            Ok (Dom.get_text_strip " " (Dom.self label_el), imgs)
        | None => Ok (EmptyString, [])
        end;
      is_correct ← correctness correct_map answer_id;
      Ok (Some (AnswerOption.mk text is_correct img_urls))
  end.

(** A loop that appends the option of each turn that yields one. *)
Fixpoint option_loop (body : Dom.loc -> pyres (option AnswerOption.t))
    (els : list Dom.loc) : pyres (list AnswerOption.t) :=
  match els with
  | [] => Ok []
  | el :: rest =>
      o ← body el;
      os ← option_loop body rest;
      Ok (match o with Some x => x :: os | None => os end)
  end.

(** [{v: k for k, v in ans_map.items()}], continued from [acc]. *)
Fixpoint invert (items : Py.dict) (acc : Py.kdict) : pyres Py.kdict :=
  match items with
  | [] => Ok acc
  | (k, v) :: rest =>
      if Py.hashable v then invert rest (Py.kdict_set v k acc)
      else Raise TypeError
  end.

(** One turn of the loop over the pairs of a matching block. *)
Definition matching_pair (url : string) (inv_ans_map : Py.kdict) (opt : Dom.loc)
  : pyres (option AnswerOption.t) :=
  match Css.select_one [[Css.Class "ays-matching-field-choice"]] opt,
        Css.select_one [[Css.Class "ays-matching-field-match"]] opt with
  | Some choice_el, Some match_el =>
      let choice_text := Dom.get_text_strip " " (Dom.self choice_el) in
      img_urls ← collect_images url choice_el;
      let answer_id := get_or_empty "data-answer-id" (Dom.self match_el) in
      let text :=
        match Py.kdict_get (Py.PStr answer_id) inv_ans_map with
        | Some pos => choice_text +:+ " -> " +:+ pos
        | None => choice_text
        end in
      Ok (Some (AnswerOption.mk text true img_urls))
  | _, _ => Ok None
  end.

(** [cfg.get("question_answer", dflt)] *)
Definition question_answer (cfg : Py.dict) (dflt : Py.value) : Py.value :=
  default dflt (Py.dict_get "question_answer" cfg).

(** The options of a block of type [q_type] (lines 173-258). *)
Definition extract_options (url : string) (cfg : Py.dict) (q_type : Py.value)
    (step : Dom.loc) : pyres (list AnswerOption.t) :=
  if Py.eq_str q_type "radio" || Py.eq_str q_type "checkbox" then
    let correct_map := question_answer cfg (Py.PDict []) in
    option_loop (choice_field url correct_map)
      (Css.select [[Css.Class "ays-quiz-answers"]; [Css.Class "ays-field"]] step)
  else if Py.eq_str q_type "short_text" then
    let ans := question_answer cfg (Py.PStr "") in
    if Py.truthy ans
    then Ok [AnswerOption.mk (Py.str ans) true []]
    else Ok []
  else if Py.eq_str q_type "matching" then
    let ans_map := question_answer cfg (Py.PDict []) in
    items ← Py.as_dict ans_map;
    inv_ans_map ← invert items [];
    option_loop (matching_pair url inv_ans_map)
      (Css.select [[Css.Class "ays-matching-field"];
                   [Css.Class "ays-matching-field-option"]] step)
  else Ok [].

(** [quiz_options.get(qid, {})] for the block [step]. *)
Definition step_config (quiz_options : gmap string Py.value) (step : Dom.loc)
  : Py.value :=
  match Dom.get "data-question-id" (Dom.self step) with
  | Some qid => default (Py.PDict []) (quiz_options !! qid)
  | None => Py.PDict []
  end.

(** [step.get("data-type") or "radio"] *)
Definition declared_type (step : Dom.loc) : Py.value :=
  match Dom.get "data-type" (Dom.self step) with
  | Some t => if PyStr.nonempty t then Py.PStr t else Py.PStr "radio"
  | None => Py.PStr "radio"
  end.

(** [cfg.get("question_type") or step.get("data-type") or "radio"] *)
Definition effective_type (cfg : Py.dict) (step : Dom.loc) : Py.value :=
  Py.or_else (Py.dict_get "question_type" cfg) (declared_type step).

(** [variants = [opt.text for opt in options]] *)
Definition variants_of (options : list AnswerOption.t) : list string :=
  map AnswerOption.text options.

(** [[i for i, opt in enumerate(options) if opt.is_correct]], counting
    from [i]. *)
Fixpoint correct_from (i : nat) (options : list AnswerOption.t) : list nat :=
  match options with
  | [] => []
  | opt :: rest =>
      if AnswerOption.is_correct opt then i :: correct_from (S i) rest
      else correct_from (S i) rest
  end.

Definition correct_idx (options : list AnswerOption.t) : list nat :=
  correct_from 0 options.

(** The text and the images of the question itself (lines 159-171). *)
Definition question_text (step : Dom.loc) : string :=
  match Css.select_one [[Css.Class "ays_quiz_question"]] step with
  | Some q_block => Dom.get_text_strip " " (Dom.self q_block)
  | None => EmptyString
  end.

Definition question_images (url : string) (step : Dom.loc) : pyres (list string) :=
  match Css.select_one [[Css.Class "ays_quiz_question"]] step with
  | Some q_block => collect_images url q_block
  | None => Ok []
  end.

(** The body of the loop over the question blocks (lines 154-272). *)
Definition parse_step (url : string) (quiz_options : gmap string Py.value)
    (step : Dom.loc) : pyres Question.t :=
  cfg ← Py.as_dict (step_config quiz_options step);
  let q_type := effective_type cfg step in
  let q_text := question_text step in
  question_images ← question_images url step;
  options ← extract_options url cfg q_type step;
  Ok (Question.mk q_text options (variants_of options) (correct_idx options)
        question_images).

Fixpoint step_loop (url : string) (quiz_options : gmap string Py.value)
    (steps : list Dom.loc) : pyres (list Question.t) :=
  match steps with
  | [] => Ok []
  | step :: rest =>
      q ← parse_step url quiz_options step;
      qs ← step_loop url quiz_options rest;
      Ok (q :: qs)
  end.

(** [div.step[data-question-id]] *)
Definition step_selector : Css.selector :=
  [[Css.Tag "div"; Css.Class "step"; Css.HasAttr "data-question-id"]].

Definition _parse_quiz_from_html (url html : string) : pyres Test.t :=
  let soup := Dom.document (BeautifulSoup html) in
  let title :=
    match Dom.find_tag "h1" soup with
    | Some title_el => Dom.get_text_strip "" (Dom.self title_el)
    | None => url
    end in
  let quiz_options := _extract_quiz_options html in
  questions ← step_loop url quiz_options (Css.select step_selector soup);
  Ok (Test.mk title url questions).

End Program.

(* ===================================================================== *)
(** ** Notions used to state the properties *)
(* ===================================================================== *)

(** What a turn of the loop adds to the list of options. *)
Definition yield (o : option AnswerOption.t) : list AnswerOption.t :=
  match o with Some x => [x] | None => [] end.

(** Two characters that differ at most in case. *)
Definition same_letter (a b : ascii) : bool :=
  Ascii.eqb (PyStr.lower_char a) (PyStr.lower_char b).

(** Case-insensitive equality of two strings, character by character. *)
Fixpoint ci_equal (s t : string) : bool :=
  match s, t with
  | EmptyString, EmptyString => true
  | String a s', String b t' => same_letter a b && ci_equal s' t'
  | _, _ => false
  end.

(** The mapped value of [answer_id] compares case-insensitively equal to
    ["1"] or ["true"]; an identifier without a mapped value does not. *)
Definition mapped_true (correct_map : Py.dict) (answer_id : string) : bool :=
  match Py.dict_get answer_id correct_map with
  | Some v => ci_equal (Py.str v) "1" || ci_equal (Py.str v) "true"
  | None => false
  end.

(** The payload a match of the configuration pattern carries for the
    question [qid], when it is a match for [qid] and its token decodes. *)
Definition entry_for {lib : Library} (qid : string) (m : string * string)
  : option Py.value :=
  if String.eqb (fst m) qid then decode_payload (snd m) else None.

(** The answer fields of a block, in document order. *)
Definition answer_fields (step : Dom.loc) : list Dom.loc :=
  Css.select [[Css.Class "ays-quiz-answers"]; [Css.Class "ays-field"]] step.

(** The pairs of a matching block, in document order. *)
Definition matching_pairs (step : Dom.loc) : list Dom.loc :=
  Css.select [[Css.Class "ays-matching-field"];
              [Css.Class "ays-matching-field-option"]] step.

(** The answer identifier of a field: the value of its input control,
    when it has one. *)
Definition field_answer_id (field : Dom.loc) : option string :=
  (fun input_el => get_or_empty "value" (Dom.self input_el))
    <$> Css.select_one input_selector field.

(** The answer identifiers of the fields that have an input control. *)
Definition answer_ids (fields : list Dom.loc) : list string :=
  omap field_answer_id fields.

Definition has_input (field : Dom.loc) : bool :=
  match Css.select_one input_selector field with Some _ => true | None => false end.

(** The label of a field, when its input control has a plain identifier
    and the field holds a label for it. *)
Definition field_label (field : Dom.loc) : option Dom.loc :=
  match Css.select_one input_selector field with
  | Some input_el =>
      match Css.label_selector (get_or_empty "id" (Dom.self input_el)) with
      | Ok sel => Css.select_one sel field
      | Raise _ => None
      end
  | None => None
  end.

Definition has_both_halves (opt : Dom.loc) : bool :=
  match Css.select_one [[Css.Class "ays-matching-field-choice"]] opt,
        Css.select_one [[Css.Class "ays-matching-field-match"]] opt with
  | Some _, Some _ => true
  | _, _ => false
  end.

(** The text strings of a node that are not inside a [label] nested in
    it: the direct text content of a label in the words of the
    specification. *)
Fixpoint strings_outside_labels (n : Dom.node) : list string :=
  match n with
  | Dom.Text s => [s]
  | Dom.Comment _ => []
  | Dom.Elem t _ cs =>
      if String.eqb t "label" then []
      else flat_map strings_outside_labels cs
  end.

Definition own_text (label : Dom.node) : string :=
  PyStr.join " "
    (List.filter PyStr.nonempty
       (map PyStr.strip (flat_map strings_outside_labels (Dom.children_of label)))).

(** A list of indices is strictly increasing. *)
Fixpoint increasing (l : list nat) : Prop :=
  match l with
  | [] => True
  | i :: r => match r with [] => True | j :: _ => i < j end /\ increasing r
  end.

(** An absolute URL: it parses with a scheme of its own and a network
    location. *)
Definition is_absolute (u : string) : bool :=
  match Urllib.urlparse u "" with
  | Ok r => PyStr.nonempty (Urllib.scheme r) && PyStr.nonempty (Urllib.netloc r)
  | Raise _ => false
  end.

(** A string that is empty or starts with a character accepted by [p]. *)
Definition opens_with (p : ascii -> bool) (s : string) : Prop :=
  match s with
  | EmptyString => True
  | String c _ => p c = true
  end.

(** A string without tab, carriage return and line feed. *)
Definition safe (s : string) : bool :=
  PyStr.all_chars (fun c => negb (Urllib.unsafe_byte c)) s.

(** What [urlunsplit] writes after the network location. *)
Definition tail_of (pth q f : string) : string :=
  pth +:+ (if PyStr.nonempty q then String "?" q else "")
      +:+ (if PyStr.nonempty f then String "#" f else "").

(** The path of a parsed URL with its parameters, as [urlunparse] writes
    it. *)
Definition serial_path (p : Urllib.ParseResult) : string :=
  if PyStr.nonempty (Urllib.params p)
  then Urllib.path p +:+ ";" +:+ Urllib.params p
  else Urllib.path p.

(** The parameters of the serialised path, split off again. *)
Definition resplit (p : Urllib.ParseResult) : string * string :=
  if PyStr.mem (Urllib.scheme p) Urllib.uses_params
     && PyStr.contains ";" (serial_path p)
  then Urllib._splitparams (serial_path p)
  else (serial_path p, "").

(** The components of a URL in the form in which [urlsplit] returns them
    for a URL with a scheme and a network location: a lower-case scheme
    that starts with a letter, a network location that passed the checks,
    a path that is empty or starts with a slash, and no component holding
    the delimiter that ends it or a character that [urlsplit] removes. *)
Record canonical (sch n pth q f : string) : Prop := {
  can_first : exists c rest, sch = String c rest /\ Urllib.is_ascii_alpha c = true;
  can_scheme : PyStr.all_chars Urllib.scheme_char sch = true;
  can_lower : PyStr.lower sch = sch;
  can_netloc : PyStr.nonempty n = true;
  can_netloc_chars :
    PyStr.all_chars (fun c => negb (Urllib.netloc_delim c)) n = true;
  can_netloc_ok : Urllib.check_netloc n = Ok tt;
  can_netloc_safe : safe n = true;
  can_path : opens_with (Ascii.eqb "/") pth;
  can_path_query : PyStr.contains "?" pth = false;
  can_path_fragment : PyStr.contains "#" pth = false;
  can_path_safe : safe pth = true;
  can_query_fragment : PyStr.contains "#" q = false;
  can_query_safe : safe q = true;
  can_fragment_safe : safe f = true
}.

(* ===================================================================== *)
(** ** Sample pages *)
(* ===================================================================== *)

Module Sample.

Definition page_url : string := "https://info-master.uz/informatika-test-1/".

Definition div (cls : string) (children : list Dom.node) : Dom.node :=
  Dom.Elem "div" [("class", cls)] children.

(** A question block with identifier [qid] and, when [ty] is not empty,
    a type attribute. *)
Definition block (qid ty : string) (children : list Dom.node) : Dom.node :=
  Dom.Elem "div"
    ([("class", "step"); ("data-question-id", qid)]
       ++ (if PyStr.nonempty ty then [("data-type", ty)] else []))
    children.

Definition question (text : string) : Dom.node :=
  div "ays_quiz_question" [Dom.Elem "p" [] [Dom.Text text]].

(** An answer field: an input control and the content of its label. *)
Definition field (kind n : string) (label : list Dom.node) : Dom.node :=
  div "ays-field"
    [Dom.Elem "input"
       [("type", kind); ("id", "ays-answer-" +:+ n); ("value", n)] [];
     Dom.Elem "label" [("for", "ays-answer-" +:+ n)] label].

(** An answer field whose label is missing. *)
Definition bare_field (kind n : string) : Dom.node :=
  div "ays-field"
    [Dom.Elem "input"
       [("type", kind); ("id", "ays-answer-" +:+ n); ("value", n)] []].

(** An answer field whose input control is missing. *)
Definition blind_field (text : string) : Dom.node :=
  div "ays-field" [Dom.Elem "label" [("for", "ays-answer-0")] [Dom.Text text]].

Definition pair (left answer_id : string) : Dom.node :=
  div "ays-matching-field-option"
    [div "ays-matching-field-choice" [Dom.Text left];
     Dom.Elem "div"
       [("class", "ays-matching-field-match"); ("data-answer-id", answer_id)] []].

(** A pair whose right half is missing. *)
Definition half_pair (left : string) : Dom.node :=
  div "ays-matching-field-option" [div "ays-matching-field-choice" [Dom.Text left]].

(** The question blocks of a page made of [top]. *)
Definition steps (top : list Dom.node) : list Dom.loc :=
  Css.select step_selector (Dom.document top).

(** The block [b] as the only top-level node of a page. *)
Definition alone (b : Dom.node) : Dom.loc :=
  Dom.Loc [Dom.self (Dom.document [b])] b.

(** One radio block with answer fields "1", "2", "3". *)
Definition radio_block : Dom.node :=
  block "52455" "" 
    [question "2 + 2 = ?";
     div "ays-quiz-answers"
       [field "radio" "1" [Dom.Text "3"];
        field "radio" "2" [Dom.Text "4"];
        field "radio" "3" [Dom.Text "5"]]].

(** [{"question_type": "radio", "question_answer": {"1": "0", "2": "1", "3": "0"}}] *)
Definition radio_answers : Py.dict :=
  [("1", Py.PStr "0"); ("2", Py.PStr "1"); ("3", Py.PStr "0")].

Definition radio_cfg : Py.dict :=
  [("question_type", Py.PStr "radio"); ("question_answer", Py.PDict radio_answers)].

Definition radio_config : Py.value := Py.PDict radio_cfg.

(** The question read from [radio_block] under [radio_config]. *)
Definition radio_question : Question.t :=
  Question.mk "2 + 2 = ?"
    [AnswerOption.mk "3" false [];
     AnswerOption.mk "4" true [];
     AnswerOption.mk "5" false []]
    ["3"; "4"; "5"] [1] [].

(** The same block with a configuration that flags two answers. *)
Definition radio_config_two : Py.value :=
  Py.PDict [("question_type", Py.PStr "radio");
            ("question_answer",
             Py.PDict [("1", Py.PStr "1"); ("2", Py.PStr "1"); ("3", Py.PStr "0")])].

Definition radio_question_two : Question.t :=
  Question.mk "2 + 2 = ?"
    [AnswerOption.mk "3" true [];
     AnswerOption.mk "4" true [];
     AnswerOption.mk "5" false []]
    ["3"; "4"; "5"] [0; 1] [].

(** Values that are not strings, and an identifier without a value. *)
Definition typed_answers : Py.dict :=
  [("1", Py.PBool true); ("2", Py.PInt 1)].

Definition typed_cfg : Py.dict :=
  [("question_type", Py.PStr "checkbox"); ("question_answer", Py.PDict typed_answers)].

Definition radio_config_typed : Py.value := Py.PDict typed_cfg.

(** One matching block: "Cat" with answer "b3", then "Dog" with "a7". *)
Definition matching_block : Dom.node :=
  block "52456" ""
    [question "Match";
     div "ays-matching-field" [pair "Cat" "b3"; pair "Dog" "a7"]].

(** [{"question_type": "matching", "question_answer": {"1": "a7", "2": "b3"}}] *)
Definition matching_config : Py.value :=
  Py.PDict [("question_type", Py.PStr "matching");
            ("question_answer",
             Py.PDict [("1", Py.PStr "a7"); ("2", Py.PStr "b3")])].

(** The question read from [matching_block] under [matching_config]. *)
Definition matching_question : Question.t :=
  Question.mk "Match"
    [AnswerOption.mk "Cat -> 2" true []; AnswerOption.mk "Dog -> 1" true []]
    ["Cat -> 2"; "Dog -> 1"] [0; 1] [].

(** A matching block that declares its own type; the second pair has no
    right half.  Its configuration on the sample page is not JSON. *)
Definition declared_matching_block : Dom.node :=
  block "52461" "matching"
    [question "Match"; div "ays-matching-field" [pair "Cat" "b3"; half_pair "Dog"]].

Definition declared_matching_question : Question.t :=
  Question.mk "Match" [AnswerOption.mk "Cat" true []] ["Cat"] [0] [].

(** A radio block whose only answer field has no label. *)
Definition bare_block : Dom.node :=
  block "52462" "" [question "?"; div "ays-quiz-answers" [bare_field "radio" "1"]].

Definition bare_question : Question.t :=
  Question.mk "?" [AnswerOption.mk "" false []] [""] [] [].

(** A radio block whose first label holds an image with a caption label,
    whose second field has no label and whose third has no input. *)
Definition caption_block : Dom.node :=
  block "52458" ""
    [question "Capital of France?";
     div "ays-quiz-answers"
       [field "radio" "1"
          [Dom.Text "Paris ";
           Dom.Elem "img" [("src", "/img/paris.png")] [];
           Dom.Elem "label" [("class", "ays_answer_caption")] [Dom.Text "caption"]];
        bare_field "radio" "2";
        blind_field "Rome"]].

Definition caption_config : Py.value :=
  Py.PDict [("question_type", Py.PStr "radio");
            ("question_answer", Py.PDict [("1", Py.PStr "1"); ("2", Py.PStr "0")])].

(** The label of the first answer field of [caption_block]. *)
Definition caption_label : Dom.node :=
  Dom.Elem "label" [("for", "ays-answer-1")]
    [Dom.Text "Paris ";
     Dom.Elem "img" [("src", "/img/paris.png")] [];
     Dom.Elem "label" [("class", "ays_answer_caption")] [Dom.Text "caption"]].

Definition caption_question : Question.t :=
  Question.mk "Capital of France?"
    [AnswerOption.mk "Paris caption" true ["https://info-master.uz/img/paris.png"];
     AnswerOption.mk "" false []]
    ["Paris caption"; ""] [0] [].

(** A short-text block. *)
Definition short_block : Dom.node :=
  block "52459" "" [question "Name the unit of information"].

Definition short_cfg (ans : string) : Py.dict :=
  [("question_type", Py.PStr "short_text"); ("question_answer", Py.PStr ans)].

Definition short_config (ans : string) : Py.value := Py.PDict (short_cfg ans).

(** The page text is read by the libraries only.  Their results on one
    page with three configuration assignments: the token of "52455"
    decodes to an empty object, that of "52460" is not base64, and that of
    "52461" decodes to text that is not JSON. *)
Definition script : string :=
  "window.quizOptions_1851['52455'] = 'e30='; "
  +:+ "window.quizOptions_1851['52460'] = 'e30'; "
  +:+ "window.quizOptions_1851['52461'] = 'bm9wZQ==';".

Definition html : string :=
  "<h1>Informatika</h1><script>" +:+ script +:+ "</script>".

Definition bytes_of (s : string) : list Byte.byte :=
  map byte_of_ascii (list_ascii_of_string s).

Definition text_of (b : list Byte.byte) : string :=
  string_of_list_ascii (map ascii_of_byte b).

#[export] Instance library : Library := {|
  urljoin := Urllib.urljoin;
  BeautifulSoup := fun h =>
    if String.eqb h html
    then [Dom.Elem "h1" [] [Dom.Text "Informatika"];
          Dom.Elem "script" [] [Dom.Comment script]]
    else [];
  findall := fun h =>
    if String.eqb h html
    then [("52455", "e30="); ("52460", "e30"); ("52461", "bm9wZQ==")]
    else [];
  b64decode := fun t =>
    if String.eqb t "e30=" then Some (bytes_of "{}")
    else if String.eqb t "bm9wZQ==" then Some (bytes_of "nope")
    else None;
  decode_utf8 := fun b =>
    if forallb (fun c => Urllib.is_ascii (ascii_of_byte c)) b then Some (text_of b) else None;
  json_loads := fun s => if String.eqb s "{}" then Some (Py.PDict []) else None
|}.

End Sample.

(* ===================================================================== *)
(** ** fetch_html and get_test_links *)
(* ===================================================================== *)

Module Requests.

(** What [requests.get] and [raise_for_status] raise. *)
Inductive error : Type :=
| RequestException
| HTTPError (status_code : nat).

Record Response : Type := mkResponse {
  status_code : nat;
  text : string
}.

End Requests.

(** [requests.get(url, timeout=20)]: the response, or the exception
    raised when none arrives. *)
Class Http : Type := {
  requests_get : string -> Requests.error + Requests.Response
}.

(** How a loop that need not end comes out after a bounded number of
    turns. *)
Inductive outcome (A : Type) : Type :=
| Returns (a : A)
| Raises (e : Requests.error)
| OutOfFuel.

Arguments Returns {A} a.
Arguments Raises {A} e.
Arguments OutOfFuel {A}.

Module Bs4.

(** [tag.string]: the only child when it is a string, the [string] of
    the only child when it is a tag. *)
Fixpoint string_of (n : Dom.node) : option string :=
  match n with
  | Dom.Elem _ _ [c] =>
      match c with
      | Dom.Text s => Some s
      | Dom.Comment s => Some s
      | Dom.Elem _ _ _ => string_of c
      end
  | _ => None
  end.

(** [sub in s] *)
Fixpoint has_sub (sub s : string) : bool :=
  PyStr.startswith sub s
  || match s with
     | String _ r => has_sub sub r
     | EmptyString => false
     end.

(** [soup.find(name, string=f)]: the first tag called [name] whose
    [string] is accepted by [f]. *)
Definition find_string (name : string) (f : option string -> bool) (e : Dom.loc)
  : option Dom.loc :=
  List.find
    (fun d => match Dom.tag_of (Dom.self d) with
              | Some t => String.eqb t name && f (string_of (Dom.self d))
              | None => false
              end)
    (Dom.descendants e).

End Bs4.

Definition BASE_CATEGORY_URL : string :=
  "https://info-master.uz/category/informatika-2/".

Section Crawler.

Context {lib : Library} {http : Http}.

(** [resp.raise_for_status(); return resp.text] *)
Definition fetch_html (url : string) : Requests.error + string :=
  match requests_get url with
  | inl e => inl e
  | inr resp =>
      let status := Requests.status_code resp in
      if ((400 <=? status) && (status <? 600))%nat
      then inl (Requests.HTTPError status)
      else inr (Requests.text resp)
  end.

(** [h2.font130.mt0.mb10.mobfont120.lineheight25 a] *)
Definition title_link_selector : Css.selector :=
  [[Css.Tag "h2"; Css.Class "font130"; Css.Class "mt0"; Css.Class "mb10";
    Css.Class "mobfont120"; Css.Class "lineheight25"];
   [Css.Tag "a"]].

(** One turn of the loop over the title links of a page. *)
Definition add_link (links : list string) (h2 : Dom.loc) : list string :=
  match Dom.get "href" (Dom.self h2) with
  | Some href =>
      if PyStr.nonempty href && negb (PyStr.mem href links)
      then links ++ [href] else links
  | None => links
  end.

(** [lambda s: s and "Keyingi sahifa" in s] *)
Definition is_next_label (s : option string) : bool :=
  match s with
  | Some t => PyStr.nonempty t && Bs4.has_sub "Keyingi sahifa" t
  | None => false
  end.

(** [soup.find("a", string=...)] finds a link to the next page. *)
Definition has_next (soup : Dom.loc) : bool :=
  match Bs4.find_string "a" is_next_label soup with
  | Some _ => true
  | None => false
  end.

(** The URL of a page of the category. *)
Definition category_url (page : nat) : string :=
  if (page =? 1)%nat then BASE_CATEGORY_URL
  else BASE_CATEGORY_URL +:+ "page/" +:+ pretty page +:+ "/".

(** The [while True] loop of [get_test_links], for at most [fuel]
    pages. *)
Fixpoint links_loop (fuel page : nat) (links : list string)
  : outcome (list string) :=
  match fuel with
  | O => OutOfFuel
  | S fuel' =>
      match fetch_html (category_url page) with
      | inl e => Raises e
      | inr html =>
          let soup := Dom.document (BeautifulSoup html) in
          let links := fold_left add_link (Css.select title_link_selector soup) links in
          if has_next soup then links_loop fuel' (S page) links
          else Returns links
      end
  end.

Definition get_test_links (fuel : nat) : outcome (list string) :=
  match links_loop fuel 1 [] with
  | Returns links => Returns (firstn 2 links)
  | Raises e => Raises e
  | OutOfFuel => OutOfFuel
  end.

End Crawler.

(* ===================================================================== *)
(** ** Further notions *)
(* ===================================================================== *)

(** The sources of the images below an element that are present and not
    empty, in document order. *)
Definition image_sources (el : Dom.loc) : list string :=
  omap (fun img_el =>
          match Dom.get "src" (Dom.self img_el) with
          | Some src => if PyStr.nonempty src then Some src else None
          | None => None
          end)
    (Css.select [[Css.Tag "img"]] el).

(** The position a match of the mapping of a matching block gives for the
    answer identifier [answer_id]. *)
Definition position_for (answer_id : string) (kv : string * Py.value)
  : option string :=
  if Py.eq_str (snd kv) answer_id then Some (fst kv) else None.

(** The title links of a page: the links of the first page of the
    category, as the loop collects them. *)
Definition page_links {lib : Library} (html : string) (links : list string)
  : list string :=
  fold_left add_link
    (Css.select title_link_selector (Dom.document (BeautifulSoup html))) links.

(** The page holds a link to a next page. *)
Definition page_has_next {lib : Library} (html : string) : bool :=
  has_next (Dom.document (BeautifulSoup html)).

(** The links collected over a run of pages, in the order of the visit. *)
Definition collected {lib : Library} (htmls links : list string) : list string :=
  fold_left (fun acc html => page_links html acc) htmls links.

(** The site answers the pages of the category from [page] onwards with
    [htmls], one after the other. *)
Fixpoint served {http : Http} (page : nat) (htmls : list string) : Prop :=
  match htmls with
  | [] => True
  | html :: rest =>
      fetch_html (category_url page) = inr html /\ served (S page) rest
  end.

(* ===================================================================== *)
(** ** Further sample pages *)
(* ===================================================================== *)

Module Pages.

(** The text of a node, with attribute values in single quotes. *)
Fixpoint render (n : Dom.node) : string :=
  match n with
  | Dom.Text s => s
  | Dom.Comment s => s
  | Dom.Elem t attrs cs =>
      let open :=
        "<" +:+ t
        +:+ String.concat ""
              (map (fun kv => " " +:+ fst kv +:+ "='" +:+ snd kv +:+ "'") attrs)
        +:+ ">" in
      if PyStr.mem t ["input"; "img"] then open
      else open +:+ String.concat "" (map render cs) +:+ "</" +:+ t +:+ ">"
  end.

Definition render_all (top : list Dom.node) : string :=
  String.concat "" (map render top).

(** A text with the apostrophes replaced by double quotes. *)
Fixpoint dq (s : string) : string :=
  match s with
  | EmptyString => EmptyString
  | String c r => String (if Ascii.eqb c "'" then PyStr.dquote else c) (dq r)
  end.

Definition radio_token : string :=
  "eyJxdWVzdGlvbl90eXBlIjogInJhZGlvIiwgInF1ZXN0aW9uX2Fuc3dlciI6IHsiMSI6ICIwIiwgIjIiOiAiMSIsICIzIjogIjAifX0=".

Definition radio_json : string :=
  dq "{'question_type': 'radio', 'question_answer': {'1': '0', '2': '1', '3': '0'}}".

Definition matching_token : string :=
  "eyJxdWVzdGlvbl90eXBlIjogIm1hdGNoaW5nIiwgInF1ZXN0aW9uX2Fuc3dlciI6IHsiMSI6ICJhNyIsICIyIjogImIzIn19".

Definition matching_json : string :=
  dq "{'question_type': 'matching', 'question_answer': {'1': 'a7', '2': 'b3'}}".

Definition null_token : string := "bnVsbA==".

Definition assignment (qid token : string) : string :=
  "window.quizOptions_1851['" +:+ qid +:+ "'] = '" +:+ token +:+ "';".

(** A block whose configuration is the JSON value null. *)
Definition null_block : Dom.node :=
  Sample.block "52463" "" [Sample.question "?"].

(** The node [b] at the top level of a page made of [top]. *)
Definition at_top (top : list Dom.node) (b : Dom.node) : Dom.loc :=
  Dom.Loc [Dom.self (Dom.document top)] b.

(** A block of a type that is none of the four, with an answer field. *)
Definition text_block : Dom.node :=
  Sample.block "52464" "text"
    [Sample.question "Explain";
     Sample.div "ays-quiz-answers" [Sample.field "text" "1" [Dom.Text "x"]]].

(** A mapping of a matching block in which two positions name the same
    answer and one value is a number. *)
Definition shared_answers : Py.dict :=
  [("1", Py.PStr "a7"); ("2", Py.PStr "a7"); ("3", Py.PInt 5)].

(** A mapping of a matching block with a value that is a list. *)
Definition listed_answers : Py.dict :=
  [("1", Py.PStr "a7"); ("2", Py.PList [Py.PStr "b3"])].

(** A radio configuration whose answer is a string, not a mapping. *)
Definition string_answer_cfg : Py.dict :=
  [("question_type", Py.PStr "radio"); ("question_answer", Py.PStr "2")].

(** A quiz page with a radio block and a matching block. *)
Definition quiz_dom : list Dom.node :=
  [Dom.Elem "h1" [] [Dom.Text " Informatika 1 "];
   Dom.Elem "script" []
     [Dom.Comment (assignment "52455" radio_token
                   +:+ assignment "52456" matching_token)];
   Sample.radio_block;
   Sample.matching_block].

Definition quiz_html : string := render_all quiz_dom.

(** A quiz page without a heading, whose second block has the
    configuration null. *)
Definition broken_dom : list Dom.node :=
  [Dom.Elem "script" []
     [Dom.Comment (assignment "52455" radio_token
                   +:+ assignment "52463" null_token)];
   Sample.radio_block;
   null_block;
   Sample.matching_block].

Definition broken_html : string := render_all broken_dom.

(** A token cut short: it decodes to the beginning of an object. *)
Definition cut_token : string := "eyJxdWVzdGlvbl90eXBlIjog".

Definition cut_json : string := dq "{'question_type': ".

(** A quiz page on which the configuration of the radio block is assigned
    twice, the second time with the token cut short. *)
Definition repeated_dom : list Dom.node :=
  [Dom.Elem "script" []
     [Dom.Comment (assignment "52455" radio_token
                   +:+ assignment "52455" cut_token)];
   Sample.radio_block].

Definition repeated_html : string := render_all repeated_dom.

Definition title_link (href : option string) (text : string) : Dom.node :=
  Dom.Elem "h2" [("class", "font130 mt0 mb10 mobfont120 lineheight25")]
    [Dom.Elem "a" (match href with Some h => [("href", h)] | None => [] end)
       [Dom.Text text]].

(** The first page of the category: three title links, two of them to
    the same test, a title without a link target and a link to the next
    page. *)
Definition category_dom_1 : list Dom.node :=
  [title_link (Some "https://info-master.uz/test-1/") "Test 1";
   title_link (Some "https://info-master.uz/test-2/") "Test 2";
   title_link (Some "https://info-master.uz/test-1/") "Test 1";
   title_link None "Test 3";
   Dom.Elem "a" [("href", "https://info-master.uz/category/informatika-2/page/2/")]
     [Dom.Text "Keyingi sahifa >"]].

(** The second and last page. *)
Definition category_dom_2 : list Dom.node :=
  [title_link (Some "https://info-master.uz/test-4/") "Test 4"].

Definition category_html_1 : string := render_all category_dom_1.
Definition category_html_2 : string := render_all category_dom_2.

#[export] Instance library : Library := {|
  urljoin := Urllib.urljoin;
  BeautifulSoup := fun h =>
    if String.eqb h quiz_html then quiz_dom
    else if String.eqb h broken_html then broken_dom
    else if String.eqb h repeated_html then repeated_dom
    else if String.eqb h category_html_1 then category_dom_1
    else if String.eqb h category_html_2 then category_dom_2
    else [];
  findall := fun h =>
    if String.eqb h quiz_html
    then [("52455", radio_token); ("52456", matching_token)]
    else if String.eqb h broken_html
    then [("52455", radio_token); ("52463", null_token)]
    else if String.eqb h repeated_html
    then [("52455", radio_token); ("52455", cut_token)]
    else [];
  b64decode := fun t =>
    if String.eqb t radio_token then Some (Sample.bytes_of radio_json)
    else if String.eqb t matching_token then Some (Sample.bytes_of matching_json)
    else if String.eqb t null_token then Some (Sample.bytes_of "null")
    else if String.eqb t cut_token then Some (Sample.bytes_of cut_json)
    else None;
  decode_utf8 := fun b =>
    if forallb (fun c => Urllib.is_ascii (ascii_of_byte c)) b
    then Some (Sample.text_of b) else None;
  json_loads := fun s =>
    if String.eqb s radio_json then Some Sample.radio_config
    else if String.eqb s matching_json then Some Sample.matching_config
    else if String.eqb s "null" then Some Py.PNone
    else None
|}.

(** The site answers for the two pages of the category and has no other
    page. *)
#[export] Instance http : Http := {|
  requests_get := fun url =>
    if String.eqb url BASE_CATEGORY_URL
    then inr (Requests.mkResponse 200 category_html_1)
    else if String.eqb url (BASE_CATEGORY_URL +:+ "page/2/")
    then inr (Requests.mkResponse 200 category_html_2)
    else inr (Requests.mkResponse 404 "Not Found")
|}.

(** A site that answers every address with its first page, which links
    to a next page. *)
Definition endless_http : Http := {|
  requests_get := fun _ => inr (Requests.mkResponse 200 category_html_1)
|}.

(** A site whose second page does not answer. *)
Definition offline_http : Http := {|
  requests_get := fun url =>
    if String.eqb url BASE_CATEGORY_URL
    then inr (Requests.mkResponse 200 category_html_1)
    else inl Requests.RequestException
|}.

End Pages.

(* ===================================================================== *)
(** ** Results and loops *)
(* ===================================================================== *)

Lemma bind_ok {A B : Type} (m : pyres A) (f : A -> pyres B) (b : B) :
  (m ≫= f) = Ok b -> exists a, m = Ok a /\ f a = Ok b.
Proof.
  destruct m as [a|e]; simpl; intros E.
  - exists a. split; [reflexivity | exact E].
  - discriminate E.
Qed.

Ltac bind_inv H :=
  let a := fresh "a" in
  let Ha := fresh "Ha" in
  apply bind_ok in H; destruct H as (a & Ha & H).

Section Loops.

Context {lib : Library}.

Variable body : Dom.loc -> pyres (option AnswerOption.t).

Lemma option_loop_cons (el : Dom.loc) (rest : list Dom.loc) :
  option_loop body (el :: rest)
  = (o ← body el; os ← option_loop body rest; Ok (yield o ++ os)).
Proof.
  simpl. destruct (body el) as [o|e]; simpl; [|reflexivity].
  destruct (option_loop body rest); simpl; [|reflexivity].
  destruct o; reflexivity.
Qed.

Lemma option_loop_app (l1 l2 : list Dom.loc) :
  option_loop body (l1 ++ l2)
  = (os1 ← option_loop body l1; os2 ← option_loop body l2; Ok (os1 ++ os2)).
Proof.
  induction l1 as [|el l1 IH].
  - simpl. destruct (option_loop body l2); reflexivity.
  - rewrite <- app_comm_cons, !option_loop_cons, IH.
    destruct (body el) as [o|e]; simpl; [|reflexivity].
    destruct (option_loop body l1) as [os1|e]; simpl; [|reflexivity].
    destruct (option_loop body l2) as [os2|e]; simpl; [|reflexivity].
    rewrite app_assoc. reflexivity.
Qed.

(** A turn that continues leaves the result of the loop as it is without
    the element, errors of other turns included. *)
Lemma option_loop_skip (l1 l2 : list Dom.loc) (el : Dom.loc) :
  body el = Ok None ->
  option_loop body (l1 ++ el :: l2) = option_loop body (l1 ++ l2).
Proof.
  intros Hel. rewrite !option_loop_app, option_loop_cons, Hel. simpl.
  destruct (option_loop body l1) as [os1|e]; simpl; [|reflexivity].
  destruct (option_loop body l2); reflexivity.
Qed.

(** The options of a loop that returns are those of its turns, in order. *)
Lemma option_loop_inv (els : list Dom.loc) (os : list AnswerOption.t) :
  option_loop body els = Ok os ->
  exists rs, Forall2 (fun el r => body el = Ok r) els rs /\ os = omap id rs.
Proof.
  revert os. induction els as [|el rest IH]; intros os H.
  - simpl in H. injection H as <-. exists []. split; constructor.
  - rewrite option_loop_cons in H.
    bind_inv H. bind_inv H. injection H as <-.
    destruct (IH _ Ha0) as (rs & Hrs & ->).
    exists (a :: rs). split; [constructor; assumption|].
    destruct a; reflexivity.
Qed.

End Loops.

(* ===================================================================== *)
(** ** Variants and correct indices *)
(* ===================================================================== *)

Section Assembly.

Implicit Types (options : list AnswerOption.t) (i j : nat).

Lemma variants_lookup options i :
  variants_of options !! i = AnswerOption.text <$> options !! i.
Proof.
  revert i. induction options as [|o os IH]; intros [|i]; simpl; auto.
Qed.

Lemma variants_length options :
  length (variants_of options) = length options.
Proof. apply length_map. Qed.

Lemma correct_from_spec options i j :
  In j (correct_from i options)
  <-> exists k o, j = i + k /\ options !! k = Some o
                  /\ AnswerOption.is_correct o = true.
Proof.
  revert i. induction options as [|o os IH]; intros i; simpl.
  - split; [tauto | intros (k & o & _ & H & _); destruct k; discriminate H].
  - assert (Hrest : In j (correct_from (S i) os)
                    <-> exists k o', j = i + S k /\ os !! k = Some o'
                                     /\ AnswerOption.is_correct o' = true).
    { rewrite IH. split; intros (k & o' & Hj & H); exists k, o';
        (split; [lia | exact H]). }
    destruct (AnswerOption.is_correct o) eqn:Ho; simpl; rewrite ?Hrest.
    + split.
      * intros [<- | (k & o' & Hj & Hk & Hc)].
        -- exists 0, o. repeat split; [lia | assumption].
        -- exists (S k), o'. repeat split; assumption.
      * intros ([|k] & o' & Hj & Hk & Hc).
        -- left. lia.
        -- right. exists k, o'. repeat split; assumption.
    + split.
      * intros (k & o' & Hj & Hk & Hc). exists (S k), o'. repeat split; assumption.
      * intros ([|k] & o' & Hj & Hk & Hc).
        -- simpl in Hk. injection Hk as <-. congruence.
        -- exists k, o'. repeat split; assumption.
Qed.

Lemma correct_from_lower options i j :
  In j (correct_from i options) -> i <= j.
Proof. rewrite correct_from_spec. intros (k & o & -> & _). lia. Qed.

Lemma correct_from_increasing options i :
  increasing (correct_from i options).
Proof.
  revert i. induction options as [|o os IH]; intros i; simpl; [exact I|].
  destruct (AnswerOption.is_correct o); [|apply IH].
  simpl. split; [|apply IH].
  destruct (correct_from (S i) os) as [|j r] eqn:E; [exact I|].
  assert (H : In j (correct_from (S i) os)) by (rewrite E; left; reflexivity).
  apply correct_from_lower in H. lia.
Qed.

Lemma correct_from_length options i :
  length (correct_from i options)
  = length (List.filter AnswerOption.is_correct options).
Proof.
  revert i. induction options as [|o os IH]; intros i; simpl; [reflexivity|].
  destruct (AnswerOption.is_correct o); simpl; rewrite IH; reflexivity.
Qed.

Lemma correct_from_none options i :
  Forall (fun o => AnswerOption.is_correct o = false) options ->
  correct_from i options = [].
Proof.
  intros H. revert i. induction H as [|o os Ho _ IH]; intros i; simpl; [reflexivity|].
  rewrite Ho. apply IH.
Qed.

End Assembly.

(* ===================================================================== *)
(** ** The assembled question *)
(* ===================================================================== *)

Section Assembled.

Context {lib : Library}.

(** C6: every Question assembled from a block has as many variants as
    options, [variants[i]] is the text of [options[i]] at every index, and
    [correct_answer] is a strictly increasing list that holds exactly the
    positions of the options whose [is_correct] is true (so each of its
    indices is a valid 0-based index into [options]). *)
Theorem question_invariants (url : string) (quiz_options : gmap string Py.value)
    (step : Dom.loc) (q : Question.t) :
  parse_step url quiz_options step = Ok q ->
  length (Question.variants q) = length (Question.options q)
  /\ (forall i : nat,
        Question.variants q !! i = AnswerOption.text <$> Question.options q !! i)
  /\ increasing (Question.correct_answer q)
  /\ (forall i : nat,
        In i (Question.correct_answer q)
        <-> exists o, Question.options q !! i = Some o
                      /\ AnswerOption.is_correct o = true).
Proof.
  unfold parse_step. intros H.
  bind_inv H. bind_inv H. bind_inv H. injection H as <-. simpl.
  split; [apply variants_length|].
  split; [intros i; apply variants_lookup|].
  split; [apply correct_from_increasing|].
  intros i. unfold correct_idx. rewrite correct_from_spec. split.
  - intros (k & o & -> & Hk & Hc). exists o. split; assumption.
  - intros (o & Hk & Hc). exists i, o. repeat split; assumption.
Qed.

End Assembled.

Lemma question_invariants_witness :
  parse_step (lib := Sample.library) Sample.page_url {[ "52455" := Sample.radio_config ]}
    (Sample.alone Sample.radio_block) = Ok Sample.radio_question
  /\ length (Question.variants Sample.radio_question)
     = length (Question.options Sample.radio_question)
  /\ (forall i : nat,
        Question.variants Sample.radio_question !! i
        = AnswerOption.text <$> Question.options Sample.radio_question !! i)
  /\ increasing (Question.correct_answer Sample.radio_question)
  /\ (forall i : nat,
        In i (Question.correct_answer Sample.radio_question)
        <-> exists o, Question.options Sample.radio_question !! i = Some o
                      /\ AnswerOption.is_correct o = true).
Proof.
  assert (H : parse_step (lib := Sample.library) Sample.page_url {[ "52455" := Sample.radio_config ]}
                (Sample.alone Sample.radio_block) = Ok Sample.radio_question)
    by (vm_compute; reflexivity).
  split; [exact H|].
  exact (question_invariants _ _ _ _ H).
Defined.

(** Assembling a Question raises nothing of its own: the loop body
    returns once the configuration is a dictionary, the images of the
    question resolve and the options are extracted. *)
Lemma parse_step_assembles {lib : Library} (url : string)
    (quiz_options : gmap string Py.value) (step : Dom.loc) (cfg : Py.dict)
    (imgs : list string) (os : list AnswerOption.t) :
  step_config quiz_options step = Py.PDict cfg ->
  question_images url step = Ok imgs ->
  extract_options url cfg (effective_type cfg step) step = Ok os ->
  parse_step url quiz_options step
  = Ok (Question.mk (question_text step) os (variants_of os) (correct_idx os) imgs).
Proof.
  intros Hcfg Himgs Hos. unfold parse_step. rewrite Hcfg. simpl.
  rewrite Himgs. simpl. rewrite Hos. reflexivity.
Qed.

(** The blocks of the sample pages are what the selector of the question
    blocks finds on a page that holds them, and the sample page itself is
    read into a test without questions. *)
Lemma sample_blocks_selected :
  Forall (fun b => Sample.steps [b] = [Sample.alone b])
    [Sample.radio_block; Sample.matching_block; Sample.declared_matching_block;
     Sample.bare_block; Sample.caption_block; Sample.short_block]
  /\ _parse_quiz_from_html (lib := Sample.library) Sample.page_url Sample.html
     = Ok (Test.mk "Informatika" Sample.page_url []).
Proof. split; [repeat constructor | vm_compute; reflexivity]. Qed.

(* ===================================================================== *)
(** ** Radio and checkbox blocks *)
(* ===================================================================== *)

Lemma ci_equal_lower (s t : string) :
  ci_equal s t = String.eqb (PyStr.lower s) (PyStr.lower t).
Proof.
  revert t. induction s as [|a s IH]; intros [|b t]; simpl; try reflexivity.
  rewrite IH. reflexivity.
Qed.

(** Lowering and comparing, as the program does, is case-insensitive
    comparison with ["1"] and ["true"]; the default ["0"] of an identifier
    without a value compares unequal. *)
Lemma flagged_mapped_true (m : Py.dict) (a : string) :
  flagged m a = mapped_true m a.
Proof.
  unfold flagged, mapped_true.
  destruct (Py.dict_get a m) as [v|]; simpl; [|reflexivity].
  rewrite !ci_equal_lower.
  change (PyStr.lower "1") with "1". change (PyStr.lower "true") with "true".
  rewrite orb_false_r. reflexivity.
Qed.

Lemma mapped_true_empty (a : string) : mapped_true [] a = false.
Proof. reflexivity. Qed.

Lemma correctness_dict (m : Py.dict) (a : string) :
  correctness (Py.PDict m) a = Ok (mapped_true m a).
Proof.
  unfold correctness. destruct m as [|kv m]; simpl; [reflexivity|].
  rewrite flagged_mapped_true. reflexivity.
Qed.

Lemma correctness_falsy (cm : Py.value) (a : string) :
  Py.truthy cm = false -> correctness cm a = Ok false.
Proof. unfold correctness. intros ->. reflexivity. Qed.

Section Choice.

Context {lib : Library}.

Lemma has_input_answer_id (f : Dom.loc) :
  has_input f = false <-> field_answer_id f = None.
Proof.
  unfold has_input, field_answer_id.
  destruct (Css.select_one input_selector f); simpl; split; congruence.
Qed.

Lemma choice_field_skip (url : string) (cm : Py.value) (f : Dom.loc) :
  has_input f = false -> choice_field url cm f = Ok None.
Proof.
  unfold has_input, choice_field.
  destruct (Css.select_one input_selector f); [discriminate | reflexivity].
Qed.

(** What a turn over a field that returns says about the field. *)
Lemma choice_field_inv (url : string) (cm : Py.value) (f : Dom.loc)
    (r : option AnswerOption.t) :
  choice_field url cm f = Ok r ->
  match r with
  | Some o => exists a, field_answer_id f = Some a
                        /\ correctness cm a = Ok (AnswerOption.is_correct o)
  | None => field_answer_id f = None
  end.
Proof.
  unfold choice_field, field_answer_id.
  destruct (Css.select_one input_selector f) as [input_el|]; simpl.
  - intros H. bind_inv H. bind_inv H. destruct a0 as [text img_urls].
    bind_inv H. injection H as <-. simpl.
    eexists. split; [reflexivity | exact Ha1].
  - intros H. injection H as <-. reflexivity.
Qed.

Lemma choice_loop_flags (url : string) (cm : Py.value) (fields : list Dom.loc)
    (os : list AnswerOption.t) :
  option_loop (choice_field url cm) fields = Ok os ->
  Forall2 (fun a o => correctness cm a = Ok (AnswerOption.is_correct o))
    (answer_ids fields) os.
Proof.
  intros H. apply option_loop_inv in H. destruct H as (rs & Hrs & ->).
  induction Hrs as [|f r fs rs Hf _ IH]; [constructor|].
  apply choice_field_inv in Hf. unfold answer_ids in *. simpl.
  destruct r as [o|].
  - destruct Hf as (a & -> & Hc). simpl. constructor; assumption.
  - rewrite Hf. exact IH.
Qed.

(** The options of a radio or checkbox block whose [question_answer] is
    the dictionary [m]: one per answer field with an input control,
    flagged as [m] maps the field's identifier. *)
Lemma choice_options_flags (url : string) (cfg m : Py.dict) (t : string)
    (step : Dom.loc) (os : list AnswerOption.t) :
  t = "radio" \/ t = "checkbox" ->
  Py.dict_get "question_answer" cfg = Some (Py.PDict m) ->
  extract_options url cfg (Py.PStr t) step = Ok os ->
  Forall2 (fun a o => AnswerOption.is_correct o = mapped_true m a)
    (answer_ids (answer_fields step)) os.
Proof.
  intros Ht Hm H.
  assert (Hloop : option_loop (choice_field url (Py.PDict m)) (answer_fields step)
                  = Ok os).
  { unfold extract_options, question_answer in H. rewrite Hm in H.
    destruct Ht as [-> | ->]; exact H. }
  apply choice_loop_flags in Hloop.
  eapply Forall2_impl; [exact Hloop|].
  intros a o Hc. cbv beta in Hc. rewrite correctness_dict in Hc. congruence.
Qed.

(** Without a [question_answer] no option of the block is flagged. *)
Lemma choice_options_unflagged (url : string) (cfg : Py.dict) (t : string)
    (step : Dom.loc) (os : list AnswerOption.t) :
  t = "radio" \/ t = "checkbox" ->
  Py.dict_get "question_answer" cfg = None ->
  extract_options url cfg (Py.PStr t) step = Ok os ->
  Forall (fun o => AnswerOption.is_correct o = false) os.
Proof.
  intros Ht Hm H.
  assert (Hloop : option_loop (choice_field url (Py.PDict [])) (answer_fields step)
                  = Ok os).
  { unfold extract_options, question_answer in H. rewrite Hm in H.
    destruct Ht as [-> | ->]; exact H. }
  apply choice_loop_flags in Hloop. clear H.
  induction Hloop as [|a o l os' Hc _ IH]; [constructor|].
  constructor; [|exact IH].
  cbv beta in Hc. rewrite correctness_dict in Hc. injection Hc as <-. reflexivity.
Qed.

Lemma flags_count (m : Py.dict) (ids : list string) (os : list AnswerOption.t) :
  Forall2 (fun a o => AnswerOption.is_correct o = mapped_true m a) ids os ->
  length (List.filter AnswerOption.is_correct os)
  = length (List.filter (mapped_true m) ids).
Proof.
  induction 1 as [|a o l os' Hc _ IH]; simpl; [reflexivity|].
  rewrite Hc. destruct (mapped_true m a); simpl; rewrite IH; reflexivity.
Qed.

(** The options of a parsed block are those of [extract_options]. *)
Lemma parse_step_options (url : string) (quiz_options : gmap string Py.value)
    (step : Dom.loc) (cfg : Py.dict) (q : Question.t) :
  step_config quiz_options step = Py.PDict cfg ->
  parse_step url quiz_options step = Ok q ->
  extract_options url cfg (effective_type cfg step) step = Ok (Question.options q)
  /\ Question.variants q = variants_of (Question.options q)
  /\ Question.correct_answer q = correct_idx (Question.options q).
Proof.
  unfold parse_step. intros -> H. simpl in H.
  bind_inv H. bind_inv H. injection H as <-. simpl. auto.
Qed.

End Choice.

Lemma correctness_nonempty (m : Py.dict) (a : string) :
  m <> [] -> correctness (Py.PDict m) a = Ok (flagged m a).
Proof. destruct m; [congruence | reflexivity]. Qed.

Lemma filter_none {A : Type} (p : A -> bool) (l : list A) :
  (forall x, In x l -> p x = false) -> List.filter p l = [].
Proof.
  induction l as [|x l IH]; intros H; simpl; [reflexivity|].
  rewrite (H x (or_introl eq_refl)). apply IH. intros y Hy. apply H. right. exact Hy.
Qed.

Lemma filter_at_most_one {A : Type} (p : A -> bool) (l : list A) :
  List.NoDup l ->
  (forall x y, p x = true -> p y = true -> x = y) ->
  length (List.filter p l) <= 1.
Proof.
  intros Hnd Hone. induction Hnd as [|x l Hx _ IH]; simpl; [lia|].
  destruct (p x) eqn:Hpx; [|exact IH].
  rewrite filter_none; [simpl; lia|].
  intros y Hy. destruct (p y) eqn:Hpy; [|reflexivity].
  exfalso. apply Hx. rewrite (Hone x y Hpx Hpy). exact Hy.
Qed.

Section ChoiceClaims.

Context {lib : Library}.

(** C1: in a radio or checkbox block whose configuration supplies a
    non-empty correctness mapping [m], the option extracted from an answer
    field is marked correct if and only if the value [m] maps the field's
    answer identifier to compares case-insensitively equal to "1" or
    "true", so the length of [correct_answer] is the number of such
    options; without a mapping no option of the block is marked correct;
    and the radio block with answers "1", "2", "3" and the mapping
    {"1": "0", "2": "1", "3": "0"} yields a Question with 3 options and
    [correct_answer = [1]]. *)
Theorem choice_correctness (url : string) (quiz_options : gmap string Py.value)
    (step : Dom.loc) (cfg : Py.dict) (t : string) (q : Question.t) :
  step_config quiz_options step = Py.PDict cfg ->
  effective_type cfg step = Py.PStr t ->
  t = "radio" \/ t = "checkbox" ->
  parse_step url quiz_options step = Ok q ->
  (forall m : Py.dict,
     Py.dict_get "question_answer" cfg = Some (Py.PDict m) -> m <> [] ->
     Forall2 (fun a o => AnswerOption.is_correct o = mapped_true m a)
       (answer_ids (answer_fields step)) (Question.options q)
     /\ length (Question.correct_answer q)
        = length (List.filter (mapped_true m) (answer_ids (answer_fields step))))
  /\ (Py.dict_get "question_answer" cfg = None ->
      Forall (fun o => AnswerOption.is_correct o = false) (Question.options q)
      /\ Question.correct_answer q = [])
  /\ (exists q0,
        parse_step url {[ "52455" := Sample.radio_config ]}
          (Sample.alone Sample.radio_block) = Ok q0
        /\ length (Question.options q0) = 3
        /\ Question.correct_answer q0 = [1]).
Proof.
  intros Hcfg Hty Ht H.
  destruct (parse_step_options _ _ _ _ _ Hcfg H) as (Hos & _ & Hidx).
  rewrite Hty in Hos. repeat split.
  - eapply choice_options_flags; eassumption.
  - rewrite Hidx. unfold correct_idx. rewrite correct_from_length.
    apply flags_count. eapply choice_options_flags; eassumption.
  - eapply choice_options_unflagged; eassumption.
  - rewrite Hidx. apply correct_from_none.
    eapply choice_options_unflagged; eassumption.
  - exists Sample.radio_question. vm_compute. auto.
Qed.

(** C10: in a radio or checkbox block with a non-empty correctness mapping
    the mapped value is converted with [str] and lower-cased before it is
    compared with "1" and "true", an identifier without a mapped value
    taking the value "0": so a value that is not a string but whose
    lower-cased string form is "1" or "true" (the boolean true, the number
    1) marks the option correct, and an identifier absent from the mapping
    never does. *)
Theorem choice_value_conversion (url : string)
    (quiz_options : gmap string Py.value) (step : Dom.loc) (cfg m : Py.dict)
    (t : string) (q : Question.t) :
  step_config quiz_options step = Py.PDict cfg ->
  effective_type cfg step = Py.PStr t ->
  t = "radio" \/ t = "checkbox" ->
  Py.dict_get "question_answer" cfg = Some (Py.PDict m) -> m <> [] ->
  parse_step url quiz_options step = Ok q ->
  Forall2
    (fun a o =>
       AnswerOption.is_correct o
       = PyStr.mem
           (PyStr.lower (Py.str (default (Py.PStr "0") (Py.dict_get a m))))
           ["1"; "true"]
       /\ (forall v, Py.dict_get a m = Some v ->
             PyStr.lower (Py.str v) = "1" \/ PyStr.lower (Py.str v) = "true" ->
             AnswerOption.is_correct o = true)
       /\ (Py.dict_get a m = Some (Py.PBool true) \/ Py.dict_get a m = Some (Py.PInt 1) ->
           AnswerOption.is_correct o = true)
       /\ (Py.dict_get a m = None -> AnswerOption.is_correct o = false))
    (answer_ids (answer_fields step)) (Question.options q).
Proof.
  intros Hcfg Hty Ht Hm Hne H.
  destruct (parse_step_options _ _ _ _ _ Hcfg H) as (Hos & _ & _).
  rewrite Hty in Hos.
  assert (Hloop : option_loop (choice_field url (Py.PDict m)) (answer_fields step)
                  = Ok (Question.options q)).
  { unfold extract_options, question_answer in Hos. rewrite Hm in Hos.
    destruct Ht as [-> | ->]; exact Hos. }
  apply choice_loop_flags in Hloop.
  eapply Forall2_impl; [exact Hloop|].
  intros a o Hc. cbv beta in Hc.
  rewrite (correctness_nonempty _ _ Hne) in Hc. injection Hc as Hc.
  unfold flagged in Hc. rewrite <- Hc. repeat split.
  - intros v -> [E | E]; simpl; rewrite E; reflexivity.
  - intros [-> | ->]; reflexivity.
  - intros ->. reflexivity.
Qed.

(** C5 (amended): in a radio block whose answer fields carry pairwise
    distinct identifiers and whose correctness mapping flags at most one
    identifier, [correct_answer] has length at most 1. *)
Theorem radio_single_answer (url : string) (quiz_options : gmap string Py.value)
    (step : Dom.loc) (cfg m : Py.dict) (q : Question.t) :
  step_config quiz_options step = Py.PDict cfg ->
  effective_type cfg step = Py.PStr "radio" ->
  Py.dict_get "question_answer" cfg = Some (Py.PDict m) ->
  List.NoDup (answer_ids (answer_fields step)) ->
  (forall a b : string, mapped_true m a = true -> mapped_true m b = true -> a = b) ->
  parse_step url quiz_options step = Ok q ->
  length (Question.correct_answer q) <= 1.
Proof.
  intros Hcfg Hty Hm Hnd Hone H.
  destruct (parse_step_options _ _ _ _ _ Hcfg H) as (Hos & _ & Hidx).
  rewrite Hty in Hos.
  rewrite Hidx. unfold correct_idx. rewrite correct_from_length.
  rewrite (flags_count m (answer_ids (answer_fields step))).
  - apply filter_at_most_one; assumption.
  - eapply choice_options_flags; [left; reflexivity | eassumption..].
Qed.

End ChoiceClaims.

Lemma choice_correctness_witness :
  step_config {[ "52455" := Sample.radio_config ]} (Sample.alone Sample.radio_block)
  = Py.PDict Sample.radio_cfg
  /\ effective_type Sample.radio_cfg (Sample.alone Sample.radio_block)
     = Py.PStr "radio"
  /\ parse_step (lib := Sample.library) Sample.page_url
       {[ "52455" := Sample.radio_config ]} (Sample.alone Sample.radio_block)
     = Ok Sample.radio_question
  /\ Py.dict_get "question_answer" Sample.radio_cfg
     = Some (Py.PDict Sample.radio_answers)
  /\ Forall2 (fun a o => AnswerOption.is_correct o = mapped_true Sample.radio_answers a)
       (answer_ids (answer_fields (Sample.alone Sample.radio_block)))
       (Question.options Sample.radio_question)
  /\ length (Question.correct_answer Sample.radio_question)
     = length (List.filter (mapped_true Sample.radio_answers)
                 (answer_ids (answer_fields (Sample.alone Sample.radio_block)))).
Proof.
  assert (Hcfg : step_config {[ "52455" := Sample.radio_config ]}
                   (Sample.alone Sample.radio_block) = Py.PDict Sample.radio_cfg)
    by (vm_compute; reflexivity).
  assert (Hty : effective_type Sample.radio_cfg (Sample.alone Sample.radio_block)
                = Py.PStr "radio") by (vm_compute; reflexivity).
  assert (H : parse_step (lib := Sample.library) Sample.page_url
                {[ "52455" := Sample.radio_config ]} (Sample.alone Sample.radio_block)
              = Ok Sample.radio_question) by (vm_compute; reflexivity).
  assert (Hm : Py.dict_get "question_answer" Sample.radio_cfg
               = Some (Py.PDict Sample.radio_answers)) by reflexivity.
  assert (Hne : Sample.radio_answers <> []) by discriminate.
  repeat (split; [assumption|]).
  exact (proj1 (choice_correctness _ _ _ _ _ _ Hcfg Hty (or_introl eq_refl) H)
           _ Hm Hne).
Defined.

Lemma choice_value_conversion_witness :
  step_config {[ "52455" := Sample.radio_config_typed ]}
    (Sample.alone Sample.radio_block) = Py.PDict Sample.typed_cfg
  /\ effective_type Sample.typed_cfg (Sample.alone Sample.radio_block)
     = Py.PStr "checkbox"
  /\ Py.dict_get "question_answer" Sample.typed_cfg
     = Some (Py.PDict Sample.typed_answers)
  /\ parse_step (lib := Sample.library) Sample.page_url
       {[ "52455" := Sample.radio_config_typed ]} (Sample.alone Sample.radio_block)
     = Ok Sample.radio_question_two
  /\ Forall2
       (fun a o =>
          AnswerOption.is_correct o
          = PyStr.mem
              (PyStr.lower
                 (Py.str (default (Py.PStr "0") (Py.dict_get a Sample.typed_answers))))
              ["1"; "true"]
          /\ (forall v, Py.dict_get a Sample.typed_answers = Some v ->
                PyStr.lower (Py.str v) = "1" \/ PyStr.lower (Py.str v) = "true" ->
                AnswerOption.is_correct o = true)
          /\ (Py.dict_get a Sample.typed_answers = Some (Py.PBool true)
              \/ Py.dict_get a Sample.typed_answers = Some (Py.PInt 1) ->
              AnswerOption.is_correct o = true)
          /\ (Py.dict_get a Sample.typed_answers = None ->
              AnswerOption.is_correct o = false))
       (answer_ids (answer_fields (Sample.alone Sample.radio_block)))
       (Question.options Sample.radio_question_two).
Proof.
  assert (Hcfg : step_config {[ "52455" := Sample.radio_config_typed ]}
                   (Sample.alone Sample.radio_block) = Py.PDict Sample.typed_cfg)
    by (vm_compute; reflexivity).
  assert (Hty : effective_type Sample.typed_cfg (Sample.alone Sample.radio_block)
                = Py.PStr "checkbox") by (vm_compute; reflexivity).
  assert (Hm : Py.dict_get "question_answer" Sample.typed_cfg
               = Some (Py.PDict Sample.typed_answers)) by reflexivity.
  assert (H : parse_step (lib := Sample.library) Sample.page_url
                {[ "52455" := Sample.radio_config_typed ]}
                (Sample.alone Sample.radio_block)
              = Ok Sample.radio_question_two) by (vm_compute; reflexivity).
  assert (Hne : Sample.typed_answers <> []) by discriminate.
  repeat (split; [assumption|]).
  exact (choice_value_conversion _ _ _ _ _ _ _ Hcfg Hty (or_intror eq_refl) Hm Hne H).
Defined.

(** C5 as stated fails: the radio block of the sample page with the
    mapping {"1": "1", "2": "1", "3": "0"} is read into a Question whose
    [correct_answer] is [[0; 1]]. *)
Lemma radio_two_correct :
  effective_type
    [("question_type", Py.PStr "radio");
     ("question_answer",
      Py.PDict [("1", Py.PStr "1"); ("2", Py.PStr "1"); ("3", Py.PStr "0")])]
    (Sample.alone Sample.radio_block) = Py.PStr "radio"
  /\ parse_step (lib := Sample.library) Sample.page_url
       {[ "52455" := Sample.radio_config_two ]} (Sample.alone Sample.radio_block)
     = Ok Sample.radio_question_two
  /\ Question.correct_answer Sample.radio_question_two = [0; 1]
  /\ length (Question.correct_answer Sample.radio_question_two) = 2.
Proof. vm_compute. auto. Qed.

Lemma radio_single_answer_witness :
  step_config {[ "52455" := Sample.radio_config ]} (Sample.alone Sample.radio_block)
  = Py.PDict Sample.radio_cfg
  /\ effective_type Sample.radio_cfg (Sample.alone Sample.radio_block)
     = Py.PStr "radio"
  /\ Py.dict_get "question_answer" Sample.radio_cfg
     = Some (Py.PDict Sample.radio_answers)
  /\ List.NoDup (answer_ids (answer_fields (Sample.alone Sample.radio_block)))
  /\ (forall a b : string,
        mapped_true Sample.radio_answers a = true ->
        mapped_true Sample.radio_answers b = true -> a = b)
  /\ parse_step (lib := Sample.library) Sample.page_url
       {[ "52455" := Sample.radio_config ]} (Sample.alone Sample.radio_block)
     = Ok Sample.radio_question
  /\ length (Question.correct_answer Sample.radio_question) <= 1.
Proof.
  assert (Hcfg : step_config {[ "52455" := Sample.radio_config ]}
                   (Sample.alone Sample.radio_block) = Py.PDict Sample.radio_cfg)
    by (vm_compute; reflexivity).
  assert (Hty : effective_type Sample.radio_cfg (Sample.alone Sample.radio_block)
                = Py.PStr "radio") by (vm_compute; reflexivity).
  assert (Hm : Py.dict_get "question_answer" Sample.radio_cfg
               = Some (Py.PDict Sample.radio_answers)) by reflexivity.
  assert (Hnd : List.NoDup (answer_ids (answer_fields (Sample.alone Sample.radio_block)))).
  { change (List.NoDup ["1"; "2"; "3"]).
    repeat constructor; simpl; intuition discriminate. }
  assert (Hone : forall a b : string,
             mapped_true Sample.radio_answers a = true ->
             mapped_true Sample.radio_answers b = true -> a = b).
  { assert (Hflag : forall a, mapped_true Sample.radio_answers a = true -> a = "2").
    { intros a. unfold mapped_true, Py.dict_get, Sample.radio_answers.
      cbn [List.find fst snd].
      destruct (String.eqb_spec "1" a) as [<-|_]; [cbn; discriminate|].
      destruct (String.eqb_spec "2" a) as [<-|_]; [reflexivity|].
      destruct (String.eqb_spec "3" a) as [<-|_]; cbn; discriminate. }
    intros a b Ha Hb. rewrite (Hflag a Ha), (Hflag b Hb). reflexivity. }
  assert (H : parse_step (lib := Sample.library) Sample.page_url
                {[ "52455" := Sample.radio_config ]} (Sample.alone Sample.radio_block)
              = Ok Sample.radio_question) by (vm_compute; reflexivity).
  repeat (split; [assumption|]).
  exact (radio_single_answer _ _ _ _ _ _ Hcfg Hty Hm Hnd Hone H).
Defined.

(* ===================================================================== *)
(** ** Fields and pairs with missing parts *)
(* ===================================================================== *)

Section Skipping.

Context {lib : Library}.

Lemma matching_pair_skip (url : string) (inv : Py.kdict) (p : Dom.loc) :
  has_both_halves p = false -> matching_pair url inv p = Ok None.
Proof.
  unfold has_both_halves, matching_pair.
  destruct (Css.select_one [[Css.Class "ays-matching-field-choice"]] p);
    destruct (Css.select_one [[Css.Class "ays-matching-field-match"]] p);
    intros H; try discriminate H; reflexivity.
Qed.

(** A pair that yields an option has both halves, and the option is
    marked correct. *)
Lemma matching_pair_inv (url : string) (inv : Py.kdict) (p : Dom.loc)
    (r : option AnswerOption.t) :
  matching_pair url inv p = Ok r ->
  match r with
  | Some o => has_both_halves p = true /\ AnswerOption.is_correct o = true
  | None => has_both_halves p = false
  end.
Proof.
  unfold has_both_halves, matching_pair.
  destruct (Css.select_one [[Css.Class "ays-matching-field-choice"]] p) as [c|];
    destruct (Css.select_one [[Css.Class "ays-matching-field-match"]] p) as [m|];
    intros H; try (injection H as <-; reflexivity).
  bind_inv H. injection H as <-. split; reflexivity.
Qed.

Lemma choice_field_keeps (url : string) (cm : Py.value) (f : Dom.loc)
    (r : option AnswerOption.t) :
  choice_field url cm f = Ok r ->
  has_input f = match r with Some _ => true | None => false end.
Proof.
  intros H. apply choice_field_inv in H. unfold has_input, field_answer_id in *.
  destruct r as [o|].
  - destruct H as (a & Ha & _).
    destruct (Css.select_one input_selector f); [reflexivity | discriminate Ha].
  - destruct (Css.select_one input_selector f); [discriminate H | reflexivity].
Qed.

Lemma matching_pair_keeps (url : string) (inv : Py.kdict) (p : Dom.loc)
    (r : option AnswerOption.t) :
  matching_pair url inv p = Ok r ->
  has_both_halves p = match r with Some _ => true | None => false end.
Proof.
  intros H. apply matching_pair_inv in H. destruct r; [apply H | exact H].
Qed.

(** A loop that returns yields one option for each element its body
    keeps. *)
Lemma option_loop_length (body : Dom.loc -> pyres (option AnswerOption.t))
    (keep : Dom.loc -> bool) (els : list Dom.loc) (os : list AnswerOption.t) :
  (forall el r, body el = Ok r ->
     keep el = match r with Some _ => true | None => false end) ->
  option_loop body els = Ok os ->
  length os = length (List.filter keep els).
Proof.
  intros Hkeep H. apply option_loop_inv in H. destruct H as (rs & Hrs & ->).
  induction Hrs as [|el r els rs Hel _ IH]; [reflexivity|].
  simpl. rewrite (Hkeep _ _ Hel). destruct r; simpl; [f_equal|]; exact IH.
Qed.

(** C4 (amended): an answer field without an input control and a matching
    pair without its choice half or its match half add no option, and the
    loop over the block gives what it gives without them (its other
    options, or the error another element raises); a radio or checkbox
    block yields one option for each field with an input control and a
    matching block one for each pair with both halves.  An answer field
    with an input control but no label is not skipped: it yields an option
    with empty text and no images, flagged as the mapping says. *)
Theorem missing_parts (url : string) :
  (forall (cm : Py.value) (l1 l2 : list Dom.loc) (f : Dom.loc),
     has_input f = false ->
     option_loop (choice_field url cm) (l1 ++ f :: l2)
     = option_loop (choice_field url cm) (l1 ++ l2))
  /\ (forall (inv : Py.kdict) (l1 l2 : list Dom.loc) (p : Dom.loc),
        has_both_halves p = false ->
        option_loop (matching_pair url inv) (l1 ++ p :: l2)
        = option_loop (matching_pair url inv) (l1 ++ l2))
  /\ (forall (cfg : Py.dict) (t : string) (step : Dom.loc)
        (os : list AnswerOption.t),
        t = "radio" \/ t = "checkbox" ->
        extract_options url cfg (Py.PStr t) step = Ok os ->
        length os = length (List.filter has_input (answer_fields step)))
  /\ (forall (cfg : Py.dict) (step : Dom.loc) (os : list AnswerOption.t),
        extract_options url cfg (Py.PStr "matching") step = Ok os ->
        length os = length (List.filter has_both_halves (matching_pairs step)))
  /\ (forall (m : Py.dict) (f input_el : Dom.loc),
        Css.select_one input_selector f = Some input_el ->
        Css.plain (get_or_empty "id" (Dom.self input_el)) = true ->
        Css.select_one
          [[Css.Tag "label"; Css.AttrEq "for" (get_or_empty "id" (Dom.self input_el))]]
          f = None ->
        choice_field url (Py.PDict m) f
        = Ok (Some (AnswerOption.mk EmptyString
                      (mapped_true m (get_or_empty "value" (Dom.self input_el)))
                      []))).
Proof.
  repeat split.
  - intros cm l1 l2 f Hf. apply option_loop_skip. apply choice_field_skip. exact Hf.
  - intros inv l1 l2 p Hp. apply option_loop_skip. apply matching_pair_skip. exact Hp.
  - intros cfg t step os Ht H.
    apply (option_loop_length (choice_field url (question_answer cfg (Py.PDict [])))).
    + intros el r. apply choice_field_keeps.
    + unfold extract_options in H. destruct Ht as [-> | ->]; exact H.
  - intros cfg step os H. unfold extract_options in H. simpl in H.
    bind_inv H. bind_inv H.
    apply (option_loop_length (matching_pair url a0)); [|exact H].
    intros el r. apply matching_pair_keeps.
  - intros m f input_el Hin Hplain Hlabel.
    unfold choice_field, Css.label_selector. rewrite Hin, Hplain. simpl.
    rewrite Hlabel. simpl. rewrite correctness_dict. reflexivity.
Qed.

End Skipping.

(** C4 as stated fails for the label: the only answer field of the radio
    block [Sample.bare_block] has an input control and no label, and the
    block is read into a Question with one option, whose text is empty. *)
Lemma unlabelled_field_kept :
  exists f : Dom.loc,
    answer_fields (Sample.alone Sample.bare_block) = [f]
    /\ has_input f = true
    /\ field_label f = None
    /\ parse_step (lib := Sample.library) Sample.page_url ∅
         (Sample.alone Sample.bare_block) = Ok Sample.bare_question
    /\ Question.options Sample.bare_question = [AnswerOption.mk EmptyString false []].
Proof.
  eexists. split; [vm_compute; reflexivity|].
  vm_compute. auto.
Qed.

Lemma missing_parts_witness :
  exists f input_el : Dom.loc,
    answer_fields (Sample.alone Sample.bare_block) = [f]
    /\ Css.select_one input_selector f = Some input_el
    /\ Css.plain (get_or_empty "id" (Dom.self input_el)) = true
    /\ Css.select_one
         [[Css.Tag "label"; Css.AttrEq "for" (get_or_empty "id" (Dom.self input_el))]]
         f = None
    /\ choice_field (lib := Sample.library) Sample.page_url (Py.PDict Sample.radio_answers) f
       = Ok (Some (AnswerOption.mk EmptyString
                     (mapped_true Sample.radio_answers
                        (get_or_empty "value" (Dom.self input_el)))
                     [])).
Proof.
  eexists. eexists.
  split; [vm_compute; reflexivity|].
  assert (Hin : Css.select_one input_selector
                  (Dom.Loc [Sample.div "ays-quiz-answers" [Sample.bare_field "radio" "1"];
                            Sample.bare_block;
                            Dom.self (Dom.document [Sample.bare_block])]
                     (Sample.bare_field "radio" "1"))
                = Some (Dom.Loc
                          [Sample.bare_field "radio" "1";
                           Sample.div "ays-quiz-answers" [Sample.bare_field "radio" "1"];
                           Sample.bare_block;
                           Dom.self (Dom.document [Sample.bare_block])]
                          (Dom.Elem "input"
                             [("type", "radio"); ("id", "ays-answer-1"); ("value", "1")]
                             [])))
    by (vm_compute; reflexivity).
  split; [exact Hin|].
  assert (Hplain : Css.plain "ays-answer-1" = true) by (vm_compute; reflexivity).
  split; [exact Hplain|].
  assert (Hlabel : Css.select_one
                     [[Css.Tag "label"; Css.AttrEq "for" "ays-answer-1"]]
                     (Dom.Loc [Sample.div "ays-quiz-answers" [Sample.bare_field "radio" "1"];
                               Sample.bare_block;
                               Dom.self (Dom.document [Sample.bare_block])]
                        (Sample.bare_field "radio" "1")) = None)
    by (vm_compute; reflexivity).
  split; [exact Hlabel|].
  exact (proj2 (proj2 (proj2 (proj2 (missing_parts (lib := Sample.library) Sample.page_url))))
           Sample.radio_answers _ _ Hin Hplain Hlabel).
Defined.

(* ===================================================================== *)
(** ** Short-text blocks *)
(* ===================================================================== *)

Section ShortText.

Context {lib : Library}.

(** C7: in a short-text block whose configured answer is not empty, exactly
    one option is produced: its text is the configured answer (its string
    form, the answer itself when it is a string), it is marked correct and
    it has no images; when the configured answer is absent or empty, the
    question has no options and [correct_answer = []]. *)
Theorem short_text_option (url : string) (quiz_options : gmap string Py.value)
    (step : Dom.loc) (cfg : Py.dict) (imgs : list string) :
  step_config quiz_options step = Py.PDict cfg ->
  effective_type cfg step = Py.PStr "short_text" ->
  question_images url step = Ok imgs ->
  (forall s : string,
     Py.dict_get "question_answer" cfg = Some (Py.PStr s) -> s <> "" ->
     parse_step url quiz_options step
     = Ok (Question.mk (question_text step) [AnswerOption.mk s true []] [s] [0] imgs))
  /\ (forall ans : Py.value,
        Py.dict_get "question_answer" cfg = Some ans -> Py.truthy ans = true ->
        parse_step url quiz_options step
        = Ok (Question.mk (question_text step)
                [AnswerOption.mk (Py.str ans) true []] [Py.str ans] [0] imgs))
  /\ (Py.dict_get "question_answer" cfg = None
      \/ Py.dict_get "question_answer" cfg = Some (Py.PStr "")
      \/ (exists ans, Py.dict_get "question_answer" cfg = Some ans
                      /\ Py.truthy ans = false) ->
      parse_step url quiz_options step
      = Ok (Question.mk (question_text step) [] [] [] imgs)).
Proof.
  intros Hcfg Hty Himgs.
  assert (Hgen : forall ans : Py.value,
             Py.dict_get "question_answer" cfg = Some ans -> Py.truthy ans = true ->
             parse_step url quiz_options step
             = Ok (Question.mk (question_text step)
                     [AnswerOption.mk (Py.str ans) true []] [Py.str ans] [0] imgs)).
  { intros ans Hans Htr. unfold parse_step. rewrite Hcfg. simpl.
    rewrite Himgs, Hty. simpl.
    unfold extract_options, question_answer. simpl. rewrite Hans. simpl.
    rewrite Htr. reflexivity. }
  repeat split.
  - intros s Hs Hne. apply (Hgen (Py.PStr s) Hs). simpl.
    destruct (String.eqb_spec s ""); [contradiction | reflexivity].
  - exact Hgen.
  - intros Habs.
    assert (Hfalsy : Py.truthy (question_answer cfg (Py.PStr "")) = false).
    { unfold question_answer.
      destruct Habs as [-> | [-> | (ans & -> & Hf)]]; [reflexivity | reflexivity | exact Hf]. }
    unfold parse_step. rewrite Hcfg. simpl. rewrite Himgs, Hty. simpl.
    unfold extract_options. simpl. rewrite Hfalsy. reflexivity.
Qed.

End ShortText.

Lemma short_text_option_witness :
  step_config {[ "52459" := Sample.short_config "bit" ]}
    (Sample.alone Sample.short_block) = Py.PDict (Sample.short_cfg "bit")
  /\ effective_type (Sample.short_cfg "bit") (Sample.alone Sample.short_block)
     = Py.PStr "short_text"
  /\ question_images (lib := Sample.library) Sample.page_url
       (Sample.alone Sample.short_block) = Ok []
  /\ Py.dict_get "question_answer" (Sample.short_cfg "bit") = Some (Py.PStr "bit")
  /\ parse_step (lib := Sample.library) Sample.page_url
       {[ "52459" := Sample.short_config "bit" ]} (Sample.alone Sample.short_block)
     = Ok (Question.mk (question_text (Sample.alone Sample.short_block))
             [AnswerOption.mk "bit" true []] ["bit"] [0] []).
Proof.
  assert (Hcfg : step_config {[ "52459" := Sample.short_config "bit" ]}
                   (Sample.alone Sample.short_block) = Py.PDict (Sample.short_cfg "bit"))
    by (vm_compute; reflexivity).
  assert (Hty : effective_type (Sample.short_cfg "bit") (Sample.alone Sample.short_block)
                = Py.PStr "short_text") by (vm_compute; reflexivity).
  assert (Himgs : question_images (lib := Sample.library) Sample.page_url
                    (Sample.alone Sample.short_block) = Ok [])
    by (vm_compute; reflexivity).
  assert (Hans : Py.dict_get "question_answer" (Sample.short_cfg "bit")
                 = Some (Py.PStr "bit")) by reflexivity.
  assert (Hne : "bit" <> "") by discriminate.
  repeat (split; [assumption|]).
  exact (proj1 (short_text_option _ _ _ _ _ Hcfg Hty Himgs) "bit" Hans Hne).
Defined.

(* ===================================================================== *)
(** ** Matching blocks *)
(* ===================================================================== *)

Section Matching.

Context {lib : Library}.

(** Every option of a matching block is marked correct. *)
Lemma matching_options_correct (url : string) (cfg : Py.dict) (step : Dom.loc)
    (os : list AnswerOption.t) :
  extract_options url cfg (Py.PStr "matching") step = Ok os ->
  Forall (fun o => AnswerOption.is_correct o = true) os.
Proof.
  unfold extract_options. simpl. intros H. bind_inv H. bind_inv H.
  apply option_loop_inv in H. destruct H as (rs & Hrs & ->).
  induction Hrs as [|p r ps rs Hp _ IH]; [constructor|].
  apply matching_pair_inv in Hp. destruct r as [o|]; simpl; [|exact IH].
  constructor; [apply Hp | exact IH].
Qed.

(** C2 (amended): the matching block with the pairs "Cat"/"b3" and
    "Dog"/"a7", in this order in the document, and the mapping
    {"1": "a7", "2": "b3"} yields the options "Cat -> 2" and "Dog -> 1", in
    the order of the pairs in the document, both marked correct; the
    position of a pair is read from the inverse of the mapping, and the
    text of an option is "<choice text> -> <position>" when the inverse
    holds the pair's answer identifier and the choice text otherwise. *)
Theorem matching_scenario (url : string) :
  parse_step url {[ "52456" := Sample.matching_config ]}
    (Sample.alone Sample.matching_block) = Ok Sample.matching_question
  /\ invert [("1", Py.PStr "a7"); ("2", Py.PStr "b3")] []
     = Ok [(Py.PStr "a7", "1"); (Py.PStr "b3", "2")]
  /\ (forall (inv : Py.kdict) (opt choice_el match_el : Dom.loc)
        (img_urls : list string),
        Css.select_one [[Css.Class "ays-matching-field-choice"]] opt = Some choice_el ->
        Css.select_one [[Css.Class "ays-matching-field-match"]] opt = Some match_el ->
        collect_images url choice_el = Ok img_urls ->
        matching_pair url inv opt
        = Ok (Some (AnswerOption.mk
                      match Py.kdict_get
                              (Py.PStr (get_or_empty "data-answer-id" (Dom.self match_el)))
                              inv with
                      | Some pos =>
                          Dom.get_text_strip " " (Dom.self choice_el) +:+ " -> " +:+ pos
                      | None => Dom.get_text_strip " " (Dom.self choice_el)
                      end
                      true img_urls))).
Proof.
  split; [vm_compute; reflexivity|].
  split; [reflexivity|].
  intros inv opt choice_el match_el img_urls Hc Hm Hi.
  unfold matching_pair. rewrite Hc, Hm, Hi. reflexivity.
Qed.

End Matching.

(** C2 as stated fails: the options of the scenario are "Cat -> 2" then
    "Dog -> 1", not "Dog -> 1" then "Cat -> 2". *)
Lemma matching_order :
  parse_step (lib := Sample.library) Sample.page_url
    {[ "52456" := Sample.matching_config ]} (Sample.alone Sample.matching_block)
  = Ok Sample.matching_question
  /\ Question.variants Sample.matching_question = ["Cat -> 2"; "Dog -> 1"]
  /\ Question.variants Sample.matching_question <> ["Dog -> 1"; "Cat -> 2"].
Proof.
  split; [vm_compute; reflexivity|].
  split; [reflexivity | discriminate].
Qed.

(* ===================================================================== *)
(** ** Label text *)
(* ===================================================================== *)

(** C3 fails on the code: the first answer field of [Sample.caption_block]
    has the label [Sample.caption_label], whose own text is "Paris" and
    which holds an image and a nested caption label; the option read from
    it has the text "Paris caption", the nested label's text included.
    The image of the label is collected and resolved. *)
Theorem caption_text_included :
  (exists f rest up,
     answer_fields (Sample.alone Sample.caption_block) = f :: rest
     /\ field_label f = Some (Dom.Loc up Sample.caption_label))
  /\ own_text Sample.caption_label = "Paris"
  /\ Dom.get_text_strip " " Sample.caption_label = "Paris caption"
  /\ parse_step (lib := Sample.library) Sample.page_url
       {[ "52458" := Sample.caption_config ]} (Sample.alone Sample.caption_block)
     = Ok Sample.caption_question
  /\ head (Question.options Sample.caption_question)
     = Some (AnswerOption.mk "Paris caption" true
               ["https://info-master.uz/img/paris.png"]).
Proof.
  split; [do 3 eexists; split; vm_compute; reflexivity|].
  vm_compute. auto.
Qed.

(* ===================================================================== *)
(** ** Configuration entries *)
(* ===================================================================== *)

Section Config.

Context {lib : Library}.

Lemma decode_payload_none (b64 : string) :
  (b64decode b64 = None
   \/ exists bytes, b64decode b64 = Some bytes
        /\ (decode_utf8 bytes = None
            \/ exists text, decode_utf8 bytes = Some text /\ json_loads text = None)) ->
  decode_payload b64 = None.
Proof.
  unfold decode_payload.
  intros [Hb | (bytes & Hb & [Hu | (text & Hu & Hj)])]; rewrite Hb; simpl;
    [reflexivity | rewrite Hu; reflexivity | rewrite Hu; simpl; exact Hj].
Qed.

Lemma fold_store_skip (ms1 ms2 : list (string * string)) (m : string * string)
    (acc : gmap string Py.value) :
  decode_payload (snd m) = None ->
  fold_left store_payload (ms1 ++ m :: ms2) acc
  = fold_left store_payload (ms1 ++ ms2) acc.
Proof.
  intros Hm. rewrite !fold_left_app. simpl.
  unfold store_payload at 2. rewrite Hm. reflexivity.
Qed.

(** The last match for an identifier whose token decodes wins. *)
Lemma fold_store_lookup (ms : list (string * string)) (acc : gmap string Py.value)
    (qid : string) :
  fold_left store_payload ms acc !! qid
  = match last (omap (entry_for qid) ms) with
    | Some data => Some data
    | None => acc !! qid
    end.
Proof.
  revert acc. induction ms as [|m ms IH]; intros acc; [reflexivity|].
  change (fold_left store_payload (m :: ms) acc)
    with (fold_left store_payload ms (store_payload acc m)).
  rewrite IH.
  change (omap (entry_for qid) (m :: ms))
    with (match entry_for qid m with
          | Some y => y :: omap (entry_for qid) ms
          | None => omap (entry_for qid) ms
          end).
  assert (Hm : store_payload acc m !! qid
               = match entry_for qid m with
                 | Some data => Some data
                 | None => acc !! qid
                 end).
  { unfold store_payload, entry_for.
    destruct (String.eqb_spec (fst m) qid) as [E|E];
      destruct (decode_payload (snd m)); try reflexivity.
    - rewrite E. apply lookup_insert_eq.
    - apply lookup_insert_ne. exact E. }
  rewrite Hm. destruct (entry_for qid m) as [data|]; [|reflexivity].
  rewrite last_cons. destruct (last (omap (entry_for qid) ms)); reflexivity.
Qed.

Lemma eq_str_true (v : Py.value) (s : string) :
  Py.eq_str v s = true -> v = Py.PStr s.
Proof.
  destruct v; simpl; try discriminate.
  intros H. apply String.eqb_eq in H. congruence.
Qed.

(** With an empty configuration only a matching block has options that
    are marked correct. *)
Lemma unconfigured_options (url : string) (ty : Py.value) (step : Dom.loc)
    (os : list AnswerOption.t) :
  extract_options url [] ty step = Ok os ->
  if Py.eq_str ty "matching"
  then Forall (fun o => AnswerOption.is_correct o = true) os
  else Forall (fun o => AnswerOption.is_correct o = false) os.
Proof.
  intros H.
  destruct (Py.eq_str ty "radio" || Py.eq_str ty "checkbox") eqn:Echoice.
  - assert (Ht : exists t, ty = Py.PStr t /\ (t = "radio" \/ t = "checkbox")).
    { apply orb_true_iff in Echoice.
      destruct Echoice as [E | E]; apply eq_str_true in E; eauto. }
    destruct Ht as (t & -> & Ht).
    assert (Hm : Py.eq_str (Py.PStr t) "matching" = false)
      by (destruct Ht as [-> | ->]; reflexivity).
    rewrite Hm. exact (choice_options_unflagged url [] t step os Ht eq_refl H).
  - unfold extract_options in H. rewrite Echoice in H.
    destruct (Py.eq_str ty "short_text") eqn:Eshort.
    + apply eq_str_true in Eshort. subst ty. simpl in *.
      injection H as <-. constructor.
    + destruct (Py.eq_str ty "matching") eqn:Ematch.
      * apply eq_str_true in Ematch. subst ty.
        apply (matching_options_correct url [] step). exact H.
      * injection H as <-. constructor.
Qed.

(** C8 (amended): a match of the configuration pattern whose token fails
    to decode as base64, as UTF-8 or as JSON is skipped, and the mapping is
    the one extracted from the other matches (for each identifier, the
    payload of its last match that decodes); a block whose identifier is
    absent from the mapping has an empty configuration, its effective type
    is its own type attribute or, without one, radio, and none of its
    options is marked correct unless its own type attribute is matching,
    in which case all of its options are. *)
Theorem config_failures_and_absent_ids (url html : string) :
  (forall (ms1 ms2 : list (string * string)) (qid b64 : string),
     findall html = ms1 ++ (qid, b64) :: ms2 ->
     (b64decode b64 = None
      \/ exists bytes, b64decode b64 = Some bytes
           /\ (decode_utf8 bytes = None
               \/ exists text, decode_utf8 bytes = Some text
                               /\ json_loads text = None)) ->
     _extract_quiz_options html = fold_left store_payload (ms1 ++ ms2) ∅)
  /\ (forall qid : string,
        _extract_quiz_options html !! qid
        = last (omap (entry_for qid) (findall html)))
  /\ (forall (quiz_options : gmap string Py.value) (step : Dom.loc) (qid : string),
        Dom.get "data-question-id" (Dom.self step) = Some qid ->
        quiz_options !! qid = None ->
        step_config quiz_options step = Py.PDict []
        /\ effective_type [] step = declared_type step
        /\ (forall t : string,
              Dom.get "data-type" (Dom.self step) = Some t -> t <> "" ->
              declared_type step = Py.PStr t)
        /\ (Dom.get "data-type" (Dom.self step) = None
            \/ Dom.get "data-type" (Dom.self step) = Some "" ->
            declared_type step = Py.PStr "radio")
        /\ (forall q : Question.t,
              parse_step url quiz_options step = Ok q ->
              if Py.eq_str (declared_type step) "matching"
              then Forall (fun o => AnswerOption.is_correct o = true)
                     (Question.options q)
              else Forall (fun o => AnswerOption.is_correct o = false)
                     (Question.options q)
                   /\ Question.correct_answer q = [])).
Proof.
  split; [|split].
  - intros ms1 ms2 qid b64 Hms Hfail. unfold _extract_quiz_options.
    rewrite Hms. apply fold_store_skip. simpl. apply decode_payload_none. exact Hfail.
  - intros qid. unfold _extract_quiz_options. rewrite fold_store_lookup.
    destruct (last (omap (entry_for qid) (findall html))); reflexivity.
  - intros quiz_options step qid Hqid Habs.
    assert (Hcfg : step_config quiz_options step = Py.PDict []).
    { unfold step_config. rewrite Hqid, Habs. reflexivity. }
    split; [exact Hcfg|].
    split; [reflexivity|].
    split; [|split].
    + intros t Ht Hne. unfold declared_type. rewrite Ht. unfold PyStr.nonempty.
      destruct (String.eqb_spec t ""); [contradiction | reflexivity].
    + intros [Ht | Ht]; unfold declared_type; rewrite Ht; reflexivity.
    + intros q H.
      destruct (parse_step_options _ _ _ _ _ Hcfg H) as (Hos & _ & Hidx).
      change (effective_type [] step) with (declared_type step) in Hos.
      apply unconfigured_options in Hos.
      destruct (Py.eq_str (declared_type step) "matching"); [exact Hos|].
      split; [exact Hos|].
      rewrite Hidx. apply correct_from_none. exact Hos.
Qed.

End Config.

Lemma config_failures_and_absent_ids_witness :
  findall (Library := Sample.library) Sample.html
  = [("52455", "e30=")] ++ ("52460", "e30") :: [("52461", "bm9wZQ==")]
  /\ b64decode (Library := Sample.library) "e30" = None
  /\ _extract_quiz_options (lib := Sample.library) Sample.html
     = fold_left (store_payload (lib := Sample.library))
         ([("52455", "e30=")] ++ [("52461", "bm9wZQ==")]) ∅
  /\ _extract_quiz_options (lib := Sample.library) Sample.html !! "52455"
     = Some (Py.PDict []).
Proof.
  assert (Hms : findall (Library := Sample.library) Sample.html
                = [("52455", "e30=")] ++ ("52460", "e30") :: [("52461", "bm9wZQ==")])
    by (vm_compute; reflexivity).
  assert (Hb : b64decode (Library := Sample.library) "e30" = None)
    by (vm_compute; reflexivity).
  split; [exact Hms|]. split; [exact Hb|].
  split; [|vm_compute; reflexivity].
  exact (proj1 (config_failures_and_absent_ids (lib := Sample.library)
                  Sample.page_url Sample.html)
           _ _ _ _ Hms (or_introl Hb)).
Defined.

(** C8 as stated fails where it says that no option of a block without
    configuration is marked correct: the token of "52461" on the sample
    page decodes to text that is not JSON, so the identifier is absent from
    the mapping; the block with this identifier declares the type matching,
    and its option is marked correct. *)
Lemma absent_config_matching_correct :
  _extract_quiz_options (lib := Sample.library) Sample.html !! "52461" = None
  /\ Dom.get "data-question-id" Sample.declared_matching_block = Some "52461"
  /\ Dom.get "data-type" Sample.declared_matching_block = Some "matching"
  /\ parse_step (lib := Sample.library) Sample.page_url
       (_extract_quiz_options (lib := Sample.library) Sample.html)
       (Sample.alone Sample.declared_matching_block)
     = Ok Sample.declared_matching_question
  /\ Question.options Sample.declared_matching_question
     = [AnswerOption.mk "Cat" true []]
  /\ Question.correct_answer Sample.declared_matching_question = [0].
Proof. vm_compute. auto 10. Qed.

(* ===================================================================== *)
(** ** Facts about the string operations *)
(* ===================================================================== *)

Section StringFacts.

Implicit Types (s t u : string) (c d : ascii) (p : ascii -> bool).

Local Arguments String.append !_ _ : simpl nomatch.

Lemma append_assoc s t u : (s +:+ t) +:+ u = s +:+ (t +:+ u).
Proof. induction s as [|c s IH]; simpl; [reflexivity | rewrite IH; reflexivity]. Qed.

Lemma append_empty_r s : s +:+ "" = s.
Proof. induction s as [|c s IH]; simpl; [reflexivity | rewrite IH; reflexivity]. Qed.

Lemma all_chars_app p s t :
  PyStr.all_chars p (s +:+ t) = PyStr.all_chars p s && PyStr.all_chars p t.
Proof.
  induction s as [|c s IH]; simpl; [reflexivity|].
  rewrite IH, andb_assoc. reflexivity.
Qed.

Lemma contains_app c s t :
  PyStr.contains c (s +:+ t) = PyStr.contains c s || PyStr.contains c t.
Proof.
  induction s as [|d s IH]; simpl; [reflexivity|].
  rewrite IH, orb_assoc. reflexivity.
Qed.

Lemma remove_chars_clean p s :
  PyStr.all_chars (fun c => negb (p c)) (PyStr.remove_chars p s) = true.
Proof.
  induction s as [|c s IH]; simpl; [reflexivity|].
  destruct (p c) eqn:E; simpl; [exact IH | rewrite E, IH; reflexivity].
Qed.

Lemma remove_chars_id p s :
  PyStr.all_chars (fun c => negb (p c)) s = true -> PyStr.remove_chars p s = s.
Proof.
  induction s as [|c s IH]; simpl; [reflexivity|].
  intros H. apply andb_true_iff in H. destruct H as [Hc Hs].
  apply negb_true_iff in Hc. rewrite Hc, (IH Hs). reflexivity.
Qed.

Lemma partition_some c s a b :
  PyStr.partition c s = (a, Some b) ->
  s = a +:+ String c b /\ PyStr.contains c a = false.
Proof.
  revert a. induction s as [|d s IH]; simpl; intros a H; [discriminate H|].
  destruct (Ascii.eqb_spec c d) as [<-|Hcd].
  - injection H as <- <-. split; reflexivity.
  - destruct (PyStr.partition c s) as [a' b'] eqn:E.
    injection H as <- ->.
    destruct (IH a' eq_refl) as [-> Ha]. simpl.
    split; [reflexivity|].
    rewrite Ha. apply Ascii.eqb_neq in Hcd. rewrite Hcd. reflexivity.
Qed.

Lemma partition_none c s a :
  PyStr.partition c s = (a, None) -> a = s /\ PyStr.contains c s = false.
Proof.
  revert a. induction s as [|d s IH]; simpl; intros a H.
  - injection H as <-. split; reflexivity.
  - destruct (Ascii.eqb_spec c d) as [<-|Hcd]; [discriminate H|].
    destruct (PyStr.partition c s) as [a' b'] eqn:E.
    injection H as <- ->.
    destruct (IH a' eq_refl) as [-> Hs]. split; [reflexivity|].
    simpl. exact Hs.
Qed.

Lemma partition_app c a b :
  PyStr.contains c a = false ->
  PyStr.partition c (a +:+ String c b) = (a, Some b).
Proof.
  induction a as [|d a IH]; simpl; intros H.
  - rewrite Ascii.eqb_refl. reflexivity.
  - apply orb_false_iff in H. destruct H as [Hd Ha].
    rewrite Hd, (IH Ha). reflexivity.
Qed.

Lemma partition_absent c s :
  PyStr.contains c s = false -> PyStr.partition c s = (s, None).
Proof.
  induction s as [|d s IH]; simpl; intros H; [reflexivity|].
  apply orb_false_iff in H. destruct H as [Hd Hs].
  rewrite Hd, (IH Hs). reflexivity.
Qed.

Lemma span_until_spec p s a b :
  Urllib.span_until p s = (a, b) ->
  s = a +:+ b
  /\ PyStr.all_chars (fun c => negb (p c)) a = true
  /\ opens_with p b.
Proof.
  revert a b. induction s as [|c s IH]; simpl; intros a b H.
  - injection H as <- <-. repeat split.
  - destruct (p c) eqn:Hc.
    + injection H as <- <-. repeat split. exact Hc.
    + destruct (Urllib.span_until p s) as [a' b'] eqn:E.
      injection H as <- <-.
      destruct (IH a' b' eq_refl) as (-> & Ha & Hb). simpl.
      rewrite Hc, Ha. repeat split. exact Hb.
Qed.

Lemma span_until_app p a b :
  PyStr.all_chars (fun c => negb (p c)) a = true ->
  opens_with p b ->
  Urllib.span_until p (a +:+ b) = (a, b).
Proof.
  induction a as [|c a IH]; simpl; intros Ha Hb.
  - destruct b as [|d b]; [reflexivity|]. simpl in *. rewrite Hb. reflexivity.
  - apply andb_true_iff in Ha. destruct Ha as [Hc Ha].
    apply negb_true_iff in Hc. rewrite Hc, (IH Ha Hb). reflexivity.
Qed.

Lemma cut_spec c s a b :
  Urllib.cut c s = (a, b) ->
  PyStr.contains c a = false
  /\ ((s = a /\ b = "") \/ s = a +:+ String c b).
Proof.
  unfold Urllib.cut. destruct (PyStr.partition c s) as [a' [b'|]] eqn:E; intros H;
    injection H as <- <-.
  - apply partition_some in E. destruct E as [-> Ha]. split; [exact Ha|].
    right. reflexivity.
  - apply partition_none in E. destruct E as [-> Ha]. split; [exact Ha|].
    left. split; reflexivity.
Qed.

Lemma cut_app c a b :
  PyStr.contains c a = false ->
  Urllib.cut c (a +:+ String c b) = (a, b).
Proof. intros H. unfold Urllib.cut. rewrite (partition_app _ _ _ H). reflexivity. Qed.

Lemma cut_absent c s :
  PyStr.contains c s = false -> Urllib.cut c s = (s, "").
Proof. intros H. unfold Urllib.cut. rewrite (partition_absent _ _ H). reflexivity. Qed.

Lemma rpartition_some c s a b :
  Urllib.rpartition c s = Some (a, b) ->
  s = a +:+ String c b /\ PyStr.contains c b = false.
Proof.
  revert a. induction s as [|d s IH]; simpl; intros a H; [discriminate H|].
  destruct (Urllib.rpartition c s) as [[a' b']|] eqn:E.
  - injection H as <- <-. destruct (IH a' eq_refl) as [-> Hb].
    split; [reflexivity | exact Hb].
  - destruct (Ascii.eqb_spec c d) as [<-|Hcd]; [|discriminate H].
    injection H as <- <-. split; [reflexivity|].
    clear IH. revert E. induction s as [|e s IHs]; simpl; [reflexivity|].
    destruct (Urllib.rpartition c s) as [[a' b']|]; [discriminate|].
    destruct (Ascii.eqb_spec c e); [discriminate|].
    intros _. apply IHs. reflexivity.
Qed.

Lemma rpartition_none c s :
  Urllib.rpartition c s = None -> PyStr.contains c s = false.
Proof.
  induction s as [|d s IH]; simpl; [reflexivity|].
  destruct (Urllib.rpartition c s) as [[a b]|]; [discriminate|].
  destruct (Ascii.eqb_spec c d); [discriminate|].
  intros _. apply IH. reflexivity.
Qed.

Lemma rpartition_absent c s :
  PyStr.contains c s = false -> Urllib.rpartition c s = None.
Proof.
  induction s as [|d s IH]; simpl; intros H; [reflexivity|].
  apply orb_false_iff in H. destruct H as [Hd Hs].
  rewrite (IH Hs), Hd. reflexivity.
Qed.

Lemma rpartition_app c a b :
  PyStr.contains c b = false ->
  Urllib.rpartition c (a +:+ String c b) = Some (a, b).
Proof.
  intros Hb. induction a as [|d a IH]; simpl.
  - rewrite (rpartition_absent _ _ Hb), Ascii.eqb_refl. reflexivity.
  - rewrite IH. reflexivity.
Qed.

End StringFacts.

(* ===================================================================== *)
(** ** Parsing and serialising URLs *)
(* ===================================================================== *)

Section UrlFacts.

Implicit Types (s t u : string) (c d : ascii).

Local Arguments String.append !_ _ : simpl nomatch.

Lemma scheme_char_facts c :
  Urllib.scheme_char c = true ->
  Urllib.unsafe_byte c = false
  /\ Urllib.c0_or_space c = false
  /\ Ascii.eqb ":" c = false
  /\ Urllib.scheme_char (PyStr.lower_char c) = true
  /\ PyStr.lower_char (PyStr.lower_char c) = PyStr.lower_char c
  /\ (Urllib.is_ascii_alpha c = true -> Urllib.is_ascii_alpha (PyStr.lower_char c) = true).
Proof.
  destruct c as [[] [] [] [] [] [] [] []]; vm_compute; intros H;
    try discriminate H; repeat split; auto.
Qed.

(** A scheme is lower case when it is the lower-case form of a string. *)
Lemma scheme_lower s :
  PyStr.all_chars Urllib.scheme_char s = true ->
  PyStr.all_chars Urllib.scheme_char (PyStr.lower s) = true
  /\ PyStr.lower (PyStr.lower s) = PyStr.lower s.
Proof.
  induction s as [|c s IH]; simpl; intros H; [split; reflexivity|].
  apply andb_true_iff in H. destruct H as [Hc Hs].
  destruct (IH Hs) as [IH1 IH2].
  destruct (scheme_char_facts c Hc) as (_ & _ & _ & H1 & H2 & _).
  rewrite H1, IH1, H2, IH2. split; reflexivity.
Qed.

Lemma scheme_chars_plain s :
  PyStr.all_chars Urllib.scheme_char s = true ->
  safe s = true /\ PyStr.contains ":" s = false.
Proof.
  unfold safe. induction s as [|c s IH]; cbn [PyStr.all_chars PyStr.contains];
    intros H; [split; reflexivity|].
  apply andb_true_iff in H. destruct H as [Hc Hs].
  destruct (IH Hs) as [IH1 IH2].
  destruct (scheme_char_facts c Hc) as (H1 & _ & H2 & _).
  rewrite H1, IH1, H2, IH2. split; reflexivity.
Qed.

Lemma safe_app s t : safe (s +:+ t) = safe s && safe t.
Proof. apply all_chars_app. Qed.

Lemma startswith_drop (p s : string) :
  PyStr.startswith p s = true -> s = p +:+ PyStr.drop (String.length p) s.
Proof.
  revert s. induction p as [|a p IH]; intros [|b s]; simpl; try discriminate; auto.
  intros H. apply andb_true_iff in H. destruct H as [Hab Hp].
  apply Ascii.eqb_eq in Hab. subst b. rewrite <- (IH _ Hp). reflexivity.
Qed.

Lemma nonempty_false s : PyStr.nonempty s = false -> s = "".
Proof.
  unfold PyStr.nonempty. intros H. apply negb_false_iff in H.
  apply String.eqb_eq in H. exact H.
Qed.

Lemma unsplit_shape sch n pth q f :
  canonical sch n pth q f ->
  Urllib.urlunsplit sch n pth q f
  = sch +:+ String ":" (String "/" (String "/" (n +:+ tail_of pth q f))).
Proof.
  intros C. unfold Urllib.urlunsplit, tail_of. cbv zeta.
  rewrite (can_netloc _ _ _ _ _ C). cbn [orb].
  assert (Hp : (if PyStr.nonempty pth && negb (PyStr.startswith "/" pth)
                then "/" +:+ pth else pth) = pth).
  { pose proof (can_path _ _ _ _ _ C) as Hp. destruct pth as [|c pth]; [reflexivity|].
    simpl in Hp. simpl. rewrite Hp. reflexivity. }
  rewrite Hp.
  assert (Hs : PyStr.nonempty sch = true).
  { destruct (can_first _ _ _ _ _ C) as (c & rest & -> & _). reflexivity. }
  rewrite Hs.
  destruct (PyStr.nonempty q), (PyStr.nonempty f);
    rewrite ?append_assoc, ?append_empty_r; reflexivity.
Qed.

Lemma tail_opens pth q f :
  opens_with (Ascii.eqb "/") pth ->
  opens_with Urllib.netloc_delim (tail_of pth q f).
Proof.
  unfold tail_of. destruct pth as [|c pth]; cbn [opens_with String.append].
  - intros _. destruct (PyStr.nonempty q); [reflexivity|].
    destruct (PyStr.nonempty f); [reflexivity | exact I].
  - intros H. unfold Urllib.netloc_delim. rewrite Ascii.eqb_sym, H. reflexivity.
Qed.

Lemma cut_fragment pth q f :
  PyStr.contains "#" pth = false -> PyStr.contains "#" q = false ->
  Urllib.cut "#" (tail_of pth q f)
  = (pth +:+ (if PyStr.nonempty q then String "?" q else ""), f).
Proof.
  intros Hp Hq. unfold tail_of.
  assert (Hfront : PyStr.contains "#"
                     (pth +:+ (if PyStr.nonempty q then String "?" q else "")) = false).
  { rewrite contains_app, Hp. destruct (PyStr.nonempty q); [|reflexivity].
    cbn [PyStr.contains orb]. rewrite Hq. reflexivity. }
  rewrite <- append_assoc.
  destruct (PyStr.nonempty f) eqn:Hf.
  - apply cut_app. exact Hfront.
  - apply nonempty_false in Hf. subst f. rewrite append_empty_r.
    apply cut_absent. exact Hfront.
Qed.

Lemma cut_query pth q :
  PyStr.contains "?" pth = false ->
  Urllib.cut "?" (pth +:+ (if PyStr.nonempty q then String "?" q else "")) = (pth, q).
Proof.
  intros Hp. destruct (PyStr.nonempty q) eqn:Hq.
  - apply cut_app. exact Hp.
  - apply nonempty_false in Hq. subst q. rewrite append_empty_r.
    apply cut_absent. exact Hp.
Qed.

(** Splitting a serialised canonical URL gives its components back,
    whatever the default scheme. *)
Lemma urlsplit_unsplit sch n pth q f s :
  canonical sch n pth q f ->
  Urllib.urlsplit (Urllib.urlunsplit sch n pth q f) s
  = Ok (Urllib.mkSplit sch n pth q f).
Proof.
  intros C. rewrite (unsplit_shape _ _ _ _ _ C).
  destruct (can_first _ _ _ _ _ C) as (c & rest & Hsch & Halpha).
  destruct (scheme_chars_plain sch (can_scheme _ _ _ _ _ C)) as [Hsafe Hcolon].
  set (T := tail_of pth q f).
  set (R := sch +:+ String ":" (String "/" (String "/" (n +:+ T)))).
  assert (H1 : PyStr.lstrip_by Urllib.c0_or_space R = R).
  { unfold R. rewrite Hsch. simpl.
    pose proof (can_scheme _ _ _ _ _ C) as Hc. rewrite Hsch in Hc.
    cbn [PyStr.all_chars] in Hc. apply andb_true_iff in Hc. destruct Hc as [Hc _].
    destruct (scheme_char_facts c Hc) as (_ & -> & _). reflexivity. }
  assert (H2 : PyStr.remove_chars Urllib.unsafe_byte R = R).
  { apply remove_chars_id. fold (safe R). unfold R, T, tail_of.
    rewrite safe_app, Hsafe. cbn [safe PyStr.all_chars]. fold (safe (n +:+ tail_of pth q f)).
    unfold tail_of. rewrite !safe_app.
    rewrite (can_netloc_safe _ _ _ _ _ C), (can_path_safe _ _ _ _ _ C).
    destruct (PyStr.nonempty q), (PyStr.nonempty f); cbn [safe PyStr.all_chars];
      fold (safe q); fold (safe f);
      rewrite ?(can_query_safe _ _ _ _ _ C), ?(can_fragment_safe _ _ _ _ _ C);
      reflexivity. }
  assert (H3 : PyStr.partition ":" R
               = (sch, Some (String "/" (String "/" (n +:+ T)))))
    by (apply partition_app; exact Hcolon).
  unfold Urllib.urlsplit. cbv zeta. rewrite H1, H2, H3.
  pose proof (can_scheme _ _ _ _ _ C) as Hchars.
  pose proof (can_lower _ _ _ _ _ C) as Hlow.
  rewrite Hsch in Hchars, Hlow |- *. rewrite Halpha, Hchars, Hlow.
  cbn [andb]. unfold Urllib.split_after_scheme.
  change (PyStr.startswith "//" (String "/" (String "/" (n +:+ T)))) with true.
  cbv iota.
  unfold Urllib._splitnetloc. cbn [PyStr.drop]. unfold T.
  rewrite (span_until_app _ _ _ (can_netloc_chars _ _ _ _ _ C)
             (tail_opens _ _ _ (can_path _ _ _ _ _ C))).
  rewrite (can_netloc_ok _ _ _ _ _ C). cbn [mbind pyres_bind].
  rewrite (cut_fragment _ _ _ (can_path_fragment _ _ _ _ _ C)
             (can_query_fragment _ _ _ _ _ C)).
  rewrite (cut_query _ _ (can_path_query _ _ _ _ _ C)).
  reflexivity.
Qed.


Lemma nonempty_true s : PyStr.nonempty s = true -> s <> "".
Proof. intros H ->. discriminate H. Qed.

(** A prefix of a string that opens with [p] is empty or opens with [p]. *)
Lemma prefix_opens (p : ascii -> bool) s a b :
  s = a +:+ b -> opens_with p s -> opens_with p a.
Proof. intros ->. destruct a; [exact (fun _ => I) | exact (fun H => H)]. Qed.

Lemma split_after_scheme_scheme sch url r :
  Urllib.split_after_scheme sch url = Ok r -> Urllib.s_scheme r = sch.
Proof.
  unfold Urllib.split_after_scheme. intros H. bind_inv H.
  destruct a as [n r4].
  destruct (Urllib.cut "#" r4) as [r5 frag].
  destruct (Urllib.cut "?" r5) as [r6 q].
  injection H as <-. reflexivity.
Qed.

(** The components after the scheme of a URL with a network location. *)
Lemma split_after_scheme_spec sch url r :
  Urllib.split_after_scheme sch url = Ok r ->
  safe url = true ->
  PyStr.nonempty (Urllib.s_netloc r) = true ->
  PyStr.all_chars (fun c => negb (Urllib.netloc_delim c)) (Urllib.s_netloc r) = true
  /\ Urllib.check_netloc (Urllib.s_netloc r) = Ok tt
  /\ safe (Urllib.s_netloc r) = true
  /\ opens_with (Ascii.eqb "/") (Urllib.s_path r)
  /\ PyStr.contains "?" (Urllib.s_path r) = false
  /\ PyStr.contains "#" (Urllib.s_path r) = false
  /\ safe (Urllib.s_path r) = true
  /\ PyStr.contains "#" (Urllib.s_query r) = false
  /\ safe (Urllib.s_query r) = true
  /\ safe (Urllib.s_fragment r) = true.
Proof.
  unfold Urllib.split_after_scheme. intros H Hsafe Hn.
  destruct (PyStr.startswith "//" url) eqn:Es.
  - apply startswith_drop in Es. cbn [String.length] in Es.
    unfold Urllib._splitnetloc in H.
    destruct (Urllib.span_until Urllib.netloc_delim (PyStr.drop 2 url)) as [n r4] eqn:En.
    apply span_until_spec in En. destruct En as (Hd & Hnd & Hopen).
    destruct (Urllib.check_netloc n) as [[]|e] eqn:Ec; [|discriminate H].
    cbn [mbind pyres_bind] in H.
    destruct (Urllib.cut "#" r4) as [r5 frag] eqn:E5.
    destruct (Urllib.cut "?" r5) as [r6 q] eqn:E6.
    injection H as <-. cbn [Urllib.s_netloc Urllib.s_path Urllib.s_query
                              Urllib.s_fragment] in *.
    rewrite Es, Hd in Hsafe. rewrite !safe_app in Hsafe.
    apply andb_true_iff in Hsafe. destruct Hsafe as [_ Hsafe].
    apply andb_true_iff in Hsafe. destruct Hsafe as [Hsn Hs4].
    apply cut_spec in E5. destruct E5 as [Hh5 E5].
    apply cut_spec in E6. destruct E6 as [Hq6 E6].
    assert (H45 : (exists rest, r4 = r5 +:+ rest)
                  /\ safe r5 = true /\ safe frag = true).
    { destruct E5 as [[-> ->] | ->].
      - split; [exists ""; rewrite append_empty_r; reflexivity|].
        split; [exact Hs4 | reflexivity].
      - rewrite safe_app in Hs4. apply andb_true_iff in Hs4.
        destruct Hs4 as [Ha Hb]. cbn [safe PyStr.all_chars] in Hb.
        apply andb_true_iff in Hb. destruct Hb as [_ Hb].
        split; [eexists; reflexivity|]. split; assumption. }
    destruct H45 as ((rest5 & H45) & Hs5 & Hsf).
    assert (H56 : (exists rest, r5 = r6 +:+ rest)
                  /\ safe r6 = true /\ safe q = true
                  /\ PyStr.contains "#" r6 = false /\ PyStr.contains "#" q = false).
    { destruct E6 as [[-> ->] | ->].
      - split; [exists ""; rewrite append_empty_r; reflexivity|].
        repeat split; assumption.
      - rewrite safe_app in Hs5. apply andb_true_iff in Hs5.
        destruct Hs5 as [Ha Hb]. cbn [safe PyStr.all_chars] in Hb.
        apply andb_true_iff in Hb. destruct Hb as [_ Hb].
        rewrite contains_app in Hh5. apply orb_false_iff in Hh5.
        destruct Hh5 as [Hh6 Hhq]. cbn [PyStr.contains] in Hhq.
        apply orb_false_iff in Hhq. destruct Hhq as [_ Hhq].
        split; [eexists; reflexivity|]. repeat split; assumption. }
    destruct H56 as ((rest6 & H56) & Hs6 & Hsq & Hh6 & Hhq).
    repeat split; try assumption.
    (* the path is empty or starts with a slash *)
    assert (Ho5 : opens_with Urllib.netloc_delim r5)
      by (exact (prefix_opens _ _ _ _ H45 Hopen)).
    assert (Ho6 : opens_with Urllib.netloc_delim r6)
      by (exact (prefix_opens _ _ _ _ H56 Ho5)).
    destruct r6 as [|c r6]; [exact I|].
    cbn [opens_with] in *. cbn [PyStr.contains] in Hq6, Hh6.
    apply orb_false_iff in Hq6. destruct Hq6 as [Hq6 _].
    apply orb_false_iff in Hh6. destruct Hh6 as [Hh6 _].
    unfold Urllib.netloc_delim in Ho6.
    rewrite (Ascii.eqb_sym c "?"), Hq6, (Ascii.eqb_sym c "#"), Hh6 in Ho6.
    rewrite !orb_false_r in Ho6. rewrite Ascii.eqb_sym. exact Ho6.
  - cbn [mbind pyres_bind] in H.
    destruct (Urllib.cut "#" url) as [r5 frag].
    destruct (Urllib.cut "?" r5) as [r6 q].
    injection H as <-. discriminate Hn.
Qed.

(** The components of a URL that has a scheme of its own and a network
    location are canonical, and the default scheme plays no part. *)
Lemma urlsplit_canonical u r :
  Urllib.urlsplit u "" = Ok r ->
  PyStr.nonempty (Urllib.s_scheme r) = true ->
  PyStr.nonempty (Urllib.s_netloc r) = true ->
  canonical (Urllib.s_scheme r) (Urllib.s_netloc r) (Urllib.s_path r)
    (Urllib.s_query r) (Urllib.s_fragment r)
  /\ forall s, Urllib.urlsplit u s = Ok r.
Proof.
  unfold Urllib.urlsplit. cbv zeta.
  set (url2 := PyStr.remove_chars Urllib.unsafe_byte
                 (PyStr.lstrip_by Urllib.c0_or_space u)).
  assert (Hsafe2 : safe url2 = true) by apply remove_chars_clean.
  change (PyStr.remove_chars Urllib.unsafe_byte
            (PyStr.rstrip_by Urllib.c0_or_space
               (PyStr.lstrip_by Urllib.c0_or_space ""))) with "".
  destruct (PyStr.partition ":" url2) as [[|c0 pre] [post|]] eqn:Ep;
    try (intros H Hs _; apply split_after_scheme_scheme in H;
         rewrite H in Hs; discriminate Hs).
  destruct (Urllib.is_ascii_alpha c0
            && PyStr.all_chars Urllib.scheme_char (String c0 pre)) eqn:Ec;
    [|intros H Hs _; apply split_after_scheme_scheme in H;
      rewrite H in Hs; discriminate Hs].
  intros H _ Hn. split; [|intros s; exact H].
  apply andb_true_iff in Ec. destruct Ec as [Halpha Hchars].
  apply partition_some in Ep. destruct Ep as [Hurl _].
  assert (Hpost : safe post = true).
  { rewrite Hurl, safe_app in Hsafe2. apply andb_true_iff in Hsafe2.
    destruct Hsafe2 as [_ Hb]. cbn [safe PyStr.all_chars] in Hb.
    apply andb_true_iff in Hb. apply Hb. }
  pose proof (split_after_scheme_scheme _ _ _ H) as Hsch.
  destruct (split_after_scheme_spec _ _ _ H Hpost Hn)
    as (F1 & F2 & F3 & F4 & F5 & F6 & F7 & F8 & F9 & F10).
  destruct (scheme_lower _ Hchars) as [Hl1 Hl2].
  rewrite Hsch. constructor; try assumption.
  exists (PyStr.lower_char c0), (PyStr.lower pre). split; [reflexivity|].
  cbn [PyStr.all_chars] in Hchars. apply andb_true_iff in Hchars.
  destruct Hchars as [Hc0 _].
  destruct (scheme_char_facts c0 Hc0) as (_ & _ & _ & _ & _ & Ha). exact (Ha Halpha).
Qed.

(** Splitting the parameters off a path that starts with a slash and
    holds a semicolon: the path and the parameters written back are the
    path itself, or the path without a final semicolon, and they split
    into the same two parts. *)
Lemma splitparams_spec url p ps :
  Urllib._splitparams url = (p, ps) ->
  PyStr.contains ";" url = true ->
  opens_with (Ascii.eqb "/") url ->
  let sp := if PyStr.nonempty ps then p +:+ ";" +:+ ps else p in
  (exists rest, url = sp +:+ rest)
  /\ (if PyStr.contains ";" sp then Urllib._splitparams sp else (sp, "")) = (p, ps).
Proof.
  intros H Hsemi Hopen. unfold Urllib._splitparams in H.
  destruct (Urllib.rpartition "/" url) as [[dir leaf]|] eqn:Er.
  - apply rpartition_some in Er. destruct Er as [Hurl Hleaf].
    destruct (PyStr.partition ";" leaf) as [a [b|]] eqn:Ea;
      injection H as <- <-; cbv zeta.
    + apply partition_some in Ea. destruct Ea as [Hl Ha].
      change (dir +:+ "/" +:+ a) with (dir +:+ String "/" a).
      assert (Hcat : (dir +:+ String "/" a) +:+ ";" +:+ b = url).
      { rewrite Hurl, Hl, !append_assoc. reflexivity. }
      destruct (PyStr.nonempty b) eqn:Eb.
      * rewrite Hcat. split; [exists ""; rewrite append_empty_r; reflexivity|].
        rewrite Hsemi. unfold Urllib._splitparams.
        rewrite Hurl, (rpartition_app _ _ _ Hleaf).
        rewrite Hl, (partition_app _ _ _ Ha). reflexivity.
      * apply nonempty_false in Eb. subst b.
        split; [exists ";"; exact (eq_sym Hcat)|].
        destruct (PyStr.contains ";" (dir +:+ String "/" a)); [|reflexivity].
        unfold Urllib._splitparams.
        assert (Hslash : PyStr.contains "/" a = false).
        { rewrite Hl, contains_app in Hleaf. apply orb_false_iff in Hleaf. apply Hleaf. }
        rewrite (rpartition_app _ _ _ Hslash), (partition_absent _ _ Ha). reflexivity.
    + cbn [PyStr.nonempty String.eqb negb].
      split; [exists ""; rewrite append_empty_r; reflexivity|].
      rewrite Hsemi. unfold Urllib._splitparams.
      rewrite Hurl, (rpartition_app _ _ _ Hleaf), Ea. reflexivity.
  - apply rpartition_none in Er. destruct url as [|c url]; [discriminate Hsemi|].
    cbn [opens_with] in Hopen. cbn [PyStr.contains] in Er.
    rewrite Hopen in Er. discriminate Er.
Qed.

Lemma canonical_prefix sch n pth pth' rest q f :
  canonical sch n pth q f -> pth = pth' +:+ rest -> canonical sch n pth' q f.
Proof.
  intros C ->. destruct C. constructor; try assumption.
  - exact (prefix_opens _ _ _ _ eq_refl can_path0).
  - rewrite contains_app in can_path_query0.
    apply orb_false_iff in can_path_query0. apply can_path_query0.
  - rewrite contains_app in can_path_fragment0.
    apply orb_false_iff in can_path_fragment0. apply can_path_fragment0.
  - rewrite safe_app in can_path_safe0.
    apply andb_true_iff in can_path_safe0. apply can_path_safe0.
Qed.

(** The components of a parsed absolute URL are canonical, with the path
    as it is written back, and the default scheme plays no part. *)
Lemma urlparse_canonical u p :
  Urllib.urlparse u "" = Ok p ->
  PyStr.nonempty (Urllib.scheme p) = true ->
  PyStr.nonempty (Urllib.netloc p) = true ->
  canonical (Urllib.scheme p) (Urllib.netloc p) (serial_path p)
    (Urllib.query p) (Urllib.fragment p)
  /\ resplit p = (Urllib.path p, Urllib.params p)
  /\ forall s, Urllib.urlparse u s = Ok p.
Proof.
  unfold Urllib.urlparse. intros H Hs Hn.
  destruct (Urllib.urlsplit u "") as [r|e] eqn:Er; [|discriminate H].
  cbn [mbind pyres_bind] in H.
  assert (Hp : exists pth ps,
             (if PyStr.mem (Urllib.s_scheme r) Urllib.uses_params
                 && PyStr.contains ";" (Urllib.s_path r)
              then Urllib._splitparams (Urllib.s_path r)
              else (Urllib.s_path r, "")) = (pth, ps)
             /\ p = Urllib.mkParse (Urllib.s_scheme r) (Urllib.s_netloc r) pth ps
                      (Urllib.s_query r) (Urllib.s_fragment r)).
  { destruct (if PyStr.mem (Urllib.s_scheme r) Urllib.uses_params
                 && PyStr.contains ";" (Urllib.s_path r)
              then Urllib._splitparams (Urllib.s_path r)
              else (Urllib.s_path r, "")) as [pth ps].
    injection H as <-. exists pth, ps. split; reflexivity. }
  destruct Hp as (pth & ps & Hsplit & ->).
  cbn [Urllib.scheme Urllib.netloc Urllib.path Urllib.params Urllib.query
         Urllib.fragment] in *.
  destruct (urlsplit_canonical _ _ Er Hs Hn) as [C Hall].
  assert (Hsp : (exists rest, Urllib.s_path r
                   = (if PyStr.nonempty ps then pth +:+ ";" +:+ ps else pth) +:+ rest)
                /\ (if PyStr.mem (Urllib.s_scheme r) Urllib.uses_params
                       && PyStr.contains ";"
                            (if PyStr.nonempty ps then pth +:+ ";" +:+ ps else pth)
                    then Urllib._splitparams
                           (if PyStr.nonempty ps then pth +:+ ";" +:+ ps else pth)
                    else (if PyStr.nonempty ps then pth +:+ ";" +:+ ps else pth, ""))
                   = (pth, ps)).
  { destruct (PyStr.mem (Urllib.s_scheme r) Urllib.uses_params) eqn:Eu;
      cbn [andb] in Hsplit |- *.
    - destruct (PyStr.contains ";" (Urllib.s_path r)) eqn:Esemi.
      + exact (splitparams_spec _ _ _ Hsplit Esemi (can_path _ _ _ _ _ C)).
      + injection Hsplit as <- <-. cbn [PyStr.nonempty String.eqb negb].
        rewrite Esemi. split; [exists ""; rewrite append_empty_r; reflexivity|].
        reflexivity.
    - injection Hsplit as <- <-. cbn [PyStr.nonempty String.eqb negb].
      split; [exists ""; rewrite append_empty_r; reflexivity | reflexivity]. }
  destruct Hsp as ((rest & Hrest) & Hre).
  split; [|split].
  - unfold serial_path. cbn [Urllib.path Urllib.params].
    exact (canonical_prefix _ _ _ _ _ _ _ C Hrest).
  - unfold resplit, serial_path. cbn [Urllib.scheme Urllib.path Urllib.params].
    exact Hre.
  - intros s. rewrite (Hall s). cbn [mbind pyres_bind]. rewrite Hsplit. reflexivity.
Qed.

(** Parsing the serialised form of canonical components gives them
    back. *)
Lemma urlparse_unparse p s :
  canonical (Urllib.scheme p) (Urllib.netloc p) (serial_path p)
    (Urllib.query p) (Urllib.fragment p) ->
  resplit p = (Urllib.path p, Urllib.params p) ->
  Urllib.urlparse (Urllib.urlunparse p) s = Ok p.
Proof.
  intros C Hre. unfold Urllib.urlparse, Urllib.urlunparse. cbv zeta.
  fold (serial_path p). rewrite (urlsplit_unsplit _ _ _ _ _ s C).
  cbn [mbind pyres_bind Urllib.s_scheme Urllib.s_netloc Urllib.s_path
         Urllib.s_query Urllib.s_fragment].
  fold (resplit p). rewrite Hre. destruct p; reflexivity.
Qed.

Lemma uses_relative_netloc s :
  PyStr.mem s Urllib.uses_relative = true -> PyStr.mem s Urllib.uses_netloc = true.
Proof.
  unfold PyStr.mem at 1. rewrite existsb_exists. intros (x & Hin & Heq).
  apply String.eqb_eq in Heq. subst x.
  unfold Urllib.uses_relative in Hin. cbn [In] in Hin.
  repeat (destruct Hin as [<- | Hin]; [reflexivity|]). contradiction.
Qed.

Lemma unparse_nonempty p :
  canonical (Urllib.scheme p) (Urllib.netloc p) (serial_path p)
    (Urllib.query p) (Urllib.fragment p) ->
  PyStr.nonempty (Urllib.urlunparse p) = true.
Proof.
  intros C. unfold Urllib.urlunparse. cbv zeta. fold (serial_path p).
  rewrite (unsplit_shape _ _ _ _ _ C).
  destruct (can_first _ _ _ _ _ C) as (c & rest & -> & _). reflexivity.
Qed.

End UrlFacts.

(* ===================================================================== *)
(** ** Resolution of absolute image URLs *)
(* ===================================================================== *)

(** C9 (amended): resolving an already-absolute URL against a page URL
    returns the URL itself or the URL written back from its parsed
    components (which is the case when it has the scheme of the page URL,
    and differs from the URL in the case of the scheme or by an empty query
    or fragment), never anything that depends on the page URL otherwise;
    resolving the result again returns it unchanged, so resolving twice
    equals resolving once. *)
Theorem absolute_url_resolution (base u r : string) :
  is_absolute u = true ->
  Urllib.urljoin base u = Ok r ->
  (r = u \/ exists p, Urllib.urlparse u "" = Ok p /\ r = Urllib.urlunparse p)
  /\ (forall b p, Urllib.urlparse base "" = Ok b -> Urllib.urlparse u "" = Ok p ->
        Urllib.scheme p <> Urllib.scheme b -> r = u)
  /\ Urllib.urljoin base r = Ok r.
Proof.
  unfold is_absolute. intros Habs H.
  destruct (Urllib.urlparse u "") as [p|e] eqn:Ep; [|discriminate Habs].
  apply andb_true_iff in Habs. destruct Habs as [Hs Hn].
  destruct (urlparse_canonical _ _ Ep Hs Hn) as (C & Hre & Hall).
  unfold Urllib.urljoin in H.
  destruct (PyStr.nonempty base) eqn:Eb; cbn [negb] in H.
  2:{ injection H as <-. split; [left; reflexivity|]. split.
      - intros b p' Hb. apply nonempty_false in Eb. subst base.
        vm_compute in Hb. injection Hb as <-. intros Hp' Hne.
        reflexivity.
      - unfold Urllib.urljoin. rewrite Eb. reflexivity. }
  destruct (PyStr.nonempty u) eqn:Eu; cbn [negb] in H.
  2:{ apply nonempty_false in Eu. subst u. vm_compute in Ep.
      injection Ep as <-. discriminate Hs. }
  destruct (Urllib.urlparse base "") as [b|e] eqn:Ebase; [|discriminate H].
  cbn [mbind pyres_bind] in H. rewrite (Hall (Urllib.scheme b)) in H.
  cbn [mbind pyres_bind] in H.
  destruct (negb (Urllib.scheme p =? Urllib.scheme b)%string
            || negb (PyStr.mem (Urllib.scheme p) Urllib.uses_relative)) eqn:Ediff.
  - injection H as <-. split; [left; reflexivity|]. split; [reflexivity|].
    unfold Urllib.urljoin. rewrite Eb, Eu, Ebase. cbn [negb mbind pyres_bind].
    rewrite (Hall (Urllib.scheme b)). cbn [mbind pyres_bind]. rewrite Ediff.
    reflexivity.
  - apply orb_false_iff in Ediff. destruct Ediff as [Esame Erel].
    apply negb_false_iff in Esame, Erel.
    pose proof (uses_relative_netloc _ Erel) as Enet.
    rewrite Enet, Hn in H. cbn [andb] in H. injection H as <-.
    split; [right; exists p; split; reflexivity|]. split.
    + intros b' p' Hb Hp Hne. injection Hb as <-. injection Hp as <-.
      apply String.eqb_eq in Esame. contradiction.
    + unfold Urllib.urljoin.
      rewrite Eb, (unparse_nonempty _ C), Ebase. cbn [negb mbind pyres_bind].
      rewrite (urlparse_unparse _ (Urllib.scheme b) C Hre). cbn [mbind pyres_bind].
      rewrite Esame, Erel, Enet, Hn. reflexivity.
Qed.

(** C9 as stated fails: the absolute URL of an image with an empty query
    is resolved to the URL without the question mark, and one with an
    upper-case scheme to the URL with the scheme in lower case. *)
Lemma absolute_url_changed :
  is_absolute "https://info-master.uz/img/a.png?" = true
  /\ Urllib.urljoin Sample.page_url "https://info-master.uz/img/a.png?"
     = Ok "https://info-master.uz/img/a.png"
  /\ image_loop (lib := Sample.library) Sample.page_url
       [Dom.Loc [] (Dom.Elem "img" [("src", "https://info-master.uz/img/a.png?")] [])]
     = Ok ["https://info-master.uz/img/a.png"]
  /\ is_absolute "HTTPS://info-master.uz/img/a.png" = true
  /\ Urllib.urljoin Sample.page_url "HTTPS://info-master.uz/img/a.png"
     = Ok "https://info-master.uz/img/a.png".
Proof. vm_compute. auto 10. Qed.

Lemma absolute_url_resolution_witness :
  is_absolute "https://info-master.uz/img/a.png?" = true
  /\ Urllib.urljoin Sample.page_url "https://info-master.uz/img/a.png?"
     = Ok "https://info-master.uz/img/a.png"
  /\ Urllib.urljoin Sample.page_url "https://info-master.uz/img/a.png"
     = Ok "https://info-master.uz/img/a.png".
Proof.
  assert (Habs : is_absolute "https://info-master.uz/img/a.png?" = true)
    by (vm_compute; reflexivity).
  assert (H : Urllib.urljoin Sample.page_url "https://info-master.uz/img/a.png?"
              = Ok "https://info-master.uz/img/a.png") by (vm_compute; reflexivity).
  split; [exact Habs|]. split; [exact H|].
  exact (proj2 (proj2 (absolute_url_resolution _ _ _ Habs H))).
Defined.

(* ===================================================================== *)
(** ** The page as a whole *)
(* ===================================================================== *)

Section Page.

Context {lib : Library}.

Lemma step_loop_inv (url : string) (quiz_options : gmap string Py.value)
    (steps : list Dom.loc) (qs : list Question.t) :
  step_loop url quiz_options steps = Ok qs <->
  Forall2 (fun step q => parse_step url quiz_options step = Ok q) steps qs.
Proof.
  split.
  - revert qs. induction steps as [|s steps IH]; intros qs H; simpl in H.
    + injection H as <-. constructor.
    + bind_inv H. bind_inv H. injection H as <-.
      constructor; [exact Ha | apply IH; exact Ha0].
  - induction 1 as [|s q steps qs Hs _ IH]; simpl; [reflexivity|].
    rewrite Hs. simpl. rewrite IH. reflexivity.
Qed.

(** The first block that raises ends the loop over the blocks with its
    exception. *)
Lemma step_loop_raise (url : string) (quiz_options : gmap string Py.value)
    (l1 l2 : list Dom.loc) (s : Dom.loc) (e : exn) :
  Forall (fun s' => exists q, parse_step url quiz_options s' = Ok q) l1 ->
  parse_step url quiz_options s = Raise e ->
  step_loop url quiz_options (l1 ++ s :: l2) = Raise e.
Proof.
  intros Hl1 Hs. induction Hl1 as [|s' l1 (q & Hq) _ IH]; simpl.
  - rewrite Hs. reflexivity.
  - rewrite Hq. simpl. rewrite IH. reflexivity.
Qed.

(** X1: the page is read into a Test exactly when every question block
    is read into a Question: the Test then has the page URL, the text of
    the first [h1] as title (the page URL when the page has no [h1], the
    empty string when the [h1] has no text) and one Question for each
    element [div.step[data-question-id]], in document order. *)
Theorem page_questions (url html : string) (t : Test.t) :
  _parse_quiz_from_html url html = Ok t <->
  Test.url t = url
  /\ Test.title t
     = match Dom.find_tag "h1" (Dom.document (BeautifulSoup html)) with
       | Some title_el => Dom.get_text_strip "" (Dom.self title_el)
       | None => url
       end
  /\ Forall2
       (fun step q => parse_step url (_extract_quiz_options html) step = Ok q)
       (Css.select step_selector (Dom.document (BeautifulSoup html)))
       (Test.questions t).
Proof.
  unfold _parse_quiz_from_html. cbv zeta. split.
  - intros H. bind_inv H. injection H as <-. simpl.
    split; [reflexivity|]. split; [reflexivity|].
    apply step_loop_inv. exact Ha.
  - intros (Hu & Ht & Hq). apply step_loop_inv in Hq. rewrite Hq. simpl.
    destruct t as [title u qs]. simpl in *. subst. reflexivity.
Qed.

(** X2: an exception raised while a question block is read is not caught:
    when the blocks before it are read and the block raises, the whole
    page raises that exception and no Test is returned, whatever the
    blocks after it hold. *)
Theorem page_fails_with_block (url html : string) (l1 l2 : list Dom.loc)
    (s : Dom.loc) (e : exn) :
  Css.select step_selector (Dom.document (BeautifulSoup html)) = l1 ++ s :: l2 ->
  Forall (fun s' => exists q,
            parse_step url (_extract_quiz_options html) s' = Ok q) l1 ->
  parse_step url (_extract_quiz_options html) s = Raise e ->
  _parse_quiz_from_html url html = Raise e.
Proof.
  intros Hsel Hl1 Hs. unfold _parse_quiz_from_html. cbv zeta.
  rewrite Hsel, (step_loop_raise _ _ _ _ _ _ Hl1 Hs). reflexivity.
Qed.

(** X3: a configuration token that decodes to JSON that is not an object
    (null, a list, a string, a number, a boolean) is stored like any
    other, and reading the block with its identifier raises
    AttributeError, whatever the block holds. *)
Theorem non_object_config (url html : string) (step : Dom.loc) (qid : string)
    (v : Py.value) :
  Dom.get "data-question-id" (Dom.self step) = Some qid ->
  last (omap (entry_for qid) (findall html)) = Some v ->
  (forall d, v <> Py.PDict d) ->
  _extract_quiz_options html !! qid = Some v
  /\ parse_step url (_extract_quiz_options html) step = Raise AttributeError.
Proof.
  intros Hqid Hlast Hv.
  assert (Hlook : _extract_quiz_options html !! qid = Some v).
  { unfold _extract_quiz_options. rewrite fold_store_lookup, Hlast. reflexivity. }
  split; [exact Hlook|].
  unfold parse_step, step_config. rewrite Hqid, Hlook. simpl.
  destruct v; try reflexivity. exfalso. exact (Hv d eq_refl).
Qed.

End Page.

Lemma page_fails_with_block_witness :
  Css.select step_selector
    (Dom.document (BeautifulSoup (Library := Pages.library) Pages.broken_html))
  = [Pages.at_top Pages.broken_dom Sample.radio_block]
      ++ Pages.at_top Pages.broken_dom Pages.null_block
      :: [Pages.at_top Pages.broken_dom Sample.matching_block]
  /\ Forall (fun s' => exists q,
               parse_step (lib := Pages.library) Sample.page_url
                 (_extract_quiz_options (lib := Pages.library) Pages.broken_html) s'
               = Ok q)
       [Pages.at_top Pages.broken_dom Sample.radio_block]
  /\ parse_step (lib := Pages.library) Sample.page_url
       (_extract_quiz_options (lib := Pages.library) Pages.broken_html)
       (Pages.at_top Pages.broken_dom Pages.null_block)
     = Raise AttributeError
  /\ _parse_quiz_from_html (lib := Pages.library) Sample.page_url Pages.broken_html
     = Raise AttributeError.
Proof.
  assert (Hsel : Css.select step_selector
                   (Dom.document
                      (BeautifulSoup (Library := Pages.library) Pages.broken_html))
                 = [Pages.at_top Pages.broken_dom Sample.radio_block]
                     ++ Pages.at_top Pages.broken_dom Pages.null_block
                     :: [Pages.at_top Pages.broken_dom Sample.matching_block])
    by (vm_compute; reflexivity).
  assert (Hl1 : Forall (fun s' => exists q,
                          parse_step (lib := Pages.library) Sample.page_url
                            (_extract_quiz_options (lib := Pages.library)
                               Pages.broken_html) s' = Ok q)
                  [Pages.at_top Pages.broken_dom Sample.radio_block]).
  { constructor; [|constructor]. exists Sample.radio_question.
    vm_compute. reflexivity. }
  assert (Hs : parse_step (lib := Pages.library) Sample.page_url
                 (_extract_quiz_options (lib := Pages.library) Pages.broken_html)
                 (Pages.at_top Pages.broken_dom Pages.null_block)
               = Raise AttributeError) by (vm_compute; reflexivity).
  split; [exact Hsel|]. split; [exact Hl1|]. split; [exact Hs|].
  exact (page_fails_with_block _ _ _ _ _ _ Hsel Hl1 Hs).
Defined.

Lemma non_object_config_witness :
  Dom.get "data-question-id" Pages.null_block = Some "52463"
  /\ last (omap (entry_for (lib := Pages.library) "52463")
             (findall (Library := Pages.library) Pages.broken_html))
     = Some Py.PNone
  /\ _extract_quiz_options (lib := Pages.library) Pages.broken_html !! "52463"
     = Some Py.PNone
  /\ parse_step (lib := Pages.library) Sample.page_url
       (_extract_quiz_options (lib := Pages.library) Pages.broken_html)
       (Pages.at_top Pages.broken_dom Pages.null_block)
     = Raise AttributeError.
Proof.
  assert (Hqid : Dom.get "data-question-id"
                   (Dom.self (Pages.at_top Pages.broken_dom Pages.null_block))
                 = Some "52463") by reflexivity.
  assert (Hlast : last (omap (entry_for (lib := Pages.library) "52463")
                          (findall (Library := Pages.library) Pages.broken_html))
                  = Some Py.PNone) by (vm_compute; reflexivity).
  split; [exact Hqid|]. split; [exact Hlast|].
  exact (non_object_config (lib := Pages.library) Sample.page_url Pages.broken_html
           _ _ _ Hqid Hlast (fun d H => eq_ind Py.PNone
              (fun v => match v with Py.PNone => True | _ => False end) I _ H)).
Defined.

(* ===================================================================== *)
(** ** Dispatch on the question type *)
(* ===================================================================== *)

Lemma correct_from_all (options : list AnswerOption.t) (i : nat) :
  Forall (fun o => AnswerOption.is_correct o = true) options ->
  correct_from i options = seq i (length options).
Proof.
  intros H. revert i. induction H as [|o os Ho _ IH]; intros i; simpl; [reflexivity|].
  rewrite Ho, IH. reflexivity.
Qed.

Lemma key_eqb_str (k : Py.value) (a : string) :
  Py.key_eqb k (Py.PStr a) = Py.eq_str k a.
Proof. destruct k; reflexivity. Qed.

Lemma key_eqb_str_l (k : Py.value) (a : string) :
  Py.key_eqb (Py.PStr a) k = Py.eq_str k a.
Proof. destruct k; simpl; try reflexivity. apply String.eqb_sym. Qed.

(** Looking a string up after an assignment. *)
Lemma kdict_get_set (k : Py.value) (x a : string) (d : Py.kdict) :
  Py.kdict_get (Py.PStr a) (Py.kdict_set k x d)
  = if Py.eq_str k a then Some x else Py.kdict_get (Py.PStr a) d.
Proof.
  unfold Py.kdict_get. induction d as [|[k' x'] d IH]; simpl.
  - rewrite key_eqb_str. destruct (Py.eq_str k a); reflexivity.
  - destruct (Py.key_eqb k' k) eqn:Ek; simpl; rewrite !key_eqb_str.
    + destruct (Py.eq_str k' a) eqn:Ea.
      * apply eq_str_true in Ea. subst k'. rewrite key_eqb_str_l in Ek.
        rewrite Ek. reflexivity.
      * destruct (Py.eq_str k a) eqn:Eka; [|reflexivity].
        apply eq_str_true in Eka. subst k. rewrite key_eqb_str, Ea in Ek.
        discriminate Ek.
    + destruct (Py.eq_str k' a) eqn:Ea.
      * destruct (Py.eq_str k a) eqn:Eka; [|reflexivity].
        apply eq_str_true in Ea, Eka. subst k k'.
        simpl in Ek. rewrite String.eqb_refl in Ek. discriminate Ek.
      * exact IH.
Qed.

Lemma invert_lookup (items : Py.dict) (acc inv : Py.kdict) (a : string) :
  invert items acc = Ok inv ->
  Py.kdict_get (Py.PStr a) inv
  = match last (omap (position_for a) items) with
    | Some pos => Some pos
    | None => Py.kdict_get (Py.PStr a) acc
    end.
Proof.
  revert acc. induction items as [|[k v] items IH]; intros acc H; simpl in H.
  - injection H as <-. reflexivity.
  - destruct (Py.hashable v); [|discriminate H].
    rewrite (IH _ H), kdict_get_set.
    change (omap (position_for a) ((k, v) :: items))
      with (match position_for a (k, v) with
            | Some y => y :: omap (position_for a) items
            | None => omap (position_for a) items
            end).
    unfold position_for at 2. simpl.
    destruct (Py.eq_str v a); [|reflexivity].
    rewrite last_cons. destruct (last (omap (position_for a) items)); reflexivity.
Qed.

Lemma invert_total (items : Py.dict) (acc : Py.kdict) :
  Forall (fun kv => Py.hashable (snd kv) = true) items ->
  exists inv, invert items acc = Ok inv.
Proof.
  intros H. revert acc. induction H as [|[k v] items Hv _ IH]; intros acc; simpl.
  - exists acc. reflexivity.
  - simpl in Hv. rewrite Hv. apply IH.
Qed.

Lemma invert_unhashable (items : Py.dict) (acc : Py.kdict) :
  Exists (fun kv => Py.hashable (snd kv) = false) items ->
  invert items acc = Raise TypeError.
Proof.
  intros H. revert acc. induction items as [|[k v] items IH]; intros acc.
  - inversion H.
  - simpl. destruct (Py.hashable v) eqn:Ev; [|reflexivity].
    apply IH. inversion H as [? ? Hh|? ? Hh]; subst; [|exact Hh].
    simpl in Hh. congruence.
Qed.

Section Dispatch.

Context {lib : Library}.

(** X4: a block whose effective type is none of radio, checkbox,
    short_text and matching (the comparison is exact: another spelling, or
    a configured type that is not a string) is read into a Question with
    its text and images and without options, whatever answer fields it
    holds. *)
Theorem unknown_type_no_options (url : string)
    (quiz_options : gmap string Py.value) (step : Dom.loc) (cfg : Py.dict)
    (imgs : list string) :
  step_config quiz_options step = Py.PDict cfg ->
  Py.eq_str (effective_type cfg step) "radio" = false ->
  Py.eq_str (effective_type cfg step) "checkbox" = false ->
  Py.eq_str (effective_type cfg step) "short_text" = false ->
  Py.eq_str (effective_type cfg step) "matching" = false ->
  question_images url step = Ok imgs ->
  parse_step url quiz_options step
  = Ok (Question.mk (question_text step) [] [] [] imgs).
Proof.
  intros Hcfg H1 H2 H3 H4 Himgs.
  apply (parse_step_assembles url quiz_options step cfg imgs [] Hcfg Himgs).
  unfold extract_options. rewrite H1, H2, H3, H4. reflexivity.
Qed.

(** X5: every option of a matching block is marked correct, so the
    [correct_answer] of its Question lists all the indices 0, 1, ... of
    its options. *)
Theorem matching_all_correct (url : string) (quiz_options : gmap string Py.value)
    (step : Dom.loc) (cfg : Py.dict) (q : Question.t) :
  step_config quiz_options step = Py.PDict cfg ->
  effective_type cfg step = Py.PStr "matching" ->
  parse_step url quiz_options step = Ok q ->
  Forall (fun o => AnswerOption.is_correct o = true) (Question.options q)
  /\ Question.correct_answer q = seq 0 (length (Question.options q)).
Proof.
  intros Hcfg Hty H.
  destruct (parse_step_options _ _ _ _ _ Hcfg H) as (Hos & _ & Hidx).
  rewrite Hty in Hos. apply matching_options_correct in Hos.
  split; [exact Hos|]. rewrite Hidx. apply correct_from_all. exact Hos.
Qed.

(** X6: the inverse of the mapping of a matching block is built when
    every value of the mapping is hashable, and it gives for an answer
    identifier the last position of the mapping whose value is that
    identifier (as a string): when two positions name the same answer, the
    later one is shown for it. *)
Theorem inverse_map_last_wins (items : Py.dict) :
  Forall (fun kv => Py.hashable (snd kv) = true) items ->
  exists inv_ans_map,
    invert items [] = Ok inv_ans_map
    /\ forall answer_id : string,
         Py.kdict_get (Py.PStr answer_id) inv_ans_map
         = last (omap (position_for answer_id) items).
Proof.
  intros H. destruct (invert_total items [] H) as (inv & Hinv).
  exists inv. split; [exact Hinv|]. intros a.
  rewrite (invert_lookup _ _ _ a Hinv).
  destruct (last (omap (position_for a) items)); reflexivity.
Qed.

(** X7: the options of a matching block are not extracted when its
    configured answer is not a mapping (AttributeError) or is a mapping
    with a value that is a list or an object (TypeError): the exception is
    raised before the pairs are looked at, also for a block without
    pairs. *)
Theorem matching_config_errors (url : string) (cfg : Py.dict) (step : Dom.loc)
    (v : Py.value) :
  Py.dict_get "question_answer" cfg = Some v ->
  match v with
  | Py.PDict items =>
      Exists (fun kv => Py.hashable (snd kv) = false) items ->
      extract_options url cfg (Py.PStr "matching") step = Raise TypeError
  | _ => extract_options url cfg (Py.PStr "matching") step = Raise AttributeError
  end.
Proof.
  intros Hv.
  assert (E : extract_options url cfg (Py.PStr "matching") step
              = (items ← Py.as_dict (question_answer cfg (Py.PDict []));
                 inv_ans_map ← invert items [];
                 option_loop (matching_pair url inv_ans_map) (matching_pairs step)))
    by reflexivity.
  rewrite E. unfold question_answer. rewrite Hv.
  destruct v; try reflexivity.
  intros Hex. cbn -[invert option_loop].
  rewrite (invert_unhashable _ _ Hex). reflexivity.
Qed.

Lemma choice_field_ill_typed (url : string) (cm : Py.value) (f : Dom.loc) :
  Py.truthy cm = true -> (forall d, cm <> Py.PDict d) ->
  has_input f = true ->
  exists e, choice_field url cm f = Raise e.
Proof.
  intros Htr Hnd Hin. unfold has_input in Hin. unfold choice_field.
  destruct (Css.select_one input_selector f) as [input_el|]; [|discriminate Hin].
  destruct (Css.label_selector (get_or_empty "id" (Dom.self input_el))) as [sel|e];
    simpl; [|eauto].
  assert (Hc : forall a, correctness cm a = Raise AttributeError).
  { intros a. unfold correctness. rewrite Htr.
    destruct cm; try reflexivity. exfalso. exact (Hnd d eq_refl). }
  destruct (Css.select_one sel f) as [label_el|]; simpl.
  - destruct (collect_images url label_el) as [imgs|e]; simpl; [|eauto].
    rewrite Hc. simpl. eauto.
  - rewrite Hc. simpl. eauto.
Qed.

(** X8: in a radio or checkbox block whose configured answer is not
    empty and not a mapping (a string, a number, a list), the options are
    extracted only when no answer field has an input control (there are
    none then); with an input control in some field the extraction
    raises. *)
Theorem choice_answer_ill_typed (url : string) (cfg : Py.dict) (t : string)
    (step : Dom.loc) (cm : Py.value) :
  t = "radio" \/ t = "checkbox" ->
  Py.dict_get "question_answer" cfg = Some cm ->
  Py.truthy cm = true -> (forall d, cm <> Py.PDict d) ->
  if existsb has_input (answer_fields step)
  then exists e, extract_options url cfg (Py.PStr t) step = Raise e
  else extract_options url cfg (Py.PStr t) step = Ok [].
Proof.
  intros Ht Hcm Htr Hnd.
  assert (Heq : extract_options url cfg (Py.PStr t) step
                = option_loop (choice_field url cm) (answer_fields step)).
  { unfold extract_options, question_answer. rewrite Hcm.
    destruct Ht as [-> | ->]; reflexivity. }
  rewrite Heq. clear Heq.
  induction (answer_fields step) as [|f fs IH]; [reflexivity|].
  cbn [existsb]. destruct (has_input f) eqn:Hf; cbn [orb].
  - destruct (choice_field_ill_typed url cm f Htr Hnd Hf) as (e & He).
    exists e. simpl. rewrite He. reflexivity.
  - simpl. rewrite (choice_field_skip url cm f Hf). simpl.
    destruct (existsb has_input fs).
    + destruct IH as (e & ->). exists e. reflexivity.
    + rewrite IH. reflexivity.
Qed.

End Dispatch.

Lemma unknown_type_no_options_witness :
  step_config ∅ (Sample.alone Pages.text_block) = Py.PDict []
  /\ effective_type [] (Sample.alone Pages.text_block) = Py.PStr "text"
  /\ length (answer_fields (Sample.alone Pages.text_block)) = 1
  /\ question_images (lib := Pages.library) Sample.page_url
       (Sample.alone Pages.text_block) = Ok []
  /\ parse_step (lib := Pages.library) Sample.page_url ∅
       (Sample.alone Pages.text_block)
     = Ok (Question.mk (question_text (Sample.alone Pages.text_block)) [] [] [] []).
Proof.
  assert (Hcfg : step_config ∅ (Sample.alone Pages.text_block) = Py.PDict [])
    by (vm_compute; reflexivity).
  assert (Himgs : question_images (lib := Pages.library) Sample.page_url
                    (Sample.alone Pages.text_block) = Ok [])
    by (vm_compute; reflexivity).
  split; [exact Hcfg|]. split; [vm_compute; reflexivity|].
  split; [vm_compute; reflexivity|]. split; [exact Himgs|].
  exact (unknown_type_no_options (lib := Pages.library) _ _ _ _ _ Hcfg
           eq_refl eq_refl eq_refl eq_refl Himgs).
Defined.

Lemma matching_all_correct_witness :
  step_config {[ "52456" := Sample.matching_config ]}
    (Sample.alone Sample.matching_block)
  = Py.PDict [("question_type", Py.PStr "matching");
              ("question_answer",
               Py.PDict [("1", Py.PStr "a7"); ("2", Py.PStr "b3")])]
  /\ parse_step (lib := Pages.library) Sample.page_url
       {[ "52456" := Sample.matching_config ]} (Sample.alone Sample.matching_block)
     = Ok Sample.matching_question
  /\ Forall (fun o => AnswerOption.is_correct o = true)
       (Question.options Sample.matching_question)
  /\ Question.correct_answer Sample.matching_question
     = seq 0 (length (Question.options Sample.matching_question)).
Proof.
  assert (Hcfg : step_config {[ "52456" := Sample.matching_config ]}
                   (Sample.alone Sample.matching_block)
                 = Py.PDict [("question_type", Py.PStr "matching");
                             ("question_answer",
                              Py.PDict [("1", Py.PStr "a7"); ("2", Py.PStr "b3")])])
    by (vm_compute; reflexivity).
  assert (H : parse_step (lib := Pages.library) Sample.page_url
                {[ "52456" := Sample.matching_config ]}
                (Sample.alone Sample.matching_block)
              = Ok Sample.matching_question) by (vm_compute; reflexivity).
  split; [exact Hcfg|]. split; [exact H|].
  exact (matching_all_correct _ _ _ _ _ Hcfg eq_refl H).
Defined.

Lemma inverse_map_last_wins_witness :
  Forall (fun kv => Py.hashable (snd kv) = true) Pages.shared_answers
  /\ last (omap (position_for "a7") Pages.shared_answers) = Some "2"
  /\ exists inv_ans_map,
       invert Pages.shared_answers [] = Ok inv_ans_map
       /\ forall answer_id : string,
            Py.kdict_get (Py.PStr answer_id) inv_ans_map
            = last (omap (position_for answer_id) Pages.shared_answers).
Proof.
  assert (H : Forall (fun kv => Py.hashable (snd kv) = true) Pages.shared_answers)
    by (repeat constructor).
  split; [exact H|]. split; [reflexivity|].
  exact (inverse_map_last_wins _ H).
Defined.

Lemma matching_config_errors_witness :
  Py.dict_get "question_answer"
    [("question_answer", Py.PDict Pages.listed_answers)]
  = Some (Py.PDict Pages.listed_answers)
  /\ Exists (fun kv => Py.hashable (snd kv) = false) Pages.listed_answers
  /\ matching_pairs (Sample.alone Sample.short_block) = []
  /\ extract_options (lib := Pages.library) Sample.page_url
       [("question_answer", Py.PDict Pages.listed_answers)]
       (Py.PStr "matching") (Sample.alone Sample.short_block)
     = Raise TypeError.
Proof.
  assert (Hv : Py.dict_get "question_answer"
                 [("question_answer", Py.PDict Pages.listed_answers)]
               = Some (Py.PDict Pages.listed_answers)) by reflexivity.
  assert (Hex : Exists (fun kv => Py.hashable (snd kv) = false) Pages.listed_answers)
    by (apply Exists_cons_tl; apply Exists_cons_hd; reflexivity).
  split; [exact Hv|]. split; [exact Hex|]. split; [vm_compute; reflexivity|].
  exact (matching_config_errors (lib := Pages.library) Sample.page_url _
           (Sample.alone Sample.short_block) _ Hv Hex).
Defined.

Lemma choice_answer_ill_typed_witness :
  Py.dict_get "question_answer" Pages.string_answer_cfg = Some (Py.PStr "2")
  /\ Py.truthy (Py.PStr "2") = true
  /\ existsb has_input (answer_fields (Sample.alone Sample.radio_block)) = true
  /\ exists e,
       extract_options (lib := Pages.library) Sample.page_url Pages.string_answer_cfg
         (Py.PStr "radio") (Sample.alone Sample.radio_block) = Raise e.
Proof.
  assert (Hcm : Py.dict_get "question_answer" Pages.string_answer_cfg
                = Some (Py.PStr "2")) by reflexivity.
  assert (Hin : existsb has_input (answer_fields (Sample.alone Sample.radio_block))
                = true) by (vm_compute; reflexivity).
  split; [exact Hcm|]. split; [reflexivity|]. split; [exact Hin|].
  pose proof (choice_answer_ill_typed (lib := Pages.library) Sample.page_url
                Pages.string_answer_cfg "radio" (Sample.alone Sample.radio_block)
                (Py.PStr "2") (or_introl eq_refl) Hcm eq_refl
                (fun d (H : Py.PStr "2" = Py.PDict d) =>
                   eq_ind (Py.PStr "2")
                     (fun v => match v with Py.PStr _ => True | _ => False end)
                     I _ H)) as H.
  rewrite Hin in H. exact H.
Defined.

(* ===================================================================== *)
(** ** Images and texts *)
(* ===================================================================== *)

Section Images.

Context {lib : Library}.

Lemma image_loop_spec (url : string) (imgs : list Dom.loc) (us : list string) :
  image_loop url imgs = Ok us <->
  Forall2 (fun src u => urljoin url src = Ok u)
    (omap (fun img_el =>
             match Dom.get "src" (Dom.self img_el) with
             | Some src => if PyStr.nonempty src then Some src else None
             | None => None
             end) imgs)
    us.
Proof.
  revert us. induction imgs as [|img imgs IH]; intros us.
  - simpl. split.
    + intros H. injection H as <-. constructor.
    + intros H. inversion H. reflexivity.
  - cbn [image_loop omap list_omap].
    destruct (Dom.get "src" (Dom.self img)) as [src|]; [|apply IH].
    destruct (PyStr.nonempty src); [|apply IH].
    split.
    + intros H. bind_inv H. bind_inv H. injection H as <-.
      constructor; [exact Ha | apply IH; exact Ha0].
    + intros H. inversion H as [|? u ? us' Hu Hus]; subst.
      rewrite Hu. simpl. apply IH in Hus. rewrite Hus. reflexivity.
Qed.

(** X9: the images of an element are collected exactly when every source
    that is present and not empty resolves against the page URL; the list
    then holds the resolved source of each such image, in document order,
    and an image without a source (or with an empty one) adds nothing. *)
Theorem images_resolved (url : string) (el : Dom.loc) (us : list string) :
  collect_images url el = Ok us <->
  Forall2 (fun src u => urljoin url src = Ok u) (image_sources el) us.
Proof. apply image_loop_spec. Qed.

End Images.

Section Trimmed.

Implicit Types (s t : string) (p : ascii -> bool).

Local Arguments String.append !_ _ : simpl nomatch.

Lemma lstrip_opens p s : opens_with (fun c => negb (p c)) (PyStr.lstrip_by p s).
Proof.
  induction s as [|c s IH]; simpl; [exact I|].
  destruct (p c) eqn:E; [exact IH|]. simpl. rewrite E. reflexivity.
Qed.

Lemma lstrip_id p s :
  opens_with (fun c => negb (p c)) s -> PyStr.lstrip_by p s = s.
Proof.
  destruct s as [|c s]; simpl; [reflexivity|].
  intros H. apply negb_true_iff in H. rewrite H. reflexivity.
Qed.

Lemma rstrip_opens p s :
  opens_with (fun c => negb (p c)) s ->
  opens_with (fun c => negb (p c)) (PyStr.rstrip_by p s).
Proof.
  destruct s as [|c s]; simpl; [exact (fun H => H)|].
  intros H. destruct (PyStr.rstrip_by p s); [|exact H].
  apply negb_true_iff in H. rewrite H. simpl. rewrite H. reflexivity.
Qed.

Lemma rstrip_idem p s :
  PyStr.rstrip_by p (PyStr.rstrip_by p s) = PyStr.rstrip_by p s.
Proof.
  induction s as [|c s IH]; simpl; [reflexivity|].
  destruct (PyStr.rstrip_by p s) as [|d r] eqn:E.
  - destruct (p c) eqn:Ec; simpl; [reflexivity | rewrite Ec; reflexivity].
  - change (PyStr.rstrip_by p (String c (String d r)))
      with (match PyStr.rstrip_by p (String d r) with
            | EmptyString => if p c then EmptyString else String c EmptyString
            | String d' r' => String c (String d' r')
            end).
    rewrite IH. reflexivity.
Qed.

Lemma strip_idem s : PyStr.strip (PyStr.strip s) = PyStr.strip s.
Proof.
  unfold PyStr.strip.
  rewrite (lstrip_id _ _ (rstrip_opens _ _ (lstrip_opens _ s))).
  apply rstrip_idem.
Qed.

(** A string is stripped when it neither starts nor ends with white
    space. *)
Lemma stripped_iff s :
  PyStr.strip s = s <->
  opens_with (fun c => negb (PyStr.isspace c)) s
  /\ PyStr.rstrip_by PyStr.isspace s = s.
Proof.
  split.
  - intros H. split.
    + rewrite <- H. unfold PyStr.strip. apply rstrip_opens, lstrip_opens.
    + rewrite <- H at 1. unfold PyStr.strip. rewrite rstrip_idem. exact H.
  - intros [Ho Hr]. unfold PyStr.strip. rewrite (lstrip_id _ _ Ho). exact Hr.
Qed.

Lemma rstrip_app p s t :
  PyStr.rstrip_by p t = t -> t <> "" -> PyStr.rstrip_by p (s +:+ t) = s +:+ t.
Proof.
  intros Ht Hne. induction s as [|c s IH]; simpl; [exact Ht|].
  rewrite IH. destruct (s +:+ t) eqn:E; [|reflexivity].
  destruct s; simpl in E; [contradiction | discriminate E].
Qed.

Lemma opens_app p s t : s <> "" -> opens_with p s -> opens_with p (s +:+ t).
Proof. destruct s; [contradiction | exact (fun _ H => H)]. Qed.

Lemma app_nonempty_r s t : t <> "" -> s +:+ t <> "".
Proof. destruct s; simpl; [exact (fun H => H) | discriminate]. Qed.

(** Stripped pieces that are not empty, joined by any separator, give a
    stripped text. *)
Lemma join_stripped (sep : string) (pieces : list string) :
  Forall (fun x => PyStr.strip x = x /\ x <> "") pieces ->
  PyStr.strip (PyStr.join sep pieces) = PyStr.join sep pieces
  /\ (pieces <> [] -> PyStr.join sep pieces <> "").
Proof.
  induction 1 as [|x l [Hx Hne] Hl [IH1 IH2]]; [split; [reflexivity | congruence]|].
  destruct l as [|y l]; [split; [exact Hx | intros _; exact Hne]|].
  change (PyStr.join sep (x :: y :: l))
    with (x +:+ sep +:+ PyStr.join sep (y :: l)).
  assert (Hrest : PyStr.join sep (y :: l) <> "") by (apply IH2; discriminate).
  split; [|intros _; apply app_nonempty_r, app_nonempty_r, Hrest].
  apply stripped_iff in Hx, IH1. destruct Hx as [Hxo Hxr]. destruct IH1 as [_ Hjr].
  apply stripped_iff. split.
  - apply opens_app; assumption.
  - apply rstrip_app; [|apply app_nonempty_r, Hrest].
    apply rstrip_app; assumption.
Qed.

Lemma get_text_stripped (sep : string) (n : Dom.node) :
  PyStr.strip (Dom.get_text_strip sep n) = Dom.get_text_strip sep n.
Proof.
  unfold Dom.get_text_strip. apply join_stripped.
  induction (Dom.strings n) as [|x l IH]; simpl; [constructor|].
  destruct (String.eqb_spec (PyStr.strip x) ""); simpl; [exact IH|].
  constructor; [|exact IH]. split; [apply strip_idem | assumption].
Qed.

End Trimmed.

Section TrimmedTexts.

Context {lib : Library}.

Lemma choice_field_text (url : string) (cm : Py.value) (f : Dom.loc)
    (o : AnswerOption.t) :
  choice_field url cm f = Ok (Some o) ->
  PyStr.strip (AnswerOption.text o) = AnswerOption.text o.
Proof.
  unfold choice_field.
  destruct (Css.select_one input_selector f) as [input_el|]; [|discriminate].
  intros H. bind_inv H. bind_inv H. destruct a0 as [text img_urls].
  bind_inv H. injection H as <-. simpl.
  destruct (Css.select_one a f) as [label_el|].
  - bind_inv Ha0. injection Ha0 as <- _. apply get_text_stripped.
  - injection Ha0 as <- _. reflexivity.
Qed.

(** X10: the text of a Question and, in a radio or checkbox block, the
    text of every option are stored stripped: they neither start nor end
    with white space (stripping them again changes nothing). *)
Theorem texts_stripped (url : string) (quiz_options : gmap string Py.value)
    (step : Dom.loc) (cfg : Py.dict) (t : string) (q : Question.t) :
  step_config quiz_options step = Py.PDict cfg ->
  effective_type cfg step = Py.PStr t ->
  t = "radio" \/ t = "checkbox" ->
  parse_step url quiz_options step = Ok q ->
  PyStr.strip (Question.text q) = Question.text q
  /\ Forall (fun o => PyStr.strip (AnswerOption.text o) = AnswerOption.text o)
       (Question.options q)
  /\ Forall (fun v => PyStr.strip v = v) (Question.variants q).
Proof.
  intros Hcfg Hty Ht H.
  destruct (parse_step_options _ _ _ _ _ Hcfg H) as (Hos & Hvar & _).
  assert (Htext : Question.text q = question_text step).
  { unfold parse_step in H. rewrite Hcfg in H. simpl in H.
    bind_inv H. bind_inv H. injection H as <-. reflexivity. }
  assert (Hopts : Forall (fun o => PyStr.strip (AnswerOption.text o)
                                   = AnswerOption.text o) (Question.options q)).
  { rewrite Hty in Hos.
    assert (Hloop : option_loop
                      (choice_field url (question_answer cfg (Py.PDict [])))
                      (answer_fields step) = Ok (Question.options q))
      by (unfold extract_options in Hos; destruct Ht as [-> | ->]; exact Hos).
    apply option_loop_inv in Hloop. destruct Hloop as (rs & Hrs & ->).
    induction Hrs as [|f r fs rs Hf _ IH]; [constructor|].
    destruct r as [o|]; simpl; [|exact IH].
    constructor; [|exact IH]. exact (choice_field_text _ _ _ _ Hf). }
  split; [|split; [exact Hopts|]].
  - rewrite Htext. unfold question_text.
    destruct (Css.select_one [[Css.Class "ays_quiz_question"]] step);
      [apply get_text_stripped | reflexivity].
  - rewrite Hvar. unfold variants_of. clear - Hopts.
    induction Hopts as [|o os Ho _ IH]; simpl; constructor; assumption.
Qed.

End TrimmedTexts.

Lemma texts_stripped_witness :
  step_config {[ "52458" := Sample.caption_config ]}
    (Sample.alone Sample.caption_block)
  = Py.PDict [("question_type", Py.PStr "radio");
              ("question_answer",
               Py.PDict [("1", Py.PStr "1"); ("2", Py.PStr "0")])]
  /\ parse_step (lib := Sample.library) Sample.page_url
       {[ "52458" := Sample.caption_config ]} (Sample.alone Sample.caption_block)
     = Ok Sample.caption_question
  /\ PyStr.strip (Question.text Sample.caption_question)
     = Question.text Sample.caption_question
  /\ Forall (fun o => PyStr.strip (AnswerOption.text o) = AnswerOption.text o)
       (Question.options Sample.caption_question)
  /\ Forall (fun v => PyStr.strip v = v) (Question.variants Sample.caption_question).
Proof.
  assert (Hcfg : step_config {[ "52458" := Sample.caption_config ]}
                   (Sample.alone Sample.caption_block)
                 = Py.PDict [("question_type", Py.PStr "radio");
                             ("question_answer",
                              Py.PDict [("1", Py.PStr "1"); ("2", Py.PStr "0")])])
    by (vm_compute; reflexivity).
  assert (H : parse_step (lib := Sample.library) Sample.page_url
                {[ "52458" := Sample.caption_config ]}
                (Sample.alone Sample.caption_block)
              = Ok Sample.caption_question) by (vm_compute; reflexivity).
  split; [exact Hcfg|]. split; [exact H|].
  exact (texts_stripped _ _ _ _ "radio" _ Hcfg eq_refl (or_introl eq_refl) H).
Defined.

(* ===================================================================== *)
(** ** Repeated configuration assignments *)
(* ===================================================================== *)

Section Repeated.

Context {lib : Library}.

Lemma no_entry_for (qid : string) (ms : list (string * string)) :
  Forall (fun m => fst m = qid -> decode_payload (snd m) = None) ms ->
  omap (entry_for qid) ms = [].
Proof.
  induction 1 as [|m ms Hm _ IH]; [reflexivity|].
  change (omap (entry_for qid) (m :: ms))
    with (match entry_for qid m with
          | Some y => y :: omap (entry_for qid) ms
          | None => omap (entry_for qid) ms
          end).
  unfold entry_for at 1. destruct (String.eqb_spec (fst m) qid) as [E|E].
  - rewrite (Hm E). exact IH.
  - exact IH.
Qed.

(** X11: when a question identifier is assigned several times, a later
    assignment whose token does not decode leaves the earlier one in
    place: the configuration of the identifier is the payload of its last
    assignment that decodes. *)
Theorem earlier_entry_survives (html : string) (ms1 ms2 : list (string * string))
    (qid b64 : string) (data : Py.value) :
  findall html = ms1 ++ (qid, b64) :: ms2 ->
  decode_payload b64 = Some data ->
  Forall (fun m => fst m = qid -> decode_payload (snd m) = None) ms2 ->
  _extract_quiz_options html !! qid = Some data.
Proof.
  intros Hms Hdec Hlater. unfold _extract_quiz_options.
  rewrite fold_store_lookup, Hms, omap_app.
  change (omap (entry_for qid) ((qid, b64) :: ms2))
    with (match entry_for qid (qid, b64) with
          | Some y => y :: omap (entry_for qid) ms2
          | None => omap (entry_for qid) ms2
          end).
  unfold entry_for at 2. simpl. rewrite String.eqb_refl, Hdec.
  rewrite (no_entry_for _ _ Hlater), last_snoc. reflexivity.
Qed.

End Repeated.

Lemma earlier_entry_survives_witness :
  findall (Library := Pages.library) Pages.repeated_html
  = [] ++ ("52455", Pages.radio_token) :: [("52455", Pages.cut_token)]
  /\ decode_payload (lib := Pages.library) Pages.radio_token = Some Sample.radio_config
  /\ Forall (fun m => fst m = "52455" ->
                      decode_payload (lib := Pages.library) (snd m) = None)
       [("52455", Pages.cut_token)]
  /\ _extract_quiz_options (lib := Pages.library) Pages.repeated_html !! "52455"
     = Some Sample.radio_config.
Proof.
  assert (Hms : findall (Library := Pages.library) Pages.repeated_html
                = [] ++ ("52455", Pages.radio_token) :: [("52455", Pages.cut_token)])
    by (vm_compute; reflexivity).
  assert (Hdec : decode_payload (lib := Pages.library) Pages.radio_token
                 = Some Sample.radio_config) by (vm_compute; reflexivity).
  assert (Hlater : Forall (fun m => fst m = "52455" ->
                                    decode_payload (lib := Pages.library) (snd m) = None)
                     [("52455", Pages.cut_token)]).
  { constructor; [|constructor]. intros _. vm_compute. reflexivity. }
  split; [exact Hms|]. split; [exact Hdec|]. split; [exact Hlater|].
  exact (earlier_entry_survives (lib := Pages.library) _ _ _ _ _ _ Hms Hdec Hlater).
Defined.

(* ===================================================================== *)
(** ** The walk over the pages of the category *)
(* ===================================================================== *)

Section Crawl.

Context {lib : Library} {http : Http}.

Lemma mem_true (x : string) (l : list string) :
  PyStr.mem x l = true <-> In x l.
Proof.
  unfold PyStr.mem. rewrite existsb_exists. split.
  - intros (y & Hy & E). apply String.eqb_eq in E. subst y. exact Hy.
  - intros H. exists x. split; [exact H | apply String.eqb_refl].
Qed.

Lemma add_link_cases (links : list string) (h2 : Dom.loc) :
  add_link links h2 = links
  \/ exists href, add_link links h2 = links ++ [href]
                  /\ href <> "" /\ ~ In href links.
Proof.
  unfold add_link.
  destruct (Dom.get "href" (Dom.self h2)) as [href|]; [|left; reflexivity].
  destruct (PyStr.nonempty href) eqn:Hne; [|left; reflexivity].
  destruct (PyStr.mem href links) eqn:Hm; [left; reflexivity|].
  right. exists href. split; [reflexivity|]. split.
  - intros E. rewrite E in Hne. discriminate Hne.
  - intros Hin. apply mem_true in Hin. congruence.
Qed.

Lemma add_link_keeps (links : list string) (h2 : Dom.loc) :
  NoDup links -> Forall (fun l => l <> "") links ->
  NoDup (add_link links h2) /\ Forall (fun l => l <> "") (add_link links h2)
  /\ exists more, add_link links h2 = links ++ more.
Proof.
  intros Hnd Hne. destruct (add_link_cases links h2) as [E|(href & E & Hh & Hin)];
    rewrite E.
  - split; [exact Hnd|]. split; [exact Hne|]. exists []. symmetry. apply app_nil_r.
  - split; [|split].
    + apply NoDup_app. split; [exact Hnd|]. split.
      * intros x Hx Hx'. apply list_elem_of_singleton in Hx'. subst x.
        apply Hin, list_elem_of_In, Hx.
      * apply NoDup_singleton.
    + apply Forall_app. split; [exact Hne|]. constructor; [exact Hh|constructor].
    + exists [href]. reflexivity.
Qed.

Lemma fold_links_keeps (hs : list Dom.loc) (links : list string) :
  NoDup links -> Forall (fun l => l <> "") links ->
  NoDup (fold_left add_link hs links)
  /\ Forall (fun l => l <> "") (fold_left add_link hs links)
  /\ exists more, fold_left add_link hs links = links ++ more.
Proof.
  revert links. induction hs as [|h hs IH]; intros links Hnd Hne.
  - split; [exact Hnd|]. split; [exact Hne|]. exists []. symmetry. apply app_nil_r.
  - destruct (add_link_keeps links h Hnd Hne) as (Hnd' & Hne' & more & E).
    destruct (IH _ Hnd' Hne') as (Hnd2 & Hne2 & more2 & E2).
    split; [exact Hnd2|]. split; [exact Hne2|].
    exists (more ++ more2). simpl. rewrite E2, E. symmetry. apply app_assoc.
Qed.

Lemma links_loop_keeps (fuel page : nat) (links ls : list string) :
  links_loop fuel page links = Returns ls ->
  NoDup links -> Forall (fun l => l <> "") links ->
  NoDup ls /\ Forall (fun l => l <> "") ls /\ exists more, ls = links ++ more.
Proof.
  revert page links. induction fuel as [|fuel IH]; intros page links H Hnd Hne;
    [discriminate H|].
  simpl in H. destruct (fetch_html (category_url page)) as [e|html];
    [discriminate H|].
  destruct (fold_links_keeps
              (Css.select title_link_selector (Dom.document (BeautifulSoup html)))
              links Hnd Hne) as (Hnd' & Hne' & more & E).
  destruct (has_next (Dom.document (BeautifulSoup html))).
  - destruct (IH _ _ H Hnd' Hne') as (Hnd2 & Hne2 & more2 & E2).
    split; [exact Hnd2|]. split; [exact Hne2|].
    exists (more ++ more2). rewrite E2, E. symmetry. apply app_assoc.
  - injection H as <-. split; [exact Hnd'|]. split; [exact Hne'|].
    exists more. exact E.
Qed.

Lemma get_test_links_inv (fuel : nat) (ls : list string) :
  get_test_links fuel = Returns ls ->
  exists all, links_loop fuel 1 [] = Returns all /\ ls = firstn 2 all.
Proof.
  unfold get_test_links. destruct (links_loop fuel 1 []) as [all|e|];
    intros H; try discriminate H.
  injection H as <-. exists all. split; reflexivity.
Qed.

(** X12: whatever the site serves, a list returned by [get_test_links]
    holds at most two links, no link twice and no empty link. *)
Theorem links_distinct (fuel : nat) (ls : list string) :
  get_test_links fuel = Returns ls ->
  length ls <= 2 /\ NoDup ls /\ Forall (fun l => l <> "") ls.
Proof.
  intros H. destruct (get_test_links_inv _ _ H) as (all & Hall & ->).
  destruct (links_loop_keeps _ _ _ _ Hall (NoDup_nil_2 : NoDup [])
              (Forall_nil_2 _)) as (Hnd & Hne & _).
  split; [|split].
  - rewrite length_take. apply Nat.le_min_l.
  - eapply sublist_NoDup; [exact Hnd | apply sublist_take].
  - apply Forall_take, Hne.
Qed.

(** X13: when the first page of the category alone gives two links, they
    are the list returned, whatever the later pages hold. *)
Theorem first_page_decides (fuel : nat) (html : string) (ls : list string) :
  fetch_html BASE_CATEGORY_URL = inr html ->
  2 <= length (page_links html []) ->
  get_test_links fuel = Returns ls ->
  ls = firstn 2 (page_links html []).
Proof.
  intros Hfetch Hlen H. destruct (get_test_links_inv _ _ H) as (all & Hall & ->).
  destruct fuel as [|fuel]; [discriminate Hall|].
  simpl in Hall. change (category_url 1) with BASE_CATEGORY_URL in Hall.
  rewrite Hfetch in Hall.
  change (fold_left add_link
            (Css.select title_link_selector (Dom.document (BeautifulSoup html))) [])
    with (page_links html []) in Hall.
  destruct (has_next (Dom.document (BeautifulSoup html))).
  - destruct (fold_links_keeps
                (Css.select title_link_selector (Dom.document (BeautifulSoup html)))
                [] (NoDup_nil_2 : NoDup []) (Forall_nil_2 _)) as (Hnd & Hne & _).
    destruct (links_loop_keeps _ _ _ _ Hall Hnd Hne) as (_ & _ & more & ->).
    apply take_app_le, Hlen.
  - injection Hall as <-. reflexivity.
Qed.

Lemma served_app (page : nat) (htmls more : list string) :
  served page (htmls ++ more)
  <-> served page htmls /\ served (page + length htmls) more.
Proof.
  revert page. induction htmls as [|h t IH]; intros page; simpl.
  - rewrite Nat.add_0_r. tauto.
  - rewrite IH, Nat.add_succ_r. simpl. tauto.
Qed.

Lemma links_loop_pages (htmls : list string) (fuel page : nat)
    (links : list string) :
  served page htmls ->
  Forall (fun html => page_has_next html = true) htmls ->
  links_loop (length htmls + fuel) page links
  = links_loop fuel (page + length htmls) (collected htmls links).
Proof.
  revert page links. induction htmls as [|h t IH]; intros page links Hs Hn.
  - simpl. rewrite Nat.add_0_r. reflexivity.
  - destruct Hs as [Hh Ht]. inversion Hn as [|? ? Hnext Hn']; subst.
    simpl. rewrite Hh. unfold page_has_next in Hnext. rewrite Hnext.
    rewrite (IH _ _ Ht Hn'), Nat.add_succ_r. reflexivity.
Qed.

(** X14: when the site serves the pages of the category one after the
    other, each but the last with a link to a next page, the walk ends at
    the last page and returns the first two of the links collected over
    all of them. *)
Theorem walk_returns (htmls : list string) (final : string) (fuel : nat) :
  served 1 (htmls ++ [final]) ->
  Forall (fun html => page_has_next html = true) htmls ->
  page_has_next final = false ->
  length htmls < fuel ->
  get_test_links fuel = Returns (firstn 2 (collected (htmls ++ [final]) [])).
Proof.
  intros Hs Hn Hlast Hfuel. apply served_app in Hs. destruct Hs as [Hs [Hf _]].
  unfold get_test_links.
  replace fuel with (length htmls + S (fuel - S (length htmls))) by lia.
  rewrite (links_loop_pages _ _ _ _ Hs Hn). simpl in Hf |- *. rewrite Hf.
  unfold page_has_next in Hlast. rewrite Hlast.
  unfold collected. rewrite fold_left_app. reflexivity.
Qed.

(** X15: when a page the walk reaches cannot be fetched, [get_test_links]
    raises the error of the request, and returns none of the links of
    the pages before. *)
Theorem walk_raises (htmls : list string) (e : Requests.error) (fuel : nat) :
  served 1 htmls ->
  Forall (fun html => page_has_next html = true) htmls ->
  fetch_html (category_url (1 + length htmls)) = inl e ->
  length htmls < fuel ->
  get_test_links fuel = Raises e.
Proof.
  intros Hs Hn Hf Hfuel. unfold get_test_links.
  replace fuel with (length htmls + S (fuel - S (length htmls))) by lia.
  rewrite (links_loop_pages _ _ _ _ Hs Hn). simpl in Hf |- *. rewrite Hf.
  reflexivity.
Qed.

Lemma links_loop_endless (fuel page : nat) (links : list string) :
  (forall page, exists html,
      fetch_html (category_url page) = inr html /\ page_has_next html = true) ->
  links_loop fuel page links = OutOfFuel.
Proof.
  intros Hall. revert page links. induction fuel as [|fuel IH]; intros page links;
    [reflexivity|].
  destruct (Hall page) as (html & Hf & Hnext). simpl. rewrite Hf.
  unfold page_has_next in Hnext. rewrite Hnext. apply IH.
Qed.

(** X16: the walk has no bound of its own: on a site where every page of
    the category is served with a link to a next page it does not end,
    whatever the number of pages allowed. *)
Theorem walk_unbounded (fuel : nat) :
  (forall page, exists html,
      fetch_html (category_url page) = inr html /\ page_has_next html = true) ->
  get_test_links fuel = OutOfFuel.
Proof.
  intros Hall. unfold get_test_links.
  rewrite (links_loop_endless fuel 1 [] Hall). reflexivity.
Qed.

End Crawl.

Lemma links_distinct_witness :
  get_test_links (lib := Pages.library) (http := Pages.http) 5
  = Returns ["https://info-master.uz/test-1/"; "https://info-master.uz/test-2/"]
  /\ length ["https://info-master.uz/test-1/"; "https://info-master.uz/test-2/"] <= 2
  /\ NoDup ["https://info-master.uz/test-1/"; "https://info-master.uz/test-2/"]
  /\ Forall (fun l => l <> "")
       ["https://info-master.uz/test-1/"; "https://info-master.uz/test-2/"].
Proof.
  assert (H : get_test_links (lib := Pages.library) (http := Pages.http) 5
              = Returns ["https://info-master.uz/test-1/";
                         "https://info-master.uz/test-2/"])
    by (vm_compute; reflexivity).
  split; [exact H|].
  exact (links_distinct (lib := Pages.library) (http := Pages.http) 5 _ H).
Defined.

Lemma first_page_decides_witness :
  fetch_html (http := Pages.http) BASE_CATEGORY_URL = inr Pages.category_html_1
  /\ 2 <= length (page_links (lib := Pages.library) Pages.category_html_1 [])
  /\ get_test_links (lib := Pages.library) (http := Pages.http) 5
     = Returns ["https://info-master.uz/test-1/"; "https://info-master.uz/test-2/"]
  /\ ["https://info-master.uz/test-1/"; "https://info-master.uz/test-2/"]
     = firstn 2 (page_links (lib := Pages.library) Pages.category_html_1 []).
Proof.
  assert (Hf : fetch_html (http := Pages.http) BASE_CATEGORY_URL
               = inr Pages.category_html_1) by (vm_compute; reflexivity).
  assert (Hl : 2 <= length (page_links (lib := Pages.library)
                              Pages.category_html_1 []))
    by (vm_compute; lia).
  assert (H : get_test_links (lib := Pages.library) (http := Pages.http) 5
              = Returns ["https://info-master.uz/test-1/";
                         "https://info-master.uz/test-2/"])
    by (vm_compute; reflexivity).
  split; [exact Hf|]. split; [exact Hl|]. split; [exact H|].
  exact (first_page_decides (lib := Pages.library) (http := Pages.http)
           5 _ _ Hf Hl H).
Defined.

Lemma walk_returns_witness :
  served (http := Pages.http) 1 ([Pages.category_html_1] ++ [Pages.category_html_2])
  /\ Forall (fun html => page_has_next (lib := Pages.library) html = true)
       [Pages.category_html_1]
  /\ page_has_next (lib := Pages.library) Pages.category_html_2 = false
  /\ length [Pages.category_html_1] < 2
  /\ get_test_links (lib := Pages.library) (http := Pages.http) 2
     = Returns (firstn 2 (collected (lib := Pages.library)
                            ([Pages.category_html_1] ++ [Pages.category_html_2]) [])).
Proof.
  assert (Hs : served (http := Pages.http) 1
                 ([Pages.category_html_1] ++ [Pages.category_html_2])).
  { split; [vm_compute; reflexivity|]. split; [vm_compute; reflexivity|exact I]. }
  assert (Hn : Forall (fun html => page_has_next (lib := Pages.library) html = true)
                 [Pages.category_html_1]).
  { constructor; [vm_compute; reflexivity|constructor]. }
  assert (Hl : page_has_next (lib := Pages.library) Pages.category_html_2 = false)
    by (vm_compute; reflexivity).
  assert (Hfuel : length [Pages.category_html_1] < 2) by (simpl; lia).
  split; [exact Hs|]. split; [exact Hn|]. split; [exact Hl|]. split; [exact Hfuel|].
  exact (walk_returns (lib := Pages.library) (http := Pages.http)
           [Pages.category_html_1] Pages.category_html_2 2 Hs Hn Hl Hfuel).
Defined.

Lemma walk_raises_witness :
  served (http := Pages.offline_http) 1 [Pages.category_html_1]
  /\ Forall (fun html => page_has_next (lib := Pages.library) html = true)
       [Pages.category_html_1]
  /\ fetch_html (http := Pages.offline_http)
       (category_url (1 + length [Pages.category_html_1]))
     = inl Requests.RequestException
  /\ length [Pages.category_html_1] < 2
  /\ 2 <= length (page_links (lib := Pages.library) Pages.category_html_1 [])
  /\ get_test_links (lib := Pages.library) (http := Pages.offline_http) 2
     = Raises Requests.RequestException.
Proof.
  assert (Hs : served (http := Pages.offline_http) 1 [Pages.category_html_1]).
  { split; [vm_compute; reflexivity|exact I]. }
  assert (Hn : Forall (fun html => page_has_next (lib := Pages.library) html = true)
                 [Pages.category_html_1]).
  { constructor; [vm_compute; reflexivity|constructor]. }
  assert (Hf : fetch_html (http := Pages.offline_http)
                 (category_url (1 + length [Pages.category_html_1]))
               = inl Requests.RequestException) by (vm_compute; reflexivity).
  assert (Hfuel : length [Pages.category_html_1] < 2) by (simpl; lia).
  assert (Hl : 2 <= length (page_links (lib := Pages.library)
                              Pages.category_html_1 []))
    by (vm_compute; lia).
  split; [exact Hs|]. split; [exact Hn|]. split; [exact Hf|]. split; [exact Hfuel|].
  split; [exact Hl|].
  exact (walk_raises (lib := Pages.library) (http := Pages.offline_http)
           [Pages.category_html_1] _ 2 Hs Hn Hf Hfuel).
Defined.

Lemma walk_unbounded_witness :
  (forall page, exists html,
      fetch_html (http := Pages.endless_http) (category_url page) = inr html
      /\ page_has_next (lib := Pages.library) html = true)
  /\ get_test_links (lib := Pages.library) (http := Pages.endless_http) 7
     = OutOfFuel.
Proof.
  assert (Hall : forall page, exists html,
             fetch_html (http := Pages.endless_http) (category_url page) = inr html
             /\ page_has_next (lib := Pages.library) html = true).
  { intros page. exists Pages.category_html_1. split; [reflexivity|].
    vm_compute. reflexivity. }
  split; [exact Hall|].
  exact (walk_unbounded (lib := Pages.library) (http := Pages.endless_http) 7 Hall).
Defined.
